(** * StudyCircle: row-level policies and page operations over the entity store

    The store is the schema of [supabase/migrations]: one list of rows per
    table, in insertion order.  Every query the pages issue goes through the
    row-level security policy of its table, evaluated for the caller's
    [auth.uid()]; a policy that reads the table it protects makes the whole
    statement fail.  The page functions ([acceptAnswer], [upvoteAnswer],
    [joinGroup], ...) are written over that store with the React state they
    read passed in as an argument. *)

From Stdlib Require Import String Ascii List ZArith Bool QArith DecimalString Sorted Lia.
Import ListNotations.
Local Open Scope string_scope.
Local Open Scope Z_scope.

(** ** Identities *)

Definition uuid := string.

(** [auth.uid()]: the id of the signed-in user, NULL for the anonymous role. *)
Definition actor := option uuid.

(** SQL [auth.uid() = col].  With a NULL uid the comparison is unknown, and a
    policy admits a row only when its expression is true. *)
Definition auth_uid_eq (a : actor) (col : uuid) : bool :=
  match a with
  | Some u => String.eqb u col
  | None => false
  end.

(** ** Enumerated types of the schema *)

Inductive difficulty_level := easy | medium | hard.
Inductive group_role := admin | moderator | member.
Inductive privacy_level := public | private | invite_only.
Inductive message_type := text | file | system.
Inductive notification_type :=
  question_answered | answer_accepted | group_invitation | resource_shared | points_earned.

Definition privacy_eqb (p q : privacy_level) : bool :=
  match p, q with
  | public, public | private, private | invite_only, invite_only => true
  | _, _ => false
  end.

(** ** Rows.  An INTEGER column without NOT NULL is [option Z] (None = NULL);
    the integer values the pages compute with are in [Z]. *)

Module question.
Record row := mk {
  id : uuid;
  user_id : uuid;
  title : string;
  content : string;
  difficulty : difficulty_level;
  view_count : option Z;
  upvotes : option Z;
  is_resolved : bool }.
Definition set_view_count (v : option Z) (r : row) : row :=
  mk (id r) (user_id r) (title r) (content r) (difficulty r) v (upvotes r) (is_resolved r).
Definition set_is_resolved (b : bool) (r : row) : row :=
  mk (id r) (user_id r) (title r) (content r) (difficulty r) (view_count r) (upvotes r) b.
End question.

Module answer.
Record row := mk {
  id : uuid;
  question_id : uuid;
  user_id : uuid;
  content : string;
  upvotes : option Z;
  is_accepted : bool }.
Definition set_upvotes (v : option Z) (r : row) : row :=
  mk (id r) (question_id r) (user_id r) (content r) v (is_accepted r).
Definition set_is_accepted (b : bool) (r : row) : row :=
  mk (id r) (question_id r) (user_id r) (content r) (upvotes r) b.
End answer.

Module study_group.
Record row := mk {
  id : uuid;
  name : string;
  creator_id : uuid;
  max_members : Z;
  privacy : privacy_level }.
End study_group.

Module group_member.
Record row := mk {
  group_id : uuid;
  user_id : uuid;
  role : group_role }.
End group_member.

Module resource.
Record row := mk {
  id : uuid;
  user_id : uuid;
  title : string;
  file_url : string;
  download_count : option Z }.
Definition set_download_count (v : option Z) (r : row) : row :=
  mk (id r) (user_id r) (title r) (file_url r) v.
End resource.

Module message.
Record row := mk {
  id : uuid;
  group_id : uuid;
  user_id : uuid;
  content : string;
  kind : message_type;
  created_at : Z }.
End message.

Module notification.
Record row := mk {
  id : uuid;
  user_id : uuid;
  type : notification_type;
  title : string;
  is_read : bool }.
End notification.

Module badge.
Record row := mk {
  id : uuid;
  name : string;
  requirement_type : string;
  requirement_value : Z }.
End badge.

Module user_badge.
Record row := mk {
  user_id : uuid;
  badge_id : uuid }.
End user_badge.

Module profile.
Record row := mk {
  user_id : uuid;
  full_name : string;
  points : Z }.
End profile.

Module subject.
Record row := mk {
  id : uuid;
  name : string;
  code : string;
  is_active : bool }.
End subject.

(** ** The store *)

Record Db := mkDb {
  profiles : list profile.row;
  questions : list question.row;
  answers : list answer.row;
  study_groups : list study_group.row;
  group_members : list group_member.row;
  resources : list resource.row;
  messages : list message.row;
  notifications : list notification.row;
  badges : list badge.row;
  user_badges : list user_badge.row }.

Definition with_questions (l : list question.row) (db : Db) : Db :=
  mkDb (profiles db) l (answers db) (study_groups db) (group_members db)
       (resources db) (messages db) (notifications db) (badges db) (user_badges db).

Definition with_answers (l : list answer.row) (db : Db) : Db :=
  mkDb (profiles db) (questions db) l (study_groups db) (group_members db)
       (resources db) (messages db) (notifications db) (badges db) (user_badges db).

Definition with_group_members (l : list group_member.row) (db : Db) : Db :=
  mkDb (profiles db) (questions db) (answers db) (study_groups db) l
       (resources db) (messages db) (notifications db) (badges db) (user_badges db).

Definition with_resources (l : list resource.row) (db : Db) : Db :=
  mkDb (profiles db) (questions db) (answers db) (study_groups db) (group_members db)
       l (messages db) (notifications db) (badges db) (user_badges db).

Definition with_profiles (l : list profile.row) (db : Db) : Db :=
  mkDb l (questions db) (answers db) (study_groups db) (group_members db)
       (resources db) (messages db) (notifications db) (badges db) (user_badges db).

Definition with_study_groups (l : list study_group.row) (db : Db) : Db :=
  mkDb (profiles db) (questions db) (answers db) l (group_members db)
       (resources db) (messages db) (notifications db) (badges db) (user_badges db).

Definition with_messages (l : list message.row) (db : Db) : Db :=
  mkDb (profiles db) (questions db) (answers db) (study_groups db) (group_members db)
       (resources db) l (notifications db) (badges db) (user_badges db).

Definition with_notifications (l : list notification.row) (db : Db) : Db :=
  mkDb (profiles db) (questions db) (answers db) (study_groups db) (group_members db)
       (resources db) (messages db) l (badges db) (user_badges db).

(** User [u] has a membership row for group [g]. *)
Definition is_member (db : Db) (u g : uuid) : Prop :=
  exists gm, In gm (group_members db) /\
             group_member.group_id gm = g /\ group_member.user_id gm = u.

(** ** Tables, and the tables their policies read *)

Inductive table :=
| t_profiles | t_subjects | t_questions | t_answers | t_study_groups | t_group_members
| t_resources | t_messages | t_notifications | t_badges | t_user_badges.

Definition table_index (t : table) : nat :=
  match t with
  | t_profiles => 0 | t_subjects => 1 | t_questions => 2 | t_answers => 3
  | t_study_groups => 4 | t_group_members => 5 | t_resources => 6 | t_messages => 7
  | t_notifications => 8 | t_badges => 9 | t_user_badges => 10
  end%nat.

Definition table_eqb (x y : table) : bool := Nat.eqb (table_index x) (table_index y).

Module Policy.

(** The tables named in the subqueries of a table's SELECT policy.  Two
    policies have a subquery, "Group members are viewable by group members"
    on group_members and "Group members can view messages" on messages, and
    both select FROM group_members. *)
Definition select_reads (t : table) : list table :=
  match t with
  | t_group_members => [t_group_members]
  | t_messages => [t_group_members]
  | _ => []
  end.

(** The tables named in the subqueries of a table's INSERT policy: the
    WITH CHECK of "Group members can create messages" selects FROM
    group_members. *)
Definition insert_reads (t : table) : list table :=
  match t with
  | t_messages => [t_group_members]
  | _ => []
  end.

(** Row security is added when a statement is rewritten: a read of [t] gets
    the SELECT policy of [t], whose subqueries are rewritten in the same way.
    [active] lists the tables whose policy is being expanded; meeting one of
    them again is error 42P17, "infinite recursion detected in policy for
    relation".  The error is raised for the statement as a whole, before any
    row is read: it depends neither on the caller nor on what the tables
    hold.  The result is false when the expansion ends in that error. *)
Fixpoint expand (fuel : nat) (active : list table) (t : table) : bool :=
  match fuel with
  | O => false
  | S n =>
      negb (existsb (table_eqb t) active)
      && forallb (expand n (t :: active)) (select_reads t)
  end.

(** A statement that reads [t]. *)
Definition select_expands (t : table) : bool := expand 12 [] t.

(** An INSERT into [t] that returns no row: only the WITH CHECK expression
    of the INSERT policy is added, and its subqueries are rewritten. *)
Definition insert_expands (t : table) : bool :=
  forallb (expand 12 [t]) (insert_reads t).

End Policy.

(** ** Row-level security policies, one definition per CREATE POLICY *)

Module Rls.

(** "Questions are viewable by everyone": USING (true). *)
Definition questions_select (_ : actor) (_ : question.row) : bool := true.
(** "Users can create questions": WITH CHECK (auth.uid() = user_id). *)
Definition questions_insert (a : actor) (r : question.row) : bool :=
  auth_uid_eq a (question.user_id r).
(** "Users can update their own questions": USING (auth.uid() = user_id). *)
Definition questions_update (a : actor) (r : question.row) : bool :=
  auth_uid_eq a (question.user_id r).

(** "Answers are viewable by everyone". *)
Definition answers_select (_ : actor) (_ : answer.row) : bool := true.
(** "Users can create answers". *)
Definition answers_insert (a : actor) (r : answer.row) : bool :=
  auth_uid_eq a (answer.user_id r).
(** "Users can update their own answers": USING (auth.uid() = user_id). *)
Definition answers_update (a : actor) (r : answer.row) : bool :=
  auth_uid_eq a (answer.user_id r).

(** "Public groups are viewable by everyone":
    USING (privacy = 'public' OR creator_id = auth.uid()). *)
Definition study_groups_select (a : actor) (g : study_group.row) : bool :=
  privacy_eqb (study_group.privacy g) public || auth_uid_eq a (study_group.creator_id g).
(** "Users can create study groups". *)
Definition study_groups_insert (a : actor) (g : study_group.row) : bool :=
  auth_uid_eq a (study_group.creator_id g).
(** "Creators can update their groups". *)
Definition study_groups_update (a : actor) (g : study_group.row) : bool :=
  auth_uid_eq a (study_group.creator_id g).

(** The EXISTS subquery shared by the membership and message policies:
    some row [gm] of [rows] has [gm.group_id = g AND gm.user_id = auth.uid()]. *)
Definition exists_membership (rows : list group_member.row) (a : actor) (g : uuid) : bool :=
  existsb (fun gm => String.eqb (group_member.group_id gm) g
                     && auth_uid_eq a (group_member.user_id gm)) rows.

(** "Group members are viewable by group members":
    USING (EXISTS (SELECT 1 FROM group_members gm
                   WHERE gm.group_id = group_members.group_id
                     AND gm.user_id = auth.uid())).
    The subquery selects from the table the policy protects, so the policy
    is needed to expand itself: None is error 42P17. *)
Definition group_members_select (db : Db) (a : actor) (r : group_member.row)
    : option bool :=
  if Policy.select_expands t_group_members
  then Some (exists_membership (group_members db) a (group_member.group_id r))
  else None.

(** The rows of group_members that the subquery of another policy reads as
    the caller. *)
Definition visible_group_members (db : Db) (a : actor) : list group_member.row :=
  filter (fun r => match group_members_select db a r with
                   | Some b => b
                   | None => false
                   end) (group_members db).
(** "Users can join groups": WITH CHECK (auth.uid() = user_id). *)
Definition group_members_insert (a : actor) (r : group_member.row) : bool :=
  auth_uid_eq a (group_member.user_id r).

(** "Resources are viewable by everyone", "Users can upload resources",
    "Users can update their own resources". *)
Definition resources_select (_ : actor) (_ : resource.row) : bool := true.
Definition resources_insert (a : actor) (r : resource.row) : bool :=
  auth_uid_eq a (resource.user_id r).
Definition resources_update (a : actor) (r : resource.row) : bool :=
  auth_uid_eq a (resource.user_id r).

(** "Group members can view messages":
    USING (EXISTS (SELECT 1 FROM group_members gm
                   WHERE gm.group_id = messages.group_id
                     AND gm.user_id = auth.uid())).
    The subquery reads group_members as the caller, under that table's
    SELECT policy; None is error 42P17. *)
Definition messages_select (db : Db) (a : actor) (m : message.row) : option bool :=
  if Policy.select_expands t_messages
  then Some (exists_membership (visible_group_members db a) a (message.group_id m))
  else None.
(** "Group members can create messages": WITH CHECK (auth.uid() = user_id AND
    EXISTS (the same subquery)); None is error 42P17. *)
Definition messages_insert (db : Db) (a : actor) (m : message.row) : option bool :=
  if Policy.insert_expands t_messages
  then Some (auth_uid_eq a (message.user_id m)
             && exists_membership (visible_group_members db a) a (message.group_id m))
  else None.

(** Notifications: own rows for SELECT and UPDATE, WITH CHECK (true) on INSERT. *)
Definition notifications_select (a : actor) (n : notification.row) : bool :=
  auth_uid_eq a (notification.user_id n).
Definition notifications_insert (_ : actor) (_ : notification.row) : bool := true.
Definition notifications_update (a : actor) (n : notification.row) : bool :=
  auth_uid_eq a (notification.user_id n).

(** Badges and user badges: readable by everyone; awards are unrestricted. *)
Definition badges_select (_ : actor) (_ : badge.row) : bool := true.
Definition user_badges_select (_ : actor) (_ : user_badge.row) : bool := true.
Definition user_badges_insert (_ : actor) (_ : user_badge.row) : bool := true.

(** "Profiles are viewable by everyone", "Users can insert their own profile",
    "Users can update their own profile". *)
Definition profiles_select (_ : actor) (_ : profile.row) : bool := true.
Definition profiles_insert (a : actor) (r : profile.row) : bool :=
  auth_uid_eq a (profile.user_id r).
Definition profiles_update (a : actor) (r : profile.row) : bool :=
  auth_uid_eq a (profile.user_id r).

(** "Subjects are viewable by everyone". *)
Definition subjects_select (_ : actor) (_ : subject.row) : bool := true.

End Rls.

(** ** The query layer: [supabase.from(table)...] as run by the store *)

Module Supabase.

(** The [error] member of a response. *)
Inductive PostgrestError :=
| rls_violation               (* 42501: new row violates row-level security policy *)
| unique_violation            (* 23505 *)
| foreign_key_violation       (* 23503 *)
| infinite_recursion          (* 42P17: infinite recursion detected in policy *)
| numeric_value_out_of_range. (* 22003: value out of range for type integer *)

(** [UPDATE t SET ... WHERE cond] under an UPDATE policy: a row that fails
    the policy's USING expression is not available for modification and is
    skipped without an error. *)
Definition update_where {R : Type} (policy cond : R -> bool) (set : R -> R)
    (rows : list R) : list R :=
  map (fun r => if cond r && policy r then set r else r) rows.

(** [.from('questions').update(set).eq(...)] *)
Definition update_questions (a : actor) (cond : question.row -> bool)
    (set : question.row -> question.row) (db : Db) : Db * option PostgrestError :=
  (with_questions (update_where (Rls.questions_update a) cond set (questions db)) db, None).

(** [.from('answers').update(set).eq(...)] *)
Definition update_answers (a : actor) (cond : answer.row -> bool)
    (set : answer.row -> answer.row) (db : Db) : Db * option PostgrestError :=
  (with_answers (update_where (Rls.answers_update a) cond set (answers db)) db, None).

(** [.from('resources').update(set).eq(...)] *)
Definition update_resources (a : actor) (cond : resource.row -> bool)
    (set : resource.row -> resource.row) (db : Db) : Db * option PostgrestError :=
  (with_resources (update_where (Rls.resources_update a) cond set (resources db)) db, None).

(** An INTEGER column holds NULL or a 32-bit signed value. *)
Definition int4 (v : option Z) : bool :=
  match v with
  | None => true
  | Some n => (-2147483648 <=? n) && (n <=? 2147483647)
  end.

(** An update whose body assigns [v] to an INTEGER column: a value outside
    the range of the type makes the statement fail with 22003, and nothing
    is changed. *)
Definition update_integer {R : Type}
    (update : (R -> R) -> Db -> Db * option PostgrestError)
    (set : option Z -> R -> R) (v : option Z) (db : Db) : Db * option PostgrestError :=
  if int4 v then update (set v) db else (db, Some numeric_value_out_of_range).

(** [.from('group_members').insert([r])]: the policy's WITH CHECK first, then
    the foreign key to [study_groups] and UNIQUE(group_id, user_id). *)
Definition insert_group_member (a : actor) (r : group_member.row) (db : Db)
    : Db * option PostgrestError :=
  if negb (Rls.group_members_insert a r) then (db, Some rls_violation)
  else if negb (existsb (fun g => String.eqb (study_group.id g) (group_member.group_id r))
                        (study_groups db))
  then (db, Some foreign_key_violation)
  else if existsb (fun gm => String.eqb (group_member.group_id gm) (group_member.group_id r)
                             && String.eqb (group_member.user_id gm) (group_member.user_id r))
                  (group_members db)
  then (db, Some unique_violation)
  else (with_group_members (group_members db ++ [r]) db, None).

(** [.from('questions').select(...).eq('id', id).single()] *)
Definition select_question (a : actor) (id : uuid) (db : Db) : option question.row :=
  find (fun q => String.eqb (question.id q) id)
       (filter (Rls.questions_select a) (questions db)).

(** [.from('answers').select(...).eq('question_id', id)] *)
Definition select_answers (a : actor) (id : uuid) (db : Db) : list answer.row :=
  filter (fun r => String.eqb (answer.question_id r) id)
         (filter (Rls.answers_select a) (answers db)).

(** [.from('resources').select(...)] *)
Definition select_resources (a : actor) (db : Db) : list resource.row :=
  filter (Rls.resources_select a) (resources db).

(** [.from('study_groups').select(...)] *)
Definition select_study_groups (a : actor) (db : Db) : list study_group.row :=
  filter (Rls.study_groups_select a) (study_groups db).

(** [.from('notifications').update(set).eq(...)] *)
Definition update_notifications (a : actor) (cond : notification.row -> bool)
    (set : notification.row -> notification.row) (db : Db) : Db * option PostgrestError :=
  (with_notifications
     (update_where (Rls.notifications_update a) cond set (notifications db)) db, None).

(** [.from('answers').insert([r])]: the policy's WITH CHECK, the primary key,
    then the foreign key to [questions]. *)
Definition insert_answer (a : actor) (r : answer.row) (db : Db)
    : Db * option PostgrestError :=
  if negb (Rls.answers_insert a r) then (db, Some rls_violation)
  else if existsb (fun x => String.eqb (answer.id x) (answer.id r)) (answers db)
  then (db, Some unique_violation)
  else if negb (existsb (fun q => String.eqb (question.id q) (answer.question_id r))
                        (questions db))
  then (db, Some foreign_key_violation)
  else (with_answers (answers db ++ [r]) db, None).

(** [.from('messages').insert([m])]: the policy's WITH CHECK and the primary
    key; the table declares no foreign key. *)
Definition insert_message (a : actor) (m : message.row) (db : Db)
    : Db * option PostgrestError :=
  match Rls.messages_insert db a m with
  | None => (db, Some infinite_recursion)
  | Some false => (db, Some rls_violation)
  | Some true =>
      if existsb (fun x => String.eqb (message.id x) (message.id m)) (messages db)
      then (db, Some unique_violation)
      else (with_messages (messages db ++ [m]) db, None)
  end.

(** [.from('messages').select(...)]: the rows the caller may read, or the
    error of the statement. *)
Definition select_messages (a : actor) (db : Db) : PostgrestError + list message.row :=
  if Policy.select_expands t_messages
  then inr (filter (fun m => match Rls.messages_select db a m with
                             | Some b => b
                             | None => false
                             end) (messages db))
  else inl infinite_recursion.

(** [.from('questions').insert([q])] with the row's subject_id, NULL or a
    reference into [subjects]. *)
Definition insert_question (a : actor) (subjects : list subject.row)
    (subject_id : option uuid) (q : question.row) (db : Db)
    : Db * option PostgrestError :=
  if negb (Rls.questions_insert a q) then (db, Some rls_violation)
  else if existsb (fun x => String.eqb (question.id x) (question.id q)) (questions db)
  then (db, Some unique_violation)
  else if match subject_id with
          | Some sid => negb (existsb (fun x => String.eqb (subject.id x) sid) subjects)
          | None => false
          end
  then (db, Some foreign_key_violation)
  else (with_questions (questions db ++ [q]) db, None).

(** [.from('study_groups').insert([g])] with the row's subject_id. *)
Definition insert_study_group (a : actor) (subjects : list subject.row)
    (subject_id : option uuid) (g : study_group.row) (db : Db)
    : Db * option PostgrestError :=
  if negb (Rls.study_groups_insert a g) then (db, Some rls_violation)
  else if existsb (fun x => String.eqb (study_group.id x) (study_group.id g)) (study_groups db)
  then (db, Some unique_violation)
  else if match subject_id with
          | Some sid => negb (existsb (fun x => String.eqb (subject.id x) sid) subjects)
          | None => false
          end
  then (db, Some foreign_key_violation)
  else (with_study_groups (study_groups db ++ [g]) db, None).

(** [.from('group_members').select(...).eq('group_id', id)]: the rows of the
    group the caller may read, in the order of the table, or the error of
    the statement. *)
Definition select_group_members (a : actor) (id : uuid) (db : Db)
    : PostgrestError + list group_member.row :=
  if Policy.select_expands t_group_members
  then inr (filter (fun gm => String.eqb (group_member.group_id gm) id)
                   (Rls.visible_group_members db a))
  else inl infinite_recursion.

(** [.from('profiles').select(...).eq('user_id', u).single()] *)
Definition select_profile (a : actor) (u : uuid) (db : Db) : option profile.row :=
  find (fun p => String.eqb (profile.user_id p) u)
       (filter (Rls.profiles_select a) (profiles db)).

End Supabase.

(** ** JavaScript arithmetic on the values the pages read *)

(** [v || 0] on a number that may be null or undefined; also the numeric value
    of a nullable counter [v] in [v + 1], where null counts as 0. *)
Definition or_zero (v : option Z) : Z :=
  match v with
  | Some n => n
  | None => 0
  end.

(** ** src/pages/QuestionDetail.tsx *)

Module QuestionDetail.

(** The component's React state: [question] starts as null, [answers] as []. *)
Record state := mkState {
  question : option question.row;
  answers : list answer.row }.

Definition initial_state : state := mkState None [].

(** What [fetchQuestion] and [fetchAnswers] leave in the state. *)
Definition fetched (user : actor) (id : uuid) (db : Db) : state :=
  mkState (Supabase.select_question user id db) (Supabase.select_answers user id db).

(** [incrementViewCount]: writes [(question?.view_count || 0) + 1], computed
    from the state the closure holds, to the row [id]. *)
Definition incrementViewCount (user : actor) (id : uuid) (st : state) (db : Db) : Db :=
  let v := or_zero (match question st with
                    | Some q => question.view_count q
                    | None => None
                    end) + 1 in
  fst (Supabase.update_integer
         (Supabase.update_questions user (fun r => String.eqb (question.id r) id))
         question.set_view_count (Some v) db).

(** The effect on [id]: after the first render it calls [incrementViewCount]
    with the closure of that render, whose [question] is the initial null. *)
Definition on_mount (user : actor) (id : uuid) (db : Db) : Db :=
  incrementViewCount user id initial_state db.

(** The value [answers.find(a => a.id === answerId)?.upvotes + 1] sent in the
    update: [undefined + 1] is NaN, which the JSON body carries as null. *)
Definition upvote_payload (st : state) (answerId : uuid) : option Z :=
  match find (fun a => String.eqb (answer.id a) answerId) (answers st) with
  | Some a => Some (or_zero (answer.upvotes a) + 1)
  | None => None
  end.

(** [upvoteAnswer] *)
Definition upvoteAnswer (user : actor) (answerId : uuid) (st : state) (db : Db) : Db :=
  match user with
  | None => db
  | Some _ =>
      fst (Supabase.update_integer
             (Supabase.update_answers user (fun r => String.eqb (answer.id r) answerId))
             answer.set_upvotes (upvote_payload st answerId) db)
  end.

Inductive outcome :=
| ignored         (* the guard returned before any query *)
| toast_success   (* "Answer accepted!" *)
| toast_error.    (* "Failed to accept answer. Please try again." *)

(** [acceptAnswer]: guard, then the three updates in order.  Only the second
    response's [error] is inspected. *)
Definition acceptAnswer (user : actor) (id answerId : uuid) (st : state) (db : Db)
    : Db * outcome :=
  match user, question st with
  | Some u, Some q =>
      if negb (String.eqb (question.user_id q) u) then (db, ignored)
      else
        let db1 := fst (Supabase.update_answers user
                          (fun r => String.eqb (answer.question_id r) id)
                          (answer.set_is_accepted false) db) in
        let '(db2, error) := Supabase.update_answers user
                               (fun r => String.eqb (answer.id r) answerId)
                               (answer.set_is_accepted true) db1 in
        match error with
        | Some _ => (db2, toast_error)
        | None =>
            let db3 := fst (Supabase.update_questions user
                              (fun r => String.eqb (question.id r) id)
                              (question.set_is_resolved true) db2) in
            (db3, toast_success)
        end
  | _, _ => (db, ignored)
  end.

Inductive submit_outcome :=
| submit_ignored   (* the guard returned *)
| submit_success   (* "Answer submitted successfully!" *)
| submit_error.    (* "Failed to submit answer. Please try again." *)

(** [submitAnswer]: one insert of [{content: newAnswer, user_id, question_id}];
    the store fills in the id ([answer_id]) and the column defaults.  [trim]
    is [String.prototype.trim]. *)
Definition submitAnswer (trim : string -> string) (user : actor) (id : uuid)
    (newAnswer : string) (answer_id : uuid) (db : Db) : Db * submit_outcome :=
  match user with
  | None => (db, submit_ignored)
  | Some u =>
      if String.eqb (trim newAnswer) EmptyString then (db, submit_ignored)
      else
        let '(db', error) :=
          Supabase.insert_answer user (answer.mk answer_id id u newAnswer (Some 0) false) db in
        match error with
        | Some _ => (db', submit_error)
        | None => (db', submit_success)
        end
  end.

(** ORDER BY is_accepted DESC, upvotes DESC: [a] is placed before [b].  In
    descending order a NULL comes first. *)
Definition answer_before (a b : answer.row) : bool :=
  match answer.is_accepted a, answer.is_accepted b with
  | true, false => true
  | false, true => false
  | _, _ =>
      match answer.upvotes a, answer.upvotes b with
      | None, Some _ => true
      | Some x, Some y => y <? x
      | _, _ => false
      end
  end.

Fixpoint insert_answer_sorted (a : answer.row) (l : list answer.row) : list answer.row :=
  match l with
  | [] => [a]
  | x :: r => if answer_before a x then a :: l else x :: insert_answer_sorted a r
  end.

(** [fetchAnswers]: the answers of the question, accepted first, then by
    upvotes; rows that compare equal keep the order of the table. *)
Definition fetchAnswers (user : actor) (id : uuid) (db : Db) : list answer.row :=
  fold_left (fun acc a => insert_answer_sorted a acc) (Supabase.select_answers user id db) [].

End QuestionDetail.

(** ** src/pages/StudyGroups.tsx *)

Module StudyGroups.

Inductive outcome :=
| not_signed_in
| joined
| join_failed (e : Supabase.PostgrestError).

(** [joinGroup]: one insert of [(groupId, user.id, 'member')]. *)
Definition joinGroup (user : actor) (groupId : uuid) (db : Db) : Db * outcome :=
  match user with
  | None => (db, not_signed_in)
  | Some u =>
      let '(db', error) :=
        Supabase.insert_group_member user (group_member.mk groupId u member) db in
      match error with
      | Some e => (db', join_failed e)
      | None => (db', joined)
      end
  end.

(** The [group_members (count)] shown on a group card. *)
Definition member_count (db : Db) (groupId : uuid) : Z :=
  Z.of_nat (length (filter (fun gm => String.eqb (group_member.group_id gm) groupId)
                           (group_members db))).

(** The response of the query of [fetchGroups]: the readable groups, newest
    first, each with its embedded [group_members (count)], the number of
    membership rows of the group that the caller may read.  The embeddings
    make the statement read profiles, subjects and group_members next to
    study_groups, so the SELECT policies of the four tables are expanded. *)
Definition groups_response (user : actor) (db : Db)
    : Supabase.PostgrestError + list (study_group.row * Z) :=
  if forallb Policy.select_expands [t_study_groups; t_profiles; t_subjects; t_group_members]
  then inr (map (fun g =>
                   (g, Z.of_nat
                         (length (filter (fun gm => String.eqb (group_member.group_id gm)
                                                               (study_group.id g))
                                         (Rls.visible_group_members db user)))))
                (rev (Supabase.select_study_groups user db)))
  else inl Supabase.infinite_recursion.

(** [fetchGroups]: [setGroups(data)] on success; on an error the catch logs it
    and the [groups] state keeps its value [prev]. *)
Definition fetchGroups (user : actor) (prev : list (study_group.row * Z)) (db : Db)
    : list (study_group.row * Z) :=
  match groups_response user db with
  | inl _ => prev
  | inr data => data
  end.

End StudyGroups.

(** ** Resources page *)

Module Resources.

(** [downloadResource]: looks [resourceId] up in the [resources] state and
    writes that row's [download_count + 1]. *)
Definition downloadResource (user : actor) (resourceId : uuid)
    (resources_state : list resource.row) (db : Db) : Db :=
  match find (fun r => String.eqb (resource.id r) resourceId) resources_state with
  | Some r =>
      fst (Supabase.update_integer
             (Supabase.update_resources user (fun x => String.eqb (resource.id x) resourceId))
             resource.set_download_count (Some (or_zero (resource.download_count r) + 1))
             db)
  | None => db
  end.

End Resources.

(** ** JavaScript numbers produced by a division *)

Inductive number :=
| NaN
| Infinity (positive : bool)
| finite (q : Q).

(** [a / b] on two integers. *)
Definition js_div (a b : Z) : number :=
  if b =? 0 then (if a =? 0 then NaN else Infinity (0 <? a))
  else finite (inject_Z a / inject_Z b).

(** [x * 100] *)
Definition js_times_100 (x : number) : number :=
  match x with
  | finite q => finite (q * inject_Z 100)
  | other => other
  end.

(** [Math.min(x, 100)] *)
Definition Math_min_100 (x : number) : number :=
  match x with
  | NaN => NaN
  | Infinity true => finite (inject_Z 100)
  | Infinity false => Infinity false
  | finite q => if Qle_bool q (inject_Z 100) then finite q else finite (inject_Z 100)
  end.

(** ** src/pages/Profile.tsx *)

Module Profile.

Record UserStats := mkStats {
  questions_asked : Z;
  answers_given : Z;
  answers_accepted : Z;
  resources_shared : Z }.

(** [userStats[key]]: undefined for a key the object does not have. *)
Definition stat (s : UserStats) (key : string) : option Z :=
  if String.eqb key "questions_asked" then Some (questions_asked s)
  else if String.eqb key "answers_given" then Some (answers_given s)
  else if String.eqb key "answers_accepted" then Some (answers_accepted s)
  else if String.eqb key "resources_shared" then Some (resources_shared s)
  else None.

(** [a || b] on numbers: [a] when it is a non-zero number, else [b]. *)
Definition js_or (a b : option Z) : option Z :=
  match a with
  | Some n => if n =? 0 then b else a
  | None => b
  end.

(** [fetchUserStats]: four exact counts over the rows of [user]. *)
Definition fetchUserStats (user : uuid) (db : Db) : UserStats :=
  let count {R} (p : R -> bool) (rows : list R) := Z.of_nat (length (filter p rows)) in
  mkStats
    (count (fun q => String.eqb (question.user_id q) user)
           (filter (Rls.questions_select (Some user)) (questions db)))
    (count (fun a => String.eqb (answer.user_id a) user)
           (filter (Rls.answers_select (Some user)) (answers db)))
    (count (fun a => String.eqb (answer.user_id a) user && answer.is_accepted a)
           (filter (Rls.answers_select (Some user)) (answers db)))
    (count (fun r => String.eqb (resource.user_id r) user)
           (filter (Rls.resources_select (Some user)) (resources db))).

(** [currentValue] of [getProgressToNextBadge]:
    [userStats[badge.requirement_type] || profile?.points || 0]. *)
Definition progress_current (userStats : UserStats) (profile : option profile.row)
    (b : badge.row) : Z :=
  or_zero (js_or (js_or (stat userStats (badge.requirement_type b))
                        (option_map profile.points profile))
                 (Some 0)).

(** [getProgressToNextBadge], a percentage. *)
Definition getProgressToNextBadge (userStats : UserStats) (profile : option profile.row)
    (b : badge.row) : number :=
  Math_min_100 (js_times_100 (js_div (progress_current userStats profile b)
                                     (badge.requirement_value b))).

(** [currentValue] of the Badge Progress rows, printed as
    [currentValue/requirement_value]:
    [type === 'points' ? profile.points : userStats[type] || 0]. *)
Definition displayed_current (userStats : UserStats) (profile : profile.row)
    (b : badge.row) : Z :=
  if String.eqb (badge.requirement_type b) "points" then profile.points profile
  else or_zero (js_or (stat userStats (badge.requirement_type b)) (Some 0)).

(** The Badge Progress rows: the first five badges not yet earned, each with
    its progress value and its printed current value. *)
Definition badge_progress (allBadges : list badge.row) (earned : list uuid)
    (userStats : UserStats) (profile : profile.row)
    : list (badge.row * number * Z) :=
  map (fun b => (b, getProgressToNextBadge userStats (Some profile) b,
                 displayed_current userStats profile b))
      (firstn 5 (filter (fun b => negb (existsb (String.eqb (badge.id b)) earned))
                        allBadges)).

(** [markNotificationAsRead]: the update, then the same change on the
    [notifications] state of the page. *)
Definition markNotificationAsRead (user : actor) (notificationId : uuid)
    (prev : list notification.row) (db : Db) : Db * list notification.row :=
  let set_read (n : notification.row) :=
    notification.mk (notification.id n) (notification.user_id n) (notification.type n)
                    (notification.title n) true in
  let '(db', error) :=
    Supabase.update_notifications user
      (fun n => String.eqb (notification.id n) notificationId) set_read db in
  match error with
  | Some _ => (db', prev)
  | None =>
      (db', map (fun notif => if String.eqb (notification.id notif) notificationId
                              then set_read notif else notif) prev)
  end.

(** The number on the notifications tab: [notifications.filter(n => !n.is_read).length]. *)
Definition unread_count (l : list notification.row) : nat :=
  length (filter (fun n => negb (notification.is_read n)) l).

End Profile.

(** ** GroupDetail page *)

Module GroupDetail.

(** ORDER BY created_at ASC, as a stable insertion sort. *)
Fixpoint insert_by_created_at (m : message.row) (l : list message.row) : list message.row :=
  match l with
  | [] => [m]
  | x :: r =>
      if message.created_at m <? message.created_at x then m :: l
      else x :: insert_by_created_at m r
  end.

Definition order_by_created_at (l : list message.row) : list message.row :=
  fold_left (fun acc m => insert_by_created_at m acc) l [].

(** The clauses of the query of [fetchMessages], applied to the rows of
    messages that the statement may read:
    [.eq('group_id', id).order('created_at', { ascending: true }).limit(50)]. *)
Definition messages_query (id : uuid) (rows : list message.row) : list message.row :=
  firstn 50
    (order_by_created_at
       (filter (fun m => String.eqb (message.group_id m) id) rows)).

(** The response of that query for the caller. *)
Definition messages_response (user : actor) (id : uuid) (db : Db)
    : Supabase.PostgrestError + list message.row :=
  match Supabase.select_messages user db with
  | inl error => inl error
  | inr rows => inr (messages_query id rows)
  end.

(** [fetchMessages]: [setMessages] with the rows on success; on an error the
    catch logs it and the [messages] state keeps its value [prev], which is
    [] when the page has just been opened. *)
Definition fetchMessages (user : actor) (id : uuid) (prev : list message.row) (db : Db)
    : list message.row :=
  match messages_response user id db with
  | inl _ => prev
  | inr data => data
  end.

(** The realtime INSERT handler: [setMessages(prev => [...prev, payload.new])]. *)
Definition on_insert (prev : list message.row) (m : message.row) : list message.row :=
  prev ++ [m].

(** [fetchMembers]: on success, the membership rows of the group the caller
    may read, each with the name of the member's profile or "Unknown User";
    the rows come by joined_at, the time of their insert, which is the order
    of the table.  On an error the catch logs it and the [members] state
    keeps its value [prev]. *)
Definition fetchMembers (user : actor) (id : uuid)
    (prev : list (group_member.row * string)) (db : Db)
    : list (group_member.row * string) :=
  match Supabase.select_group_members user id db with
  | inl _ => prev
  | inr data =>
      map (fun gm =>
             (gm, match find (fun p => String.eqb (profile.user_id p)
                                                  (group_member.user_id gm))
                             (filter (Rls.profiles_select user) (profiles db)) with
                  | Some p => profile.full_name p
                  | None => "Unknown User"
                  end))
          data
  end.

(** [fetchGroupDetails]: the group row, when the caller may read it. *)
Definition fetchGroupDetails (user : actor) (id : uuid) (db : Db) : option study_group.row :=
  find (fun g => String.eqb (study_group.id g) id) (Supabase.select_study_groups user db).

Inductive send_outcome :=
| send_ignored   (* the guard returned *)
| sent           (* the input is cleared *)
| send_error.    (* toast "Failed to send message" *)

(** [sendMessage]: one insert of the trimmed text as a 'text' message; the
    store fills in the id and [created_at] ([message_id], [now]). *)
Definition sendMessage (trim : string -> string) (user : actor) (id : uuid)
    (newMessage : string) (sending : bool) (message_id : uuid) (now : Z) (db : Db)
    : Db * send_outcome :=
  match user with
  | None => (db, send_ignored)
  | Some u =>
      if String.eqb (trim newMessage) EmptyString || sending then (db, send_ignored)
      else
        let '(db', error) :=
          Supabase.insert_message user
            (message.mk message_id id u (trim newMessage) text now) db in
        match error with
        | Some _ => (db', send_error)
        | None => (db', sent)
        end
  end.

End GroupDetail.

(** Creation order of two messages. *)
Definition created_le (a b : message.row) : Prop :=
  message.created_at a <= message.created_at b.

(** ** The ai-suggestions edge function *)

Module AiSuggestions.

(** JSON values as the handler holds them after parsing.  A number is carried
    by the text that ToString gives for it: "0" for both zeros, "1e+21" for
    1e21, "Infinity" for a literal beyond the range of a double.  An object
    is the list of its own properties, with distinct keys. *)
#[local] Set Warnings "-register-all".
Inductive json :=
| JNull
| JBool (b : bool)
| JNum (repr : string)
| JStr (s : string)
| JArr (items : list json)
| JObj (fields : list (string * json)).

(** A JavaScript value read from parsed JSON: None is [undefined]. *)
Definition value := option json.

(** A computation inside the handler's [try]: [inl msg] is a thrown error
    whose [message] is [msg]. *)
Definition exc (A : Type) : Type := (string + A)%type.

Definition ret {A} (a : A) : exc A := inr a.
Definition throw {A} (msg : string) : exc A := inl msg.
Definition bind {A B} (c : exc A) (k : A -> exc B) : exc B :=
  match c with
  | inl msg => inl msg
  | inr a => k a
  end.

Notation "x <- c ;; k" := (bind c (fun x => k))
  (at level 61, c at next level, right associativity).

Definition own_property (key : string) (fields : list (string * json)) : value :=
  option_map snd (find (fun kv => String.eqb (fst kv) key) fields).

(** [v.key]: a TypeError on undefined and null, the own property of an
    object, undefined on every other value. *)
Definition get (v : value) (key : string) : exc value :=
  match v with
  | None => throw ("Cannot read properties of undefined (reading '" ++ key ++ "')")
  | Some JNull => throw ("Cannot read properties of null (reading '" ++ key ++ "')")
  | Some (JObj fields) => ret (own_property key fields)
  | Some _ => ret None
  end.

(** [v[0]] *)
Definition get_0 (v : value) : exc value :=
  match v with
  | None => throw "Cannot read properties of undefined (reading '0')"
  | Some JNull => throw "Cannot read properties of null (reading '0')"
  | Some (JArr items) => ret (hd_error items)
  | Some (JStr (String c _)) => ret (Some (JStr (String c EmptyString)))
  | Some (JObj fields) => ret (own_property "0" fields)
  | Some _ => ret None
  end.

(** ToString.  An object is converted by its [toString] method: the one of
    Object.prototype gives "[object Object]", but an own property named
    toString hides it, and a value read from JSON is never a function, so
    the conversion then ends in a TypeError.  An array is converted by
    [join], which converts its elements, null as the empty string. *)
Fixpoint to_string (j : json) : exc string :=
  match j with
  | JNull => ret "null"
  | JBool true => ret "true"
  | JBool false => ret "false"
  | JNum repr => ret repr
  | JStr s => ret s
  | JArr items =>
      (fix join (l : list json) : exc string :=
         match l with
         | [] => ret EmptyString
         | x :: r =>
             head <- match x with
                     | JNull => ret EmptyString
                     | _ => to_string x
                     end ;;
             match r with
             | [] => ret head
             | _ => rest <- join r ;; ret (head ++ "," ++ rest)
             end
         end) items
  | JObj fields =>
      match own_property "toString" fields with
      | Some _ => throw "Cannot convert object to primitive value"
      | None => ret "[object Object]"
      end
  end.

Definition value_to_string (v : value) : exc string :=
  match v with
  | None => ret "undefined"
  | Some j => to_string j
  end.

(** ToBoolean *)
Definition truthy (v : value) : bool :=
  match v with
  | None | Some JNull => false
  | Some (JBool b) => b
  | Some (JNum repr) => negb (String.eqb repr "0") && negb (String.eqb repr "NaN")
  | Some (JStr s) => negb (String.eqb s EmptyString)
  | Some (JArr _) | Some (JObj _) => true
  end.

(** The value that the text written by [JSON.stringify] encodes: a number
    that is not finite is written as null. *)
Fixpoint stringify (j : json) : json :=
  match j with
  | JNum repr =>
      if String.eqb repr "Infinity" || String.eqb repr "-Infinity" || String.eqb repr "NaN"
      then JNull else JNum repr
  | JArr items => JArr (map stringify items)
  | JObj fields => JObj (map (fun kv => (fst kv, stringify (snd kv))) fields)
  | other => other
  end.

(** [type === 'literal'] *)
Definition is_string (v : value) (lit : string) : bool :=
  match v with
  | Some (JStr s) => String.eqb s lit
  | _ => false
  end.

Definition dquote : string := String (ascii_of_nat 34) EmptyString.

(** [${subject || 'General'}] *)
Definition subject_or_general (subject : value) : exc string :=
  if truthy subject then value_to_string subject else ret "General".

(** The three template literals: [${content}] is converted first, then
    [${subject || 'General'}]. *)
Definition question_improvement_prompt (content subject : value) : exc string :=
  c <- value_to_string content ;;
  s <- subject_or_general subject ;;
  ret ("As an educational assistant, help improve this question for clarity and learning effectiveness:

Question: " ++ dquote ++ c ++ dquote ++ "
Subject: " ++ s ++ "

Please provide:
1. An improved version of the question with better clarity
2. 3 related follow-up questions that would deepen understanding
3. Suggested tags or topics this question covers

Format your response as JSON with keys: improvedQuestion, followUpQuestions, suggestedTags").

Definition answer_hints_prompt (content subject : value) : exc string :=
  c <- value_to_string content ;;
  s <- subject_or_general subject ;;
  ret ("As an educational tutor, provide helpful hints for this question without giving away the full answer:

Question: " ++ dquote ++ c ++ dquote ++ "
Subject: " ++ s ++ "

Provide 3 progressive hints that guide the student toward understanding, starting with the most general approach and becoming more specific. Format as JSON with key: hints (array of strings)").

Definition study_plan_prompt (content subject : value) : exc string :=
  c <- value_to_string content ;;
  s <- subject_or_general subject ;;
  ret ("Create a personalized study plan for this topic:

Topic: " ++ dquote ++ c ++ dquote ++ "
Subject: " ++ s ++ "

Provide a structured study plan with:
1. Key concepts to understand
2. Recommended study sequence
3. Practice activities
4. Time estimates for each section

Format as JSON with keys: concepts, sequence, activities, timeEstimates").

(** The [switch (type)]. *)
Definition build_prompt (type content subject : value) : exc string :=
  if is_string type "question-improvement" then question_improvement_prompt content subject
  else if is_string type "answer-hints" then answer_hints_prompt content subject
  else if is_string type "study-plan" then study_plan_prompt content subject
  else throw "Invalid suggestion type".

(** The body posted to the completions endpoint. *)
Record ChatRequest := mkChat {
  model : string;
  system_content : string;
  user_content : string;
  temperature : Q }.

Definition chat_request (prompt : string) : ChatRequest :=
  mkChat "gpt-4o-mini"
         "You are an expert educational assistant. Always provide accurate, helpful, and pedagogically sound advice. Format responses as valid JSON when requested."
         prompt (7 # 10).

Record Request := mkRequest {
  method : string;
  (** [await req.json()]: the parsed body, or the error it rejects with. *)
  req_json : exc json }.

Record Response := mkResponse {
  status : Z;
  headers : list (string * string);
  (** The JSON the body text encodes; None is the null body. *)
  body : option json }.

Definition corsHeaders : list (string * string) :=
  [ ("Access-Control-Allow-Origin", "*");
    ("Access-Control-Allow-Headers", "authorization, x-client-info, apikey, content-type") ].

Definition json_headers : list (string * string) :=
  corsHeaders ++ [ ("Content-Type", "application/json") ].

(** [JSON.stringify] of an object literal: a member whose value is undefined
    is left out. *)
Definition stringify_object (members : list (string * value)) : json :=
  JObj (flat_map (fun kv => match snd kv with
                            | Some j => [(fst kv, stringify j)]
                            | None => []
                            end) members).

(** [const { type, content, subject } = body] *)
Definition destructure (b : json) : exc (value * value * value) :=
  match b with
  | JNull => throw "Cannot destructure property 'type' of '(intermediate value)' as it is null."
  | JObj fields =>
      ret (own_property "type" fields, own_property "content" fields,
           own_property "subject" fields)
  | _ => ret (None, None, None)
  end.

Section Handler.

(** The upstream call: [fetch(...)] followed by [response.json()]; [inl]
    when either of them throws. *)
Variable openai : ChatRequest -> exc json.

(** [JSON.parse]; None is its SyntaxError. *)
Variable JSON_parse : string -> option json.

(** The object [{ content: suggestion }].  It is only ever passed to
    [JSON.stringify], which leaves out a member whose value is undefined. *)
Definition wrap (suggestion : value) : json :=
  JObj match suggestion with
       | Some v => [("content", v)]
       | None => []
       end.

(** The inner try/catch: [JSON.parse(suggestion)] converts its argument to a
    string and parses it; when either step throws, [parsedSuggestion] is
    [{ content: suggestion }]. *)
Definition parse_or_wrap (suggestion : value) : json :=
  match value_to_string suggestion with
  | inr s =>
      match JSON_parse s with
      | Some parsed => parsed
      | None => wrap suggestion
      end
  | inl _ => wrap suggestion
  end.

(** [data.choices[0].message.content] *)
Definition completion_text (data : json) : exc value :=
  choices <- get (Some data) "choices" ;;
  first <- get_0 choices ;;
  message <- get first "message" ;;
  get message "content".

(** The statements of the outer [try], up to [parsedSuggestion]. *)
Definition try_block (req : Request) : exc json :=
  b <- req_json req ;;
  fields <- destructure b ;;
  let '(type, content, subject) := fields in
  prompt <- build_prompt type content subject ;;
  data <- openai (chat_request prompt) ;;
  suggestion <- completion_text data ;;
  ret (parse_or_wrap suggestion).

Definition success_response (parsedSuggestion : json) : Response :=
  mkResponse 200 json_headers
    (Some (stringify_object [("success", Some (JBool true));
                             ("suggestion", Some parsedSuggestion)])).

Definition failure_response (message : string) : Response :=
  mkResponse 500 json_headers
    (Some (stringify_object [("success", Some (JBool false));
                             ("error", Some (JStr message))])).

(** The function passed to [serve]. *)
Definition handler (req : Request) : Response :=
  if String.eqb (method req) "OPTIONS" then mkResponse 200 corsHeaders None
  else match try_block req with
       | inr parsedSuggestion => success_response parsedSuggestion
       | inl message => failure_response message
       end.

End Handler.

End AiSuggestions.

(** ** src/pages/AskQuestion.tsx *)

Module AskQuestion.

Record form := mkForm {
  title : string;
  content : string;
  subject_id : string;
  difficulty : difficulty_level;
  grade_level : string }.

Inductive outcome :=
| not_signed_in
| posted (question_id : uuid)   (* toast and navigate to /questions/id *)
| failed.                       (* "Failed to post question. Please try again." *)

(** [formData.subject_id || null] *)
Definition subject_or_null (subject_id : string) : option uuid :=
  if String.eqb subject_id EmptyString then None else Some subject_id.

(** [handleSubmit]: one insert with [.select().single()]; the store fills in
    the id ([question_id]) and the defaults of the counters and of is_resolved. *)
Definition handleSubmit (user : actor) (subjects : list subject.row) (formData : form)
    (question_id : uuid) (db : Db) : Db * outcome :=
  match user with
  | None => (db, not_signed_in)
  | Some u =>
      let q := question.mk question_id u (title formData) (content formData)
                           (difficulty formData) (Some 0) (Some 0) false in
      if negb (Rls.questions_select user q) then (db, failed)
      else
        let '(db', error) :=
          Supabase.insert_question user subjects (subject_or_null (subject_id formData)) q db in
        match error with
        | Some _ => (db', failed)
        | None => (db', posted question_id)
        end
  end.

End AskQuestion.

(** ** src/pages/CreateGroup.tsx *)

Module CreateGroup.

(** The two values of the Privacy select. *)
Inductive form_privacy := form_public | form_private.

Definition privacy_of (p : form_privacy) : privacy_level :=
  match p with
  | form_public => public
  | form_private => private
  end.

Record form := mkForm {
  name : string;
  description : string;
  subject_id : string;
  privacy : form_privacy;
  max_members : Z }.

(** The initial [formData]. *)
Definition initial_form : form := mkForm EmptyString EmptyString EmptyString form_public 50.

Inductive outcome :=
| not_signed_in
| created (group_id : uuid)   (* toast and navigate to /groups/id *)
| failed.                     (* "Failed to create study group" *)

(** [handleSubmit]: inserts the group with [...formData] and [creator_id],
    reads it back, then inserts the creator's membership with role 'admin'.
    [subject_id] goes to the store as it is: the empty string of the initial
    form is not a uuid and the store rejects the row; any other value is the
    id of an item of the Subject select. *)
Definition handleSubmit (user : actor) (subjects : list subject.row) (formData : form)
    (group_id : uuid) (db : Db) : Db * outcome :=
  match user with
  | None => (db, not_signed_in)
  | Some u =>
      let g := study_group.mk group_id (name formData) u (max_members formData)
                              (privacy_of (privacy formData)) in
      if String.eqb (subject_id formData) EmptyString then (db, failed)
      else if negb (Rls.study_groups_select user g) then (db, failed)
      else
        let '(db1, groupError) :=
          Supabase.insert_study_group user subjects (Some (subject_id formData)) g db in
        match groupError with
        | Some _ => (db1, failed)
        | None =>
            let '(db2, memberError) :=
              Supabase.insert_group_member user (group_member.mk group_id u admin) db1 in
            match memberError with
            | Some _ => (db2, failed)
            | None => (db2, created group_id)
            end
        end
  end.

End CreateGroup.

(** ** src/pages/Questions.tsx *)

Module Questions.

Inductive filter_kind := all | resolved | unanswered.

(** [answerCountMap]: an object from question id to a count, as the list of
    its members. *)
Definition count_map := list (uuid * Z).

(** [acc[key]] *)
Definition lookup (acc : count_map) (key : uuid) : option Z :=
  option_map snd (find (fun kv => String.eqb (fst kv) key) acc).

(** [acc[key] = v] *)
Fixpoint assign (acc : count_map) (key : uuid) (v : Z) : count_map :=
  match acc with
  | [] => [(key, v)]
  | kv :: r => if String.eqb (fst kv) key then (key, v) :: r else kv :: assign r key v
  end.

(** The [reduce]: [acc[id] = (acc[id] || 0) + 1] for every fetched answer. *)
Definition answerCountMap (answerCounts : list uuid) : count_map :=
  fold_left (fun acc question_id => assign acc question_id (or_zero (lookup acc question_id) + 1))
            answerCounts [].

(** The second query: the question_id of every readable answer whose question
    is in [ids]. *)
Definition select_answer_question_ids (user : actor) (ids : list uuid) (db : Db) : list uuid :=
  map answer.question_id
      (filter (fun a => existsb (String.eqb (answer.question_id a)) ids)
              (filter (Rls.answers_select user) (answers db))).

(** [fetchQuestions] after its first query returned [data]: every question
    with its [answer_count], then the filter of the page. *)
Definition fetchQuestions (user : actor) (filter_ : filter_kind)
    (data : list question.row) (db : Db) : list (question.row * Z) :=
  let answerCounts := select_answer_question_ids user (map question.id data) db in
  let m := answerCountMap answerCounts in
  let questionsWithCounts :=
    map (fun q => (q, or_zero (lookup m (question.id q)))) data in
  match filter_ with
  | all => questionsWithCounts
  | resolved => filter (fun qc => question.is_resolved (fst qc)) questionsWithCounts
  | unanswered => filter (fun qc => snd qc =? 0) questionsWithCounts
  end.

End Questions.

(** ** Dashboard page *)

Module Dashboard.

(** A number in a template literal. *)
Definition show (n : Z) : string := NilZero.string_of_int (Z.to_int n).

(** [formatTimeAgo]: [now] and [date] are [getTime()] in milliseconds, [date]
    being None for an invalid date string, whose time is NaN. *)
Definition formatTimeAgo (now : Z) (date : option Z) : string :=
  match date with
  | None => "NaNd ago"
  | Some d =>
      let diffInMinutes := (now - d) / (1000 * 60) in
      if diffInMinutes <? 60 then show diffInMinutes ++ "m ago"
      else if diffInMinutes <? 1440 then show (diffInMinutes / 60) ++ "h ago"
      else show (diffInMinutes / 1440) ++ "d ago"
  end.

End Dashboard.

(** ** FileUpload component *)

Module FileUpload.

Record File := mkFile {
  name : string;
  size : Z }.

Record UploadingFile := mkUploading {
  file : File;
  progress : Z;
  url : option string;
  error : option string }.

Inductive toast :=
| file_too_large (maxSize : Z)
| upload_success (name : string)
| upload_failed (name : string).

(** [prev.map((uploadFile, index) => index === i ? f(uploadFile) : uploadFile)] *)
Fixpoint update_at (i : nat) (f : UploadingFile -> UploadingFile)
    (prev : list UploadingFile) : list UploadingFile :=
  match prev, i with
  | [], _ => []
  | x :: r, O => f x :: r
  | x :: r, S j => x :: update_at j f r
  end.

(** One turn of the [for] loop on file [i]: the progress goes to 25, 50 and
    then 75 before the upload; [onFileUpload] gives the url, or None when its
    promise rejects. *)
Definition upload_one (onFileUpload : File -> option string) (i : nat) (f : File)
    (st : list UploadingFile * list toast) : list UploadingFile * list toast :=
  let '(files, toasts) := st in
  let files75 := update_at i (fun u => mkUploading (file u) 75 (url u) (error u)) files in
  match onFileUpload f with
  | Some link =>
      (update_at i (fun u => mkUploading (file u) 100 (Some link) (error u)) files75,
       (toasts ++ [upload_success (name f)])%list)
  | None =>
      (update_at i (fun u => mkUploading (file u) 0 (url u) (Some "Upload failed")) files75,
       (toasts ++ [upload_failed (name f)])%list)
  end.

Fixpoint upload_from (onFileUpload : File -> option string) (i : nat) (todo : list File)
    (st : list UploadingFile * list toast) : list UploadingFile * list toast :=
  match todo with
  | [] => st
  | f :: r => upload_from onFileUpload (S i) r (upload_one onFileUpload i f st)
  end.

Record result := mkResult {
  (** the argument of the [onFilesSelected] call, when it is made *)
  selected : option (list File);
  (** [uploadingFiles] when the loop ends, before the timer clears it *)
  uploadingFiles : list UploadingFile;
  toasts : list toast }.

(** [onDrop]: [maxSize] is in megabytes; [onFilesSelected] tells whether the
    prop is given. *)
Definition onDrop (onFileUpload : File -> option string) (maxSize : Z)
    (onFilesSelected : bool) (acceptedFiles : list File) : result :=
  match acceptedFiles with
  | [] => mkResult None [] []
  | _ =>
      if negb (Nat.eqb (length (filter (fun f => maxSize * 1024 * 1024 <? size f)
                                       acceptedFiles)) 0)
      then mkResult None [] [file_too_large maxSize]
      else if onFilesSelected then mkResult (Some acceptedFiles) [] []
      else
        let newUploadingFiles := map (fun f => mkUploading f 0 None None) acceptedFiles in
        let '(files, toasts) :=
          upload_from onFileUpload 0 acceptedFiles (newUploadingFiles, []) in
        mkResult None files toasts
  end.

End FileUpload.

(** ** Scenarios: concrete stores used to run the operations *)

Module Scenario.

(** u1 asks q1 (stored view_count 5); u2 and u3 each post an answer. *)
Definition q1 : question.row :=
  question.mk "q1" "u1" "Chain rule" "How do I differentiate sin(x^2)?" medium
              (Some 5) (Some 0) false.
Definition a1 : answer.row :=
  answer.mk "a1" "q1" "u2" "Differentiate the outer function first." (Some 3) false.
Definition a2 : answer.row :=
  answer.mk "a2" "q1" "u3" "2x cos(x^2)." (Some 0) false.

Definition problem_solver : badge.row :=
  badge.mk "b3" "Problem Solver" "answers_accepted" 1.
Definition first_question : badge.row :=
  badge.mk "b1" "First Question" "questions_asked" 1.

Definition db_qa : Db :=
  mkDb [profile.mk "u1" "Ada" 0; profile.mk "u2" "Bo" 0; profile.mk "u3" "Cy" 0]
       [q1] [a1; a2] [] [] [] [] [] [first_question; problem_solver] [].

(** The page of u1 on q1 after its fetches. *)
Definition st_u1 : QuestionDetail.state := QuestionDetail.fetched (Some "u1") "q1" db_qa.

(** A private group of u1 with max_members 2 that already has two members. *)
Definition g1 : study_group.row := study_group.mk "g1" "Calculus club" "u1" 2 private.
Definition db_full : Db :=
  mkDb [] [] [] [g1]
       [group_member.mk "g1" "u1" admin; group_member.mk "g1" "u2" member]
       [] [] [] [] [].

(** A resource of u1 whose stored download_count is 7, and the list an open
    Resources page fetched when the count was 5. *)
Definition r1 (n : Z) : resource.row :=
  resource.mk "r1" "u1" "Notes" "https://files/notes.pdf" (Some n).
Definition db_res : Db := mkDb [] [] [] [] [] [r1 7] [] [] [] [].
Definition stale_resources : list resource.row := [r1 5].

(** A user with 50 points who has asked no question. *)
Definition stats0 : Profile.UserStats := Profile.mkStats 0 0 0 0.
Definition profile50 : profile.row := profile.mk "u1" "Ada" 50.

(** Group g1 with 51 messages of member u1, created at times 1..51. *)
Definition msg (n : nat) : message.row :=
  message.mk (NilZero.string_of_uint (Nat.to_uint n)) "g1" "u1" "hello" text (Z.of_nat n).
Definition db_chat : Db :=
  mkDb [] [] [] [g1] [group_member.mk "g1" "u1" admin] []
       (map msg (seq 1 51)) [] [] [].

(** An upstream that answers every request with one completion, and a
    [JSON.parse] that accepts exactly the text [{}]. *)
Definition openai_ok (text : string) (_ : AiSuggestions.ChatRequest)
    : AiSuggestions.exc AiSuggestions.json :=
  inr (AiSuggestions.JObj
         [("choices",
           AiSuggestions.JArr
             [AiSuggestions.JObj
                [("message",
                  AiSuggestions.JObj [("content", AiSuggestions.JStr text)])]])]).
Definition openai_down (_ : AiSuggestions.ChatRequest)
    : AiSuggestions.exc AiSuggestions.json :=
  inl "error sending request".
Definition parse_braces (s : string) : option AiSuggestions.json :=
  if String.eqb s "{}" then Some (AiSuggestions.JObj []) else None.
Definition post (type : string) : AiSuggestions.Request :=
  AiSuggestions.mkRequest "POST"
    (inr (AiSuggestions.JObj [("type", AiSuggestions.JStr type);
                              ("content", AiSuggestions.JStr "What is a limit?")])).

End Scenario.

(** UNIQUE(group_id, user_id) on group_members, as a property of a store. *)
Definition memberships_unique (db : Db) : Prop :=
  NoDup (map (fun gm => (group_member.group_id gm, group_member.user_id gm))
             (group_members db)).

(** The answers in the store that belong to question [id]. *)
Definition answers_of (db : Db) (id : uuid) : list answer.row :=
  filter (fun a => String.eqb (answer.question_id a) id) (answers db).

(** The entry of [uploadingFiles] a file ends with, and its toast. *)
Definition upload_final (onFileUpload : FileUpload.File -> option string)
    (f : FileUpload.File) : FileUpload.UploadingFile :=
  match onFileUpload f with
  | Some link => FileUpload.mkUploading f 100 (Some link) None
  | None => FileUpload.mkUploading f 0 None (Some "Upload failed")
  end.

Definition upload_toast (onFileUpload : FileUpload.File -> option string)
    (f : FileUpload.File) : FileUpload.toast :=
  match onFileUpload f with
  | Some _ => FileUpload.upload_success (FileUpload.name f)
  | None => FileUpload.upload_failed (FileUpload.name f)
  end.

(** [a] may be listed before [b] when accepted answers come first. *)
Definition accepted_first (a b : answer.row) : Prop :=
  answer.is_accepted b = true -> answer.is_accepted a = true.

(** ** More stores and inputs to run the operations on *)

Module Fixture.

(** u1 asks q9 and answers it twice. *)
Definition q9 : question.row :=
  question.mk "q9" "u1" "Notes to self" "What was the trick?" easy (Some 0) (Some 0) false.
Definition s1 : answer.row := answer.mk "s1" "q9" "u1" "Substitution." (Some 2) false.
Definition s2 : answer.row := answer.mk "s2" "q9" "u1" "Integration by parts." None true.
Definition db_self : Db := mkDb [profile.mk "u1" "Ada" 40] [q9] [s1; s2] [] [] [] [] [] [] [].

(** An answer of u1 to q9 whose count is the largest INTEGER. *)
Definition top : answer.row :=
  answer.mk "top" "q9" "u1" "Completing the square." (Some 2147483647) false.
Definition db_top : Db := mkDb [profile.mk "u1" "Ada" 40] [q9] [top] [] [] [] [] [] [] [].

(** A public group of u1 and a private group of u2, with their members. *)
Definition open_group : study_group.row := study_group.mk "g2" "Algebra" "u1" 50 public.
Definition closed_group : study_group.row := study_group.mk "g3" "Olympiad" "u2" 10 private.
Definition db_groups : Db :=
  mkDb [profile.mk "u1" "Ada" 40; profile.mk "u2" "Bo" 0] [] []
       [open_group; closed_group]
       [group_member.mk "g2" "u1" admin; group_member.mk "g3" "u2" admin;
        group_member.mk "g2" "u2" member]
       []
       [message.mk "m1" "g2" "u1" "welcome" text 10;
        message.mk "m2" "g2" "u2" "hi" text 20]
       [notification.mk "n1" "u1" question_answered "New answer" false;
        notification.mk "n2" "u2" points_earned "Points" false;
        notification.mk "n3" "u1" points_earned "Points" true]
       [] [].

Definition maths : subject.row := subject.mk "sub1" "Mathematics" "MATH" true.

(** [trim] for inputs without surrounding blanks other than one space. *)
Definition trim_space (s : string) : string :=
  match s with
  | String " " r => r
  | _ => s
  end.

Definition ask_form : AskQuestion.form :=
  AskQuestion.mkForm "Limits" "What is a limit?" EmptyString hard "Grade 11".

Definition group_form : CreateGroup.form :=
  CreateGroup.mkForm "Geometry" "Proofs" "sub1" CreateGroup.form_private 8.

Definition upload_ok (f : FileUpload.File) : option string :=
  if FileUpload.size f =? 0 then None else Some ("https://example.com/files/" ++ FileUpload.name f).

End Fixture.

(** * Properties *)

(** ** Updates under an UPDATE policy *)

Section UpdateWhere.

Context {R : Type} (policy cond : R -> bool) (set : R -> R).

Lemma update_where_length (rows : list R) :
  length (Supabase.update_where policy cond set rows) = length rows.
Proof. unfold Supabase.update_where. apply length_map. Qed.

(** A row the policy does not admit stays in the table as it is. *)
Lemma update_where_keeps_denied (rows : list R) (r : R) :
  In r rows -> policy r = false -> In r (Supabase.update_where policy cond set rows).
Proof.
  intros Hin Hden. unfold Supabase.update_where.
  apply in_map_iff. exists r. split; [|exact Hin].
  rewrite Hden, andb_false_r. reflexivity.
Qed.

(** When no selected row passes the policy the table is unchanged. *)
Lemma update_where_all_denied (rows : list R) :
  (forall r, In r rows -> cond r = true -> policy r = false) ->
  Supabase.update_where policy cond set rows = rows.
Proof.
  unfold Supabase.update_where. induction rows as [|x rows IH]; intros H.
  - reflexivity.
  - simpl. rewrite IH by (intros r Hr; apply H; right; exact Hr).
    destruct (cond x) eqn:Hc; simpl.
    + rewrite (H x (or_introl eq_refl) Hc). reflexivity.
    + reflexivity.
Qed.

(** Every row after the update comes from a row before it, either untouched
    or, when selected and admitted, rewritten by [set]. *)
Lemma update_where_inv (rows : list R) (r' : R) :
  In r' (Supabase.update_where policy cond set rows) ->
  exists r, In r rows /\
    ((cond r && policy r = true /\ r' = set r) \/ (cond r && policy r = false /\ r' = r)).
Proof.
  unfold Supabase.update_where. intros Hin.
  apply in_map_iff in Hin. destruct Hin as [r [Hr Hin]].
  exists r. split; [exact Hin|].
  destruct (cond r && policy r); [left | right]; split; congruence.
Qed.

End UpdateWhere.

Lemma with_answers_same (db : Db) : with_answers (answers db) db = db.
Proof. destruct db; reflexivity. Qed.

Lemma with_questions_same (db : Db) : with_questions (questions db) db = db.
Proof. destruct db; reflexivity. Qed.

Lemma with_resources_same (db : Db) : with_resources (resources db) db = db.
Proof. destruct db; reflexivity. Qed.

Lemma auth_uid_eq_true (a : actor) (col : uuid) :
  auth_uid_eq a col = true <-> a = Some col.
Proof.
  destruct a as [u|]; simpl.
  - rewrite String.eqb_eq. split; congruence.
  - split; discriminate.
Qed.

(** ** acceptAnswer *)

(** The answers table after [acceptAnswer] passed its guard. *)
Lemma acceptAnswer_answers (u : uuid) (id answerId : uuid) (st : QuestionDetail.state)
    (db : Db) (q : question.row) :
  QuestionDetail.question st = Some q -> question.user_id q = u ->
  answers (fst (QuestionDetail.acceptAnswer (Some u) id answerId st db)) =
  Supabase.update_where (Rls.answers_update (Some u))
    (fun r => String.eqb (answer.id r) answerId) (answer.set_is_accepted true)
    (Supabase.update_where (Rls.answers_update (Some u))
       (fun r => String.eqb (answer.question_id r) id) (answer.set_is_accepted false)
       (answers db)).
Proof.
  intros Hq Hu. unfold QuestionDetail.acceptAnswer. rewrite Hq, Hu, String.eqb_refl.
  reflexivity.
Qed.

(** Whoever calls it, [acceptAnswer] leaves the answers written by other users
    exactly as they were: the answers UPDATE policy admits own rows only. *)
Lemma acceptAnswer_keeps_foreign_answers (user : actor) (id answerId : uuid)
    (st : QuestionDetail.state) (db : Db) (a : answer.row) :
  In a (answers db) -> auth_uid_eq user (answer.user_id a) = false ->
  In a (answers (fst (QuestionDetail.acceptAnswer user id answerId st db))).
Proof.
  intros Hin Hden. unfold QuestionDetail.acceptAnswer.
  destruct user as [u|]; [|exact Hin].
  destruct (QuestionDetail.question st) as [q|]; [|exact Hin].
  destruct (negb (String.eqb (question.user_id q) u)); [exact Hin|].
  simpl. apply update_where_keeps_denied; [|exact Hden].
  apply update_where_keeps_denied; [exact Hin | exact Hden].
Qed.

(** When the caller wrote every answer of the question, the three statements
    of [acceptAnswer] do what their comments say: the target ends accepted and
    no other answer of the question is accepted. *)
Lemma acceptAnswer_own_answers (u id answerId : uuid) (st : QuestionDetail.state)
    (db : Db) (q : question.row) (t : answer.row) :
  QuestionDetail.question st = Some q -> question.user_id q = u ->
  In t (answers db) -> answer.id t = answerId -> answer.question_id t = id ->
  (forall a, In a (answers db) -> answer.question_id a = id -> answer.user_id a = u) ->
  let db' := fst (QuestionDetail.acceptAnswer (Some u) id answerId st db) in
  In (answer.set_is_accepted true (answer.set_is_accepted false t)) (answers db') /\
  (forall a', In a' (answers db') -> answer.question_id a' = id ->
              answer.id a' <> answerId -> answer.is_accepted a' = false).
Proof.
  intros Hq Hu Ht Hid Hqid Hown db'. subst db'.
  rewrite (acceptAnswer_answers u id answerId st db q Hq Hu).
  split.
  - unfold Supabase.update_where at 1. apply in_map_iff.
    exists (answer.set_is_accepted false t). split.
    + unfold Rls.answers_update. simpl.
      rewrite Hid, (Hown t Ht Hqid), !String.eqb_refl. reflexivity.
    + unfold Supabase.update_where. apply in_map_iff. exists t. split; [|exact Ht].
      unfold Rls.answers_update. simpl.
      rewrite Hqid, (Hown t Ht Hqid), !String.eqb_refl. reflexivity.
  - intros a' Hin Hqa Hne.
    apply update_where_inv in Hin. destruct Hin as [a1 [Hin1 [[Hc E] | [Hc E]]]].
    + subst a'. simpl in Hne. apply andb_true_iff in Hc. destruct Hc as [Hc _].
      apply String.eqb_eq in Hc. contradiction.
    + subst a'. apply update_where_inv in Hin1.
      destruct Hin1 as [a0 [Hin0 [[Hc0 E0] | [Hc0 E0]]]].
      * subst a1. reflexivity.
      * subst a1. exfalso.
        unfold Rls.answers_update in Hc0. simpl in Hc0.
        rewrite Hqa, (Hown a0 Hin0 Hqa), !String.eqb_refl in Hc0. discriminate Hc0.
Qed.

(** After a call that passed the guard, the question row of the caller with
    that id is resolved. *)
Lemma acceptAnswer_resolves (u id answerId : uuid) (st : QuestionDetail.state)
    (db : Db) (q : question.row) (q' : question.row) :
  QuestionDetail.question st = Some q -> question.user_id q = u ->
  In q' (questions (fst (QuestionDetail.acceptAnswer (Some u) id answerId st db))) ->
  question.id q' = id -> question.user_id q' = u ->
  question.is_resolved q' = true.
Proof.
  intros Hq Hu Hin Hid Hown. unfold QuestionDetail.acceptAnswer in Hin.
  rewrite Hq, Hu, String.eqb_refl in Hin. simpl in Hin.
  apply update_where_inv in Hin. destruct Hin as [q0 [_ [[_ E] | [Hc E]]]].
  - subst q'. reflexivity.
  - subst q'. exfalso. unfold Rls.questions_update in Hc. simpl in Hc.
    rewrite Hid, Hown, !String.eqb_refl in Hc. discriminate Hc.
Qed.

(** C1 (the code at the failing input).  u1 owns q1; a1 is by u2 and a2 by u3.
    u1 accepts a1 and then a2.  Both calls reach the success toast and q1
    becomes resolved, but neither update on [answers] touches a row: a1 and a2
    keep is_accepted = false, so the target of an accept is not accepted, and
    the accepted-answer count of u2 stays 0. *)
Theorem C1_accept_leaves_target_unaccepted :
  let '(db1, o1) :=
    QuestionDetail.acceptAnswer (Some "u1") "q1" "a1" Scenario.st_u1 Scenario.db_qa in
  let st1 := QuestionDetail.fetched (Some "u1") "q1" db1 in
  let '(db2, o2) := QuestionDetail.acceptAnswer (Some "u1") "q1" "a2" st1 db1 in
  o1 = QuestionDetail.toast_success /\
  o2 = QuestionDetail.toast_success /\
  answers db1 = [Scenario.a1; Scenario.a2] /\
  answers db2 = [Scenario.a1; Scenario.a2] /\
  answer.is_accepted Scenario.a1 = false /\
  answer.is_accepted Scenario.a2 = false /\
  map question.is_resolved (questions db2) = [true] /\
  Profile.answers_accepted (Profile.fetchUserStats "u2" db1) = 0.
Proof. vm_compute. repeat split; reflexivity. Qed.

Lemma update_where_erased {R : Type} (policy cond : R -> bool) (set erase : R -> R)
    (rows : list R) :
  (forall r, erase (set r) = erase r) ->
  map erase (Supabase.update_where policy cond set rows) = map erase rows.
Proof.
  intros H. unfold Supabase.update_where. rewrite map_map. apply map_ext.
  intros r. destruct (cond r && policy r); [apply H | reflexivity].
Qed.

(** C2 (as amended).  [acceptAnswer] writes only answers.is_accepted and
    questions.is_resolved.  The answers after the call are the answers from
    before, row by row and in the same order, up to the value of is_accepted;
    the questions are the questions from before up to the value of
    is_resolved; and every other table is as it was: no notification is
    created, no badge awarded, no profile changed. *)
Theorem C2_accept_writes_only_accepted_and_resolved (user : actor) (id answerId : uuid)
    (st : QuestionDetail.state) (db : Db) :
  let db' := fst (QuestionDetail.acceptAnswer user id answerId st db) in
  map (answer.set_is_accepted false) (answers db')
  = map (answer.set_is_accepted false) (answers db) /\
  map (question.set_is_resolved false) (questions db')
  = map (question.set_is_resolved false) (questions db) /\
  notifications db' = notifications db /\
  user_badges db' = user_badges db /\
  badges db' = badges db /\
  profiles db' = profiles db /\
  study_groups db' = study_groups db /\
  group_members db' = group_members db /\
  resources db' = resources db /\
  messages db' = messages db.
Proof.
  unfold QuestionDetail.acceptAnswer.
  destruct user as [u|]; [|simpl; repeat split; reflexivity].
  destruct (QuestionDetail.question st) as [q|]; [|simpl; repeat split; reflexivity].
  destruct (negb (String.eqb (question.user_id q) u)); simpl;
    [repeat split; reflexivity|].
  split; [|split; [|repeat split; reflexivity]].
  - rewrite !update_where_erased; [reflexivity | |]; intros r; reflexivity.
  - apply update_where_erased. intros r. reflexivity.
Qed.

(** C2 (counterexample).  The spec's scenario: u1 accepts u2's answer a1 on q1.
    Afterwards no answer_accepted notification exists for u2 and u2 holds no
    "Problem Solver" badge. *)
Lemma C2_counterexample :
  let db' := fst (QuestionDetail.acceptAnswer (Some "u1") "q1" "a1"
                    Scenario.st_u1 Scenario.db_qa) in
  ~ ((exists n, In n (notifications db') /\
                notification.type n = answer_accepted /\
                notification.user_id n = "u2")
     /\ (exists ub, In ub (user_badges db') /\
                    user_badge.user_id ub = "u2" /\
                    user_badge.badge_id ub = badge.id Scenario.problem_solver)).
Proof.
  intros db' [[n [Hin _]] _]. exact Hin.
Qed.

(** ** Counter updates by someone who does not own the row *)

(** [upvoteAnswer] by a user who wrote none of the answers with that id
    changes nothing in the store. *)
Lemma upvoteAnswer_not_owner (u answerId : uuid) (st : QuestionDetail.state) (db : Db) :
  (forall a, In a (answers db) -> answer.id a = answerId -> answer.user_id a <> u) ->
  QuestionDetail.upvoteAnswer (Some u) answerId st db = db.
Proof.
  intros H. unfold QuestionDetail.upvoteAnswer, Supabase.update_integer.
  destruct (Supabase.int4 _); [|reflexivity].
  unfold Supabase.update_answers. simpl.
  rewrite update_where_all_denied; [apply with_answers_same|].
  intros a Hin Hid. apply String.eqb_eq in Hid.
  unfold Rls.answers_update. simpl. apply String.eqb_neq.
  intros E. exact (H a Hin Hid (eq_sym E)).
Qed.

(** [incrementViewCount] by anyone but the question's owner, the anonymous
    visitor included, changes nothing in the store. *)
Lemma incrementViewCount_not_owner (user : actor) (id : uuid) (st : QuestionDetail.state)
    (db : Db) :
  (forall q, In q (questions db) -> question.id q = id -> user <> Some (question.user_id q)) ->
  QuestionDetail.incrementViewCount user id st db = db.
Proof.
  intros H. unfold QuestionDetail.incrementViewCount, Supabase.update_integer.
  destruct (Supabase.int4 _); [|reflexivity].
  unfold Supabase.update_questions. simpl.
  rewrite update_where_all_denied; [apply with_questions_same|].
  intros q Hin Hid. apply String.eqb_eq in Hid.
  unfold Rls.questions_update.
  destruct (auth_uid_eq user (question.user_id q)) eqn:E; [|reflexivity].
  apply auth_uid_eq_true in E. exfalso. exact (H q Hin Hid E).
Qed.

(** C3 (the code at the failing input).  u1, signed in, upvotes a1, which u2
    wrote: the page sends upvotes = 4, and the store still holds the row with
    upvotes = 3.  u2, signed in, opens q1, which u1 asked: the view-count write
    of the page is dropped and the stored view_count is still 5.  The store as
    a whole is unchanged in both cases. *)
Theorem C3_counters_not_mutable_by_non_owner :
  QuestionDetail.upvote_payload Scenario.st_u1 "a1" = Some 4 /\
  QuestionDetail.upvoteAnswer (Some "u1") "a1" Scenario.st_u1 Scenario.db_qa = Scenario.db_qa /\
  map answer.upvotes (answers Scenario.db_qa) = [Some 3; Some 0] /\
  QuestionDetail.on_mount (Some "u2") "q1" Scenario.db_qa = Scenario.db_qa /\
  QuestionDetail.incrementViewCount (Some "u2") "q1"
    (QuestionDetail.fetched (Some "u2") "q1" Scenario.db_qa) Scenario.db_qa = Scenario.db_qa /\
  map question.view_count (questions Scenario.db_qa) = [Some 5].
Proof. vm_compute. repeat split; reflexivity. Qed.

(** ** Counter updates from the page state *)

(** With the state just fetched and the owner as caller, the value written is
    the stored value plus one, as long as it fits the column. *)
Lemma incrementViewCount_fresh_state (q : question.row) (db : Db) :
  questions db = [q] ->
  Supabase.int4 (Some (or_zero (question.view_count q) + 1)) = true ->
  map question.view_count
      (questions (QuestionDetail.incrementViewCount (Some (question.user_id q)) (question.id q)
                    (QuestionDetail.fetched (Some (question.user_id q)) (question.id q) db) db))
  = [Some (or_zero (question.view_count q) + 1)].
Proof.
  intros Hq Hfit. unfold QuestionDetail.incrementViewCount, QuestionDetail.fetched,
    Supabase.select_question, Supabase.update_integer, Supabase.update_questions,
    Supabase.update_where, Rls.questions_update, Rls.questions_select.
  cbn [QuestionDetail.question]. rewrite Hq. cbn [filter find question.id].
  rewrite String.eqb_refl. rewrite Hfit. simpl.
  rewrite !String.eqb_refl. simpl. reflexivity.
Qed.

(** The value [incrementViewCount] leaves in a row it updates is computed from
    the page state alone, whatever the row held before. *)
Lemma incrementViewCount_written_value (user : actor) (id : uuid)
    (st : QuestionDetail.state) (db : Db) (q' : question.row) :
  Supabase.int4 (Some (or_zero (match QuestionDetail.question st with
                                | Some q => question.view_count q
                                | None => None
                                end) + 1)) = true ->
  In q' (questions (QuestionDetail.incrementViewCount user id st db)) ->
  question.id q' = id -> auth_uid_eq user (question.user_id q') = true ->
  question.view_count q' =
  Some (or_zero (match QuestionDetail.question st with
                 | Some q => question.view_count q
                 | None => None
                 end) + 1).
Proof.
  intros Hfit Hin Hid Hown.
  unfold QuestionDetail.incrementViewCount, Supabase.update_integer in Hin.
  rewrite Hfit in Hin. simpl in Hin.
  apply update_where_inv in Hin. destruct Hin as [q0 [_ [[_ E] | [Hc E]]]].
  - subst q'. reflexivity.
  - subst q'. exfalso. unfold Rls.questions_update in Hc.
    rewrite Hid, Hown, String.eqb_refl in Hc. discriminate Hc.
Qed.

(** Likewise for [downloadResource]: the value written is the one of the
    page's list plus one. *)
Lemma downloadResource_written_value (user : actor) (resourceId : uuid)
    (resources_state : list resource.row) (db : Db) (r r' : resource.row) :
  find (fun x => String.eqb (resource.id x) resourceId) resources_state = Some r ->
  Supabase.int4 (Some (or_zero (resource.download_count r) + 1)) = true ->
  In r' (resources (Resources.downloadResource user resourceId resources_state db)) ->
  resource.id r' = resourceId -> auth_uid_eq user (resource.user_id r') = true ->
  resource.download_count r' = Some (or_zero (resource.download_count r) + 1).
Proof.
  intros Hf Hfit Hin Hid Hown.
  unfold Resources.downloadResource, Supabase.update_integer in Hin.
  rewrite Hf, Hfit in Hin. simpl in Hin.
  apply update_where_inv in Hin. destruct Hin as [r0 [_ [[_ E] | [Hc E]]]].
  - subst r'. reflexivity.
  - subst r'. exfalso. unfold Rls.resources_update in Hc.
    rewrite Hid, Hown, String.eqb_refl in Hc. discriminate Hc.
Qed.

(** C6 (the code at the failing input).  The owner u1 opens q1 whose stored
    view_count is 5: the effect runs [incrementViewCount] with the initial
    null [question], so it writes 1.  The owner u1 downloads r1 from a page
    whose list was fetched at download_count 5 while the store holds 7: it
    writes 6.  Both writes are smaller than the stored value. *)
Theorem C6_increment_writes_smaller_value :
  map question.view_count (questions Scenario.db_qa) = [Some 5] /\
  map question.view_count
      (questions (QuestionDetail.on_mount (Some "u1") "q1" Scenario.db_qa)) = [Some 1] /\
  map resource.download_count (resources Scenario.db_res) = [Some 7] /\
  map resource.download_count
      (resources (Resources.downloadResource (Some "u1") "r1" Scenario.stale_resources
                    Scenario.db_res)) = [Some 6].
Proof. vm_compute. repeat split; reflexivity. Qed.

(** ** joinGroup *)

Lemma member_count_app (db : Db) (r : group_member.row) (g : uuid) :
  StudyGroups.member_count (with_group_members (group_members db ++ [r]) db) g =
  StudyGroups.member_count db g + (if String.eqb (group_member.group_id r) g then 1 else 0).
Proof.
  unfold StudyGroups.member_count. simpl. rewrite filter_app, length_app, Nat2Z.inj_add.
  simpl. destruct (String.eqb (group_member.group_id r) g); reflexivity.
Qed.

Lemma no_membership_existsb (db : Db) (u g : uuid) :
  (forall gm, In gm (group_members db) ->
              group_member.group_id gm = g -> group_member.user_id gm <> u) ->
  existsb (fun gm => String.eqb (group_member.group_id gm) g
                     && String.eqb (group_member.user_id gm) u) (group_members db) = false.
Proof.
  intros H. apply not_true_is_false. intros E.
  apply existsb_exists in E. destruct E as [gm [Hin Hb]].
  apply andb_true_iff in Hb. destruct Hb as [Hg Hu].
  apply String.eqb_eq in Hg, Hu. exact (H gm Hin Hg Hu).
Qed.

(** C4 (as amended).  A signed-in user who is not yet a member of an existing
    group joins it whatever its member count and max_members are: the outcome
    is [joined] and the count grows by one.  Only a second join by the same
    user fails, with the uniqueness conflict, and leaves the store as it is. *)
Theorem C4_join_ignores_max_members (db : Db) (u g : uuid) :
  existsb (fun grp => String.eqb (study_group.id grp) g) (study_groups db) = true ->
  (forall gm, In gm (group_members db) ->
              group_member.group_id gm = g -> group_member.user_id gm <> u) ->
  let db' := fst (StudyGroups.joinGroup (Some u) g db) in
  snd (StudyGroups.joinGroup (Some u) g db) = StudyGroups.joined /\
  StudyGroups.member_count db' g = StudyGroups.member_count db g + 1 /\
  StudyGroups.joinGroup (Some u) g db' =
    (db', StudyGroups.join_failed Supabase.unique_violation).
Proof.
  intros Hg Hnew.
  assert (E : StudyGroups.joinGroup (Some u) g db =
              (with_group_members (group_members db ++ [group_member.mk g u member]) db,
               StudyGroups.joined)).
  { unfold StudyGroups.joinGroup, Supabase.insert_group_member, Rls.group_members_insert.
    simpl. rewrite String.eqb_refl. simpl. rewrite Hg. simpl.
    rewrite (no_membership_existsb db u g Hnew). reflexivity. }
  rewrite E. simpl. split; [reflexivity|]. split.
  - rewrite member_count_app. simpl. rewrite String.eqb_refl. reflexivity.
  - unfold StudyGroups.joinGroup, Supabase.insert_group_member, Rls.group_members_insert.
    simpl. rewrite String.eqb_refl. simpl. rewrite Hg. simpl.
    rewrite existsb_app. simpl. rewrite !String.eqb_refl. simpl.
    rewrite orb_true_r. reflexivity.
Qed.

Lemma C4_join_ignores_max_members_witness :
  snd (StudyGroups.joinGroup (Some "u3") "g1" Scenario.db_full) = StudyGroups.joined /\
  StudyGroups.member_count (fst (StudyGroups.joinGroup (Some "u3") "g1" Scenario.db_full)) "g1"
  = StudyGroups.member_count Scenario.db_full "g1" + 1 /\
  StudyGroups.joinGroup (Some "u3") "g1"
    (fst (StudyGroups.joinGroup (Some "u3") "g1" Scenario.db_full)) =
    (fst (StudyGroups.joinGroup (Some "u3") "g1" Scenario.db_full),
     StudyGroups.join_failed Supabase.unique_violation).
Proof.
  apply (C4_join_ignores_max_members Scenario.db_full "u3" "g1").
  - reflexivity.
  - intros gm Hin _ Hu. simpl in Hin.
    destruct Hin as [E | [E | []]]; subst gm; discriminate Hu.
Defined.

(** C4 (counterexample).  g1 has max_members 2 and two members.  u3 joins:
    the outcome is [joined] and g1 then has three members. *)
Lemma C4_counterexample :
  StudyGroups.member_count Scenario.db_full "g1" = study_group.max_members Scenario.g1 /\
  ~ (exists e, snd (StudyGroups.joinGroup (Some "u3") "g1" Scenario.db_full)
               = StudyGroups.join_failed e) /\
  ~ (StudyGroups.member_count (fst (StudyGroups.joinGroup (Some "u3") "g1" Scenario.db_full))
                              "g1"
     <= study_group.max_members Scenario.g1).
Proof.
  split; [reflexivity|]. split.
  - intros [e He]. vm_compute in He. discriminate He.
  - vm_compute. intros H. apply H. reflexivity.
Qed.

(** ** Read policies *)

Lemma privacy_eqb_eq (p q : privacy_level) : privacy_eqb p q = true <-> p = q.
Proof. destruct p, q; simpl; split; congruence. Qed.

Lemma exists_membership_true (rows : list group_member.row) (a : actor) (g : uuid) :
  Rls.exists_membership rows a g = true <->
  exists gm, In gm rows /\ group_member.group_id gm = g /\ a = Some (group_member.user_id gm).
Proof.
  unfold Rls.exists_membership. rewrite existsb_exists.
  split; intros [gm [Hin H]]; exists gm; (split; [exact Hin|]).
  - apply andb_true_iff in H. destruct H as [Hg Hu].
    apply String.eqb_eq in Hg. apply auth_uid_eq_true in Hu. auto.
  - destruct H as [Hg Hu]. apply andb_true_iff. split.
    + apply String.eqb_eq. exact Hg.
    + apply auth_uid_eq_true. exact Hu.
Qed.

(** The SELECT policy of study_groups has no subquery: a group is readable
    exactly when it is public or the actor created it.  The anonymous actor
    reads every public group and no other group. *)
Lemma study_groups_select_true (a : actor) (g : study_group.row) :
  Rls.study_groups_select a g = true <->
  study_group.privacy g = public \/ a = Some (study_group.creator_id g).
Proof.
  unfold Rls.study_groups_select.
  rewrite orb_true_iff, privacy_eqb_eq, auth_uid_eq_true. reflexivity.
Qed.

Lemma study_groups_select_anonymous (g : study_group.row) :
  Rls.study_groups_select None g = true <-> study_group.privacy g = public.
Proof.
  rewrite study_groups_select_true. split; [|auto].
  intros [H | H]; [exact H | discriminate H].
Qed.

(** The SELECT policy of group_members reads group_members: neither that
    table nor messages, whose policies read it, can be read as a caller, and
    no row can be inserted into messages. *)
Lemma group_members_policy_recursive :
  Policy.select_expands t_group_members = false /\
  Policy.select_expands t_messages = false /\
  Policy.insert_expands t_messages = false.
Proof. repeat split; reflexivity. Qed.

(** The other tables, study_groups among them, are read without an error. *)
Lemma other_policies_expand (t : table) :
  t <> t_group_members -> t <> t_messages -> Policy.select_expands t = true.
Proof. destruct t; intros H1 H2; try reflexivity; congruence. Qed.

Lemma messages_select_error (db : Db) (a : actor) (m : message.row) :
  Rls.messages_select db a m = None.
Proof. reflexivity. Qed.

Lemma messages_insert_error (db : Db) (a : actor) (m : message.row) :
  Rls.messages_insert db a m = None.
Proof. reflexivity. Qed.

Lemma select_messages_error (a : actor) (db : Db) :
  Supabase.select_messages a db = inl Supabase.infinite_recursion.
Proof. reflexivity. Qed.

Lemma select_group_members_error (a : actor) (id : uuid) (db : Db) :
  Supabase.select_group_members a id db = inl Supabase.infinite_recursion.
Proof. reflexivity. Qed.

(** The chat and the roster of the group page keep the state they had,
    whoever the caller is. *)
Lemma fetchMessages_keeps_state (user : actor) (id : uuid) (prev : list message.row)
    (db : Db) :
  GroupDetail.fetchMessages user id prev db = prev.
Proof. reflexivity. Qed.

Lemma fetchMembers_keeps_state (user : actor) (id : uuid)
    (prev : list (group_member.row * string)) (db : Db) :
  GroupDetail.fetchMembers user id prev db = prev.
Proof. reflexivity. Qed.

(** C5 (the code at the failing input).  u1 is a member of g1, which holds 51
    messages, and opens the group page.  The SELECT policy of messages reads
    group_members, whose own SELECT policy reads group_members again: the
    policy gives no verdict, the query ends in error 42P17, and the page of
    the member shows no message. *)
Theorem C5_member_is_refused_the_messages :
  is_member Scenario.db_chat "u1" "g1" /\
  length (filter (fun m => String.eqb (message.group_id m) "g1")
                 (messages Scenario.db_chat)) = 51%nat /\
  Policy.select_expands t_messages = false /\
  Rls.messages_select Scenario.db_chat (Some "u1") (Scenario.msg 1) = None /\
  Supabase.select_messages (Some "u1") Scenario.db_chat
  = inl Supabase.infinite_recursion /\
  GroupDetail.fetchMessages (Some "u1") "g1" [] Scenario.db_chat = [].
Proof.
  split.
  - exists (group_member.mk "g1" "u1" admin). simpl. auto.
  - vm_compute. repeat split; reflexivity.
Qed.

(** ** Badge progress *)

(** [getProgressToNextBadge] reads the matching count only when it is not 0;
    otherwise it reads the point total of the profile. *)
Lemma progress_current_cases (s : Profile.UserStats) (p : profile.row) (b : badge.row) :
  Profile.progress_current s (Some p) b =
  match Profile.stat s (badge.requirement_type b) with
  | Some n => if n =? 0 then profile.points p else n
  | None => profile.points p
  end.
Proof.
  unfold Profile.progress_current, Profile.js_or. simpl.
  destruct (Profile.stat s (badge.requirement_type b)) as [n|].
  - destruct (n =? 0) eqn:En; simpl.
    + destruct (profile.points p =? 0) eqn:Ep; simpl; [|reflexivity].
      apply Z.eqb_eq in Ep. auto.
    + rewrite En. reflexivity.
  - destruct (profile.points p =? 0) eqn:Ep; simpl; [|reflexivity].
    apply Z.eqb_eq in Ep. auto.
Qed.

(** C7 (the code at the failing input).  A user with 50 points who has asked
    no question, and the unearned badge "First Question" (questions_asked, 1).
    The matching count is 0 and the row prints 0/1, so the progress of the
    claim is 100 * min(0/1, 1) = 0; [getProgressToNextBadge] takes the 50
    points as current value and returns 100. *)
Theorem C7_progress_reads_points_when_count_is_zero :
  Profile.stat Scenario.stats0 (badge.requirement_type Scenario.first_question) = Some 0 /\
  Math_min_100 (js_times_100 (js_div 0 (badge.requirement_value Scenario.first_question)))
  = finite (0 # 1) /\
  Profile.progress_current Scenario.stats0 (Some Scenario.profile50) Scenario.first_question
  = 50 /\
  Profile.getProgressToNextBadge Scenario.stats0 (Some Scenario.profile50)
    Scenario.first_question = finite (100 # 1) /\
  Profile.badge_progress [Scenario.first_question] [] Scenario.stats0 Scenario.profile50
  = [(Scenario.first_question, finite (100 # 1), 0)].
Proof. vm_compute. repeat split; reflexivity. Qed.

(** ** Chat window *)

Lemma insert_by_created_at_hd (x m : message.row) (l : list message.row) :
  HdRel created_le x l -> created_le x m ->
  HdRel created_le x (GroupDetail.insert_by_created_at m l).
Proof.
  intros Hl Hm. destruct l as [|y r]; simpl.
  - constructor. exact Hm.
  - destruct (message.created_at m <? message.created_at y).
    + constructor. exact Hm.
    + constructor. inversion Hl; assumption.
Qed.

Lemma insert_by_created_at_sorted (m : message.row) (l : list message.row) :
  Sorted created_le l -> Sorted created_le (GroupDetail.insert_by_created_at m l).
Proof.
  induction l as [|x r IH]; intros Hs; simpl.
  - constructor; constructor.
  - destruct (message.created_at m <? message.created_at x) eqn:E.
    + constructor; [exact Hs|]. constructor. apply Z.ltb_lt in E.
      unfold created_le. lia.
    + apply Sorted_inv in Hs. destruct Hs as [Hr Hh].
      constructor; [apply IH; exact Hr|].
      apply insert_by_created_at_hd; [exact Hh|].
      apply Z.ltb_ge in E. exact E.
Qed.

Lemma order_by_created_at_sorted (l : list message.row) :
  Sorted created_le (GroupDetail.order_by_created_at l).
Proof.
  unfold GroupDetail.order_by_created_at.
  assert (G : forall acc, Sorted created_le acc ->
                          Sorted created_le
                            (fold_left (fun acc m => GroupDetail.insert_by_created_at m acc) l acc)).
  { induction l as [|m r IH]; intros acc Hacc; simpl; [exact Hacc|].
    apply IH. apply insert_by_created_at_sorted. exact Hacc. }
  apply G. constructor.
Qed.

Lemma firstn_sorted (n : nat) (l : list message.row) :
  Sorted created_le l -> Sorted created_le (firstn n l).
Proof.
  revert l. induction n as [|n IH]; intros l Hs; simpl; [constructor|].
  destruct l as [|x r]; [constructor|].
  apply Sorted_inv in Hs. destruct Hs as [Hr Hh].
  constructor; [apply IH; exact Hr|].
  destruct r as [|y r']; [destruct n; constructor|].
  destruct n; simpl; constructor. inversion Hh; assumption.
Qed.

(** The window of the query is in ascending order of creation. *)
Lemma messages_query_ascending (id : uuid) (rows : list message.row) :
  Sorted created_le (GroupDetail.messages_query id rows).
Proof.
  unfold GroupDetail.messages_query. apply firstn_sorted, order_by_created_at_sorted.
Qed.

Lemma insert_by_created_at_In (m x : message.row) (l : list message.row) :
  In x (GroupDetail.insert_by_created_at m l) <-> x = m \/ In x l.
Proof.
  induction l as [|y r IH]; simpl.
  - intuition congruence.
  - destruct (message.created_at m <? message.created_at y); simpl.
    + intuition congruence.
    + rewrite IH. intuition congruence.
Qed.

Lemma order_by_created_at_In (x : message.row) (l : list message.row) :
  In x (GroupDetail.order_by_created_at l) <-> In x l.
Proof.
  unfold GroupDetail.order_by_created_at.
  assert (G : forall acc,
             In x (fold_left (fun acc m => GroupDetail.insert_by_created_at m acc) l acc)
             <-> In x acc \/ In x l).
  { induction l as [|m r IH]; intros acc; simpl; [tauto|].
    rewrite IH, insert_by_created_at_In. intuition congruence. }
  rewrite G. simpl. tauto.
Qed.

Lemma firstn_subset (n : nat) (l : list message.row) (x : message.row) :
  In x (firstn n l) -> In x l.
Proof.
  revert l. induction n as [|n IH]; intros l; simpl; [tauto|].
  destruct l as [|y r]; simpl; [tauto|].
  intros [E | H]; [left; exact E | right; apply IH; exact H].
Qed.

(** Every message of the window is one of the rows read, of that group. *)
Lemma messages_query_sound (id : uuid) (rows : list message.row) (m : message.row) :
  In m (GroupDetail.messages_query id rows) -> In m rows /\ message.group_id m = id.
Proof.
  unfold GroupDetail.messages_query. intros Hin.
  assert (Hin' := firstn_subset 50 _ m Hin).
  apply (proj1 (order_by_created_at_In _ _)) in Hin'. apply filter_In in Hin'.
  destruct Hin' as [Hin' Hg]. apply String.eqb_eq in Hg. tauto.
Qed.

Lemma messages_query_at_most_50 (id : uuid) (rows : list message.row) :
  (length (GroupDetail.messages_query id rows) <= 50)%nat.
Proof. unfold GroupDetail.messages_query. apply firstn_le_length. Qed.

(** C8 (the code at the failing input).  g1 holds 51 messages created at times
    1..51 and u1, a member, opens the group page.  The query of
    [fetchMessages] ends in error 42P17, raised by the policy of
    group_members that the policy of messages reads, so the page keeps its
    initial empty list: the chat shows none of the 50 newest messages.
    The clauses of the query would not give them either: applied to the rows
    of the table, as for a role that row security does not bind, ascending
    order followed by the limit keeps the messages of times 1..50 and leaves
    out the newest one. *)
Theorem C8_fetchMessages_shows_no_recent_window :
  map message.created_at (messages Scenario.db_chat) = map Z.of_nat (seq 1 51) /\
  GroupDetail.messages_response (Some "u1") "g1" Scenario.db_chat
  = inl Supabase.infinite_recursion /\
  GroupDetail.fetchMessages (Some "u1") "g1" [] Scenario.db_chat = [] /\
  map message.created_at (GroupDetail.messages_query "g1" (messages Scenario.db_chat))
  = map Z.of_nat (seq 1 50) /\
  existsb (fun m => message.created_at m =? 51)
          (GroupDetail.messages_query "g1" (messages Scenario.db_chat)) = false.
Proof. vm_compute. repeat split; reflexivity. Qed.


(** ** The suggestion proxy *)

Section HandlerProperties.

Import AiSuggestions.

Variable openai : ChatRequest -> exc json.
Variable JSON_parse : string -> option json.

Lemma handler_options (req : Request) :
  method req = "OPTIONS" -> handler openai JSON_parse req = mkResponse 200 corsHeaders None.
Proof. intros E. unfold handler. rewrite E. reflexivity. Qed.

Lemma handler_other (req : Request) :
  method req <> "OPTIONS" ->
  handler openai JSON_parse req =
  match try_block openai JSON_parse req with
  | inr parsedSuggestion => success_response parsedSuggestion
  | inl message => failure_response message
  end.
Proof.
  intros E. unfold handler. apply String.eqb_neq in E. rewrite E. reflexivity.
Qed.

(** A type other than the three literals makes the [switch] throw. *)
Lemma build_prompt_invalid (type content subject : value) :
  is_string type "question-improvement" = false ->
  is_string type "answer-hints" = false ->
  is_string type "study-plan" = false ->
  build_prompt type content subject = inl "Invalid suggestion type".
Proof. intros H1 H2 H3. unfold build_prompt. rewrite H1, H2, H3. reflexivity. Qed.

(** An upstream reply without [choices], such as an error object, makes the
    read of [choices[0]] throw, and the request ends in the failure response. *)
Lemma completion_text_no_choices (fields : list (string * json)) :
  own_property "choices" fields = None ->
  completion_text (JObj fields) = inl "Cannot read properties of undefined (reading '0')".
Proof. intros E. unfold completion_text. simpl. rewrite E. reflexivity. Qed.

Lemma handler_upstream_error_object (req : Request) (b : json)
    (type content subject : value) (prompt : string) (fields : list (string * json)) :
  method req <> "OPTIONS" ->
  req_json req = inr b -> destructure b = inr (type, content, subject) ->
  build_prompt type content subject = inr prompt ->
  openai (chat_request prompt) = inr (JObj fields) ->
  own_property "choices" fields = None ->
  handler openai JSON_parse req =
  failure_response "Cannot read properties of undefined (reading '0')".
Proof.
  intros Hm Hb Hd Hp Hu Hc. rewrite (handler_other req Hm).
  unfold try_block. rewrite Hb. simpl. rewrite Hd. simpl. rewrite Hp. simpl.
  rewrite Hu. simpl. rewrite (completion_text_no_choices fields Hc). reflexivity.
Qed.

End HandlerProperties.

(** C9.  For every request, upstream and [JSON.parse]:
    - an OPTIONS request gets status 200 with the null body;
    - when the body has a valid type, the prompt can be built, and the
      upstream returns a completion whose text is the string [s], the
      response is 200 with [{success: true, suggestion}], the suggestion
      being what [JSON.parse] makes of [s], or [{content: s}] when it throws;
    - the same holds for a completion of any other value, which is converted
      to a string before it is parsed and wrapped as it is when the
      conversion or the parse throws: undefined is parsed as "undefined",
      null, a boolean and a number as their text, an object as
      "[object Object]", and an object with an own toString property, which
      has no string conversion, is wrapped without being parsed;
    - a body that cannot be read, an invalid type, a content that has no
      string conversion, an upstream error and an upstream reply without a
      completion each get 500 with [{success: false, error}], the error
      being the message thrown;
    - whatever happens inside the [try], a request other than OPTIONS is
      answered with one of these two shapes, the failure one with status 500. *)
Theorem C9_handler_responses
    (openai : AiSuggestions.ChatRequest -> AiSuggestions.exc AiSuggestions.json)
    (JSON_parse : string -> option AiSuggestions.json)
    (req : AiSuggestions.Request) :
  let h := AiSuggestions.handler openai JSON_parse in
  let failure msg :=
    AiSuggestions.mkResponse 500 AiSuggestions.json_headers
      (Some (AiSuggestions.JObj
               [("success", AiSuggestions.JBool false);
                ("error", AiSuggestions.JStr msg)])) in
  let success suggestion :=
    AiSuggestions.mkResponse 200 AiSuggestions.json_headers
      (Some (AiSuggestions.JObj
               [("success", AiSuggestions.JBool true);
                ("suggestion", suggestion)])) in
  (AiSuggestions.method req = "OPTIONS" ->
   h req = AiSuggestions.mkResponse 200 AiSuggestions.corsHeaders None)
  /\
  (AiSuggestions.method req <> "OPTIONS" ->
   (forall b type content subject prompt data s,
       AiSuggestions.req_json req = inr b ->
       AiSuggestions.destructure b = inr (type, content, subject) ->
       AiSuggestions.build_prompt type content subject = inr prompt ->
       openai (AiSuggestions.chat_request prompt) = inr data ->
       AiSuggestions.completion_text data = inr (Some (AiSuggestions.JStr s)) ->
       h req =
       success match JSON_parse s with
               | Some parsed => AiSuggestions.stringify parsed
               | None => AiSuggestions.JObj [("content", AiSuggestions.JStr s)]
               end)
   /\
   (forall b type content subject prompt data suggestion,
       AiSuggestions.req_json req = inr b ->
       AiSuggestions.destructure b = inr (type, content, subject) ->
       AiSuggestions.build_prompt type content subject = inr prompt ->
       openai (AiSuggestions.chat_request prompt) = inr data ->
       AiSuggestions.completion_text data = inr suggestion ->
       let wrapper :=
         AiSuggestions.JObj
           match suggestion with
           | Some v => [("content", AiSuggestions.stringify v)]
           | None => []
           end in
       h req =
       success match AiSuggestions.value_to_string suggestion with
               | inr s =>
                   match JSON_parse s with
                   | Some parsed => AiSuggestions.stringify parsed
                   | None => wrapper
                   end
               | inl _ => wrapper
               end)
   /\
   (forall b type content subject prompt data suggestion str,
       AiSuggestions.req_json req = inr b ->
       AiSuggestions.destructure b = inr (type, content, subject) ->
       AiSuggestions.build_prompt type content subject = inr prompt ->
       openai (AiSuggestions.chat_request prompt) = inr data ->
       AiSuggestions.completion_text data = inr suggestion ->
       (suggestion = None /\ str = "undefined") \/
       (suggestion = Some AiSuggestions.JNull /\ str = "null") \/
       (suggestion = Some (AiSuggestions.JBool true) /\ str = "true") \/
       (suggestion = Some (AiSuggestions.JBool false) /\ str = "false") \/
       suggestion = Some (AiSuggestions.JNum str) \/
       (exists fields,
           suggestion = Some (AiSuggestions.JObj fields) /\
           AiSuggestions.own_property "toString" fields = None /\
           str = "[object Object]") ->
       h req =
       success match JSON_parse str with
               | Some parsed => AiSuggestions.stringify parsed
               | None =>
                   AiSuggestions.JObj
                     match suggestion with
                     | Some v => [("content", AiSuggestions.stringify v)]
                     | None => []
                     end
               end)
   /\
   (forall b type content subject prompt data fields v,
       AiSuggestions.req_json req = inr b ->
       AiSuggestions.destructure b = inr (type, content, subject) ->
       AiSuggestions.build_prompt type content subject = inr prompt ->
       openai (AiSuggestions.chat_request prompt) = inr data ->
       AiSuggestions.completion_text data = inr (Some (AiSuggestions.JObj fields)) ->
       AiSuggestions.own_property "toString" fields = Some v ->
       h req =
       success (AiSuggestions.JObj
                  [("content", AiSuggestions.stringify (AiSuggestions.JObj fields))]))
   /\
   (forall msg, AiSuggestions.req_json req = inl msg -> h req = failure msg)
   /\
   (forall b type content subject,
       AiSuggestions.req_json req = inr b ->
       AiSuggestions.destructure b = inr (type, content, subject) ->
       AiSuggestions.is_string type "question-improvement" = false ->
       AiSuggestions.is_string type "answer-hints" = false ->
       AiSuggestions.is_string type "study-plan" = false ->
       h req = failure "Invalid suggestion type")
   /\
   (forall b type fields subject v,
       AiSuggestions.req_json req = inr b ->
       AiSuggestions.destructure b = inr (type, Some (AiSuggestions.JObj fields), subject) ->
       AiSuggestions.is_string type "question-improvement" = true \/
       AiSuggestions.is_string type "answer-hints" = true \/
       AiSuggestions.is_string type "study-plan" = true ->
       AiSuggestions.own_property "toString" fields = Some v ->
       h req = failure "Cannot convert object to primitive value")
   /\
   (forall b type content subject prompt msg,
       AiSuggestions.req_json req = inr b ->
       AiSuggestions.destructure b = inr (type, content, subject) ->
       AiSuggestions.build_prompt type content subject = inr prompt ->
       openai (AiSuggestions.chat_request prompt) = inl msg ->
       h req = failure msg)
   /\
   (forall b type content subject prompt data msg,
       AiSuggestions.req_json req = inr b ->
       AiSuggestions.destructure b = inr (type, content, subject) ->
       AiSuggestions.build_prompt type content subject = inr prompt ->
       openai (AiSuggestions.chat_request prompt) = inr data ->
       AiSuggestions.completion_text data = inl msg ->
       h req = failure msg)
   /\
   ((exists parsedSuggestion, h req = success parsedSuggestion)
    \/ (exists msg, h req = failure msg))).
Proof.
  intros h failure success. subst h failure success. cbv beta. split.
  - apply handler_options.
  - intros Hm. rewrite (handler_other openai JSON_parse req Hm).
    split; [|split; [|split; [|split; [|split; [|split; [|split; [|split; [|split]]]]]]]].
    + intros b type content subject prompt data s Hb Hd Hp Hu Hc.
      unfold AiSuggestions.try_block. rewrite Hb. simpl. rewrite Hd. simpl.
      rewrite Hp. simpl. rewrite Hu. simpl. rewrite Hc. simpl.
      unfold AiSuggestions.success_response, AiSuggestions.parse_or_wrap. simpl.
      destruct (JSON_parse s) as [parsed|]; reflexivity.
    + intros b type content subject prompt data suggestion Hb Hd Hp Hu Hc.
      unfold AiSuggestions.try_block. rewrite Hb. simpl. rewrite Hd. simpl.
      rewrite Hp. simpl. rewrite Hu. simpl. rewrite Hc. simpl.
      unfold AiSuggestions.success_response, AiSuggestions.parse_or_wrap.
      destruct (AiSuggestions.value_to_string suggestion) as [msg|s].
      * destruct suggestion; reflexivity.
      * destruct (JSON_parse s) as [parsed|]; [reflexivity|].
        destruct suggestion; reflexivity.
    + intros b type content subject prompt data suggestion str Hb Hd Hp Hu Hc Hs.
      unfold AiSuggestions.try_block. rewrite Hb. simpl. rewrite Hd. simpl.
      rewrite Hp. simpl. rewrite Hu. simpl. rewrite Hc. simpl.
      unfold AiSuggestions.success_response, AiSuggestions.parse_or_wrap.
      assert (E : AiSuggestions.value_to_string suggestion = inr str).
      { destruct Hs as [[E1 E2] | [[E1 E2] | [[E1 E2] | [[E1 E2] | [E1 | [fields [E1 [E2 E3]]]]]]]];
          subst; try reflexivity.
        simpl. rewrite E2. reflexivity. }
      rewrite E. destruct (JSON_parse str) as [parsed|]; [reflexivity|].
      destruct suggestion; reflexivity.
    + intros b type content subject prompt data fields v Hb Hd Hp Hu Hc Hv.
      unfold AiSuggestions.try_block. rewrite Hb. simpl. rewrite Hd. simpl.
      rewrite Hp. simpl. rewrite Hu. simpl. rewrite Hc. simpl.
      unfold AiSuggestions.success_response, AiSuggestions.parse_or_wrap.
      cbn [AiSuggestions.value_to_string AiSuggestions.to_string]. rewrite Hv. reflexivity.
    + intros msg Hb. unfold AiSuggestions.try_block. rewrite Hb. reflexivity.
    + intros b type content subject Hb Hd H1 H2 H3.
      unfold AiSuggestions.try_block. rewrite Hb. simpl. rewrite Hd. simpl.
      rewrite (build_prompt_invalid type content subject H1 H2 H3). reflexivity.
    + intros b type fields subject v Hb Hd Ht Hv.
      unfold AiSuggestions.try_block. rewrite Hb. simpl. rewrite Hd. simpl.
      assert (E : AiSuggestions.build_prompt type (Some (AiSuggestions.JObj fields)) subject
                  = inl "Cannot convert object to primitive value").
      { unfold AiSuggestions.build_prompt, AiSuggestions.question_improvement_prompt,
          AiSuggestions.answer_hints_prompt, AiSuggestions.study_plan_prompt.
        cbn [AiSuggestions.value_to_string AiSuggestions.to_string]. rewrite Hv.
        destruct (AiSuggestions.is_string type "question-improvement"); [reflexivity|].
        destruct (AiSuggestions.is_string type "answer-hints"); [reflexivity|].
        destruct (AiSuggestions.is_string type "study-plan"); [reflexivity|].
        destruct Ht as [Ht | [Ht | Ht]]; discriminate Ht. }
      rewrite E. reflexivity.
    + intros b type content subject prompt msg Hb Hd Hp Hu.
      unfold AiSuggestions.try_block. rewrite Hb. simpl. rewrite Hd. simpl.
      rewrite Hp. simpl. rewrite Hu. reflexivity.
    + intros b type content subject prompt data msg Hb Hd Hp Hu Hc.
      unfold AiSuggestions.try_block. rewrite Hb. simpl. rewrite Hd. simpl.
      rewrite Hp. simpl. rewrite Hu. simpl. rewrite Hc. reflexivity.
    + destruct (AiSuggestions.try_block openai JSON_parse req) as [msg|parsed].
      * right. exists msg. reflexivity.
      * left. exists (AiSuggestions.stringify parsed). reflexivity.
Qed.

(** C9 at five requests: a completion that parses, one that does not, an
    unknown type, a content without string conversion, and an upstream that
    is down. *)
Lemma C9_handler_responses_witness :
  AiSuggestions.handler (Scenario.openai_ok "{}") Scenario.parse_braces
    (Scenario.post "answer-hints") =
  AiSuggestions.mkResponse 200 AiSuggestions.json_headers
    (Some (AiSuggestions.JObj
             [("success", AiSuggestions.JBool true);
              ("suggestion", AiSuggestions.JObj [])]))
  /\
  AiSuggestions.handler (Scenario.openai_ok "hint: use the definition") Scenario.parse_braces
    (Scenario.post "answer-hints") =
  AiSuggestions.mkResponse 200 AiSuggestions.json_headers
    (Some (AiSuggestions.JObj
             [("success", AiSuggestions.JBool true);
              ("suggestion",
               AiSuggestions.JObj
                 [("content", AiSuggestions.JStr "hint: use the definition")])]))
  /\
  AiSuggestions.handler Scenario.openai_down Scenario.parse_braces (Scenario.post "essay") =
  AiSuggestions.mkResponse 500 AiSuggestions.json_headers
    (Some (AiSuggestions.JObj
             [("success", AiSuggestions.JBool false);
              ("error", AiSuggestions.JStr "Invalid suggestion type")]))
  /\
  AiSuggestions.handler (Scenario.openai_ok "{}") Scenario.parse_braces
    (AiSuggestions.mkRequest "POST"
       (inr (AiSuggestions.JObj
               [("type", AiSuggestions.JStr "study-plan");
                ("content",
                 AiSuggestions.JObj [("toString", AiSuggestions.JNum "0")])]))) =
  AiSuggestions.mkResponse 500 AiSuggestions.json_headers
    (Some (AiSuggestions.JObj
             [("success", AiSuggestions.JBool false);
              ("error", AiSuggestions.JStr "Cannot convert object to primitive value")]))
  /\
  AiSuggestions.handler Scenario.openai_down Scenario.parse_braces
    (Scenario.post "study-plan") =
  AiSuggestions.mkResponse 500 AiSuggestions.json_headers
    (Some (AiSuggestions.JObj
             [("success", AiSuggestions.JBool false);
              ("error", AiSuggestions.JStr "error sending request")])).
Proof.
  split; [|split; [|split; [|split]]].
  - destruct (C9_handler_responses (Scenario.openai_ok "{}")
                Scenario.parse_braces (Scenario.post "answer-hints")) as [_ H].
    destruct (H ltac:(discriminate)) as [Hok _].
    exact (Hok _ _ _ _ _ _ _ eq_refl eq_refl eq_refl eq_refl eq_refl).
  - destruct (C9_handler_responses (Scenario.openai_ok "hint: use the definition")
                Scenario.parse_braces (Scenario.post "answer-hints")) as [_ H].
    destruct (H ltac:(discriminate)) as [Hok _].
    exact (Hok _ _ _ _ _ _ _ eq_refl eq_refl eq_refl eq_refl eq_refl).
  - destruct (C9_handler_responses Scenario.openai_down Scenario.parse_braces
                (Scenario.post "essay")) as [_ H].
    destruct (H ltac:(discriminate)) as [_ [_ [_ [_ [_ [Hbad _]]]]]].
    exact (Hbad _ _ _ _ eq_refl eq_refl eq_refl eq_refl eq_refl).
  - destruct (C9_handler_responses (Scenario.openai_ok "{}") Scenario.parse_braces
                (AiSuggestions.mkRequest "POST"
                   (inr (AiSuggestions.JObj
                           [("type", AiSuggestions.JStr "study-plan");
                            ("content",
                             AiSuggestions.JObj [("toString", AiSuggestions.JNum "0")])]))))
      as [_ H].
    destruct (H ltac:(discriminate)) as [_ [_ [_ [_ [_ [_ [Hobj _]]]]]]].
    exact (Hobj _ _ _ _ _ eq_refl eq_refl (or_intror (or_intror eq_refl)) eq_refl).
  - destruct (C9_handler_responses Scenario.openai_down Scenario.parse_braces
                (Scenario.post "study-plan")) as [_ H].
    destruct (H ltac:(discriminate)) as [_ [_ [_ [_ [_ [_ [_ [Hup _]]]]]]]].
    exact (Hup _ _ _ _ _ _ eq_refl eq_refl eq_refl eq_refl).
Defined.

(** ** Self-enrolment *)

(** C10.  The INSERT policy of group_members admits a row exactly when its
    user_id is the caller: it reads neither the role nor the group.  So for
    every signed-in user, every group and every role the policy admits the
    user's own row, and it refuses the same row to every other user and to
    the anonymous caller, whose insert ends in the policy violation and
    stores nothing.  When the group is in the store and the user has no
    row for it yet, the user's insert succeeds and stores the row with that
    role. *)
Theorem C10_self_insert_any_group_any_role (u : uuid) (g : study_group.row) (r : group_role) :
  Rls.group_members_insert (Some u) (group_member.mk (study_group.id g) u r) = true
  /\
  (forall (a : actor) (row : group_member.row),
      Rls.group_members_insert a row = true <-> a = Some (group_member.user_id row))
  /\
  Rls.group_members_insert None (group_member.mk (study_group.id g) u r) = false
  /\
  (forall v, v <> u ->
      Rls.group_members_insert (Some v) (group_member.mk (study_group.id g) u r) = false)
  /\
  (forall (a : actor) (db : Db),
      a <> Some u ->
      Supabase.insert_group_member a (group_member.mk (study_group.id g) u r) db
      = (db, Some Supabase.rls_violation))
  /\
  (forall db : Db,
      In g (study_groups db) ->
      (forall gm, In gm (group_members db) ->
                  group_member.group_id gm = study_group.id g ->
                  group_member.user_id gm <> u) ->
      Supabase.insert_group_member (Some u) (group_member.mk (study_group.id g) u r) db
      = (with_group_members (group_members db ++ [group_member.mk (study_group.id g) u r]) db,
         None)).
Proof.
  assert (P : forall (a : actor) (row : group_member.row),
             Rls.group_members_insert a row = true <-> a = Some (group_member.user_id row)).
  { intros a row. unfold Rls.group_members_insert. apply auth_uid_eq_true. }
  assert (N : forall (a : actor), a <> Some u ->
             Rls.group_members_insert a (group_member.mk (study_group.id g) u r) = false).
  { intros a Hne. apply not_true_is_false. intros E. apply P in E. exact (Hne E). }
  split; [apply P; reflexivity|]. split; [exact P|].
  split; [apply N; discriminate|]. split; [|split].
  - intros v Hne. apply N. intros E. injection E as E. exact (Hne E).
  - intros a db Hne. unfold Supabase.insert_group_member. rewrite (N a Hne). reflexivity.
  - intros db Hg Hnew. unfold Supabase.insert_group_member, Rls.group_members_insert.
    simpl. rewrite String.eqb_refl. simpl.
    assert (E : existsb (fun g0 => String.eqb (study_group.id g0) (study_group.id g))
                        (study_groups db) = true).
    { apply existsb_exists. exists g. split; [exact Hg | apply String.eqb_refl]. }
    rewrite E. simpl.
    rewrite (no_membership_existsb db u (study_group.id g) Hnew). reflexivity.
Qed.

(** C10 at the private group g1 of u1: u3 enrols as admin, and the same row
    is refused to u2 and to the anonymous caller. *)
Lemma C10_self_insert_any_group_any_role_witness :
  Rls.group_members_insert (Some "u3") (group_member.mk "g1" "u3" admin) = true /\
  Supabase.insert_group_member (Some "u3") (group_member.mk "g1" "u3" admin) Scenario.db_full
  = (with_group_members
       (group_members Scenario.db_full ++ [group_member.mk "g1" "u3" admin]) Scenario.db_full,
     None) /\
  Supabase.insert_group_member (Some "u2") (group_member.mk "g1" "u3" admin) Scenario.db_full
  = (Scenario.db_full, Some Supabase.rls_violation) /\
  Supabase.insert_group_member None (group_member.mk "g1" "u3" admin) Scenario.db_full
  = (Scenario.db_full, Some Supabase.rls_violation).
Proof.
  destruct (C10_self_insert_any_group_any_role "u3" Scenario.g1 admin)
    as [Hp [_ [_ [_ [Hd Hs]]]]].
  split; [exact Hp|]. split; [|split].
  - apply (Hs Scenario.db_full).
    + left. reflexivity.
    + intros gm Hin _ Hu. simpl in Hin.
      destruct Hin as [E | [E | []]]; subst gm; discriminate Hu.
  - apply (Hd (Some "u2") Scenario.db_full). discriminate.
  - apply (Hd None Scenario.db_full). discriminate.
Defined.

(** * Further properties of the pages *)

(** ** Accepting on one's own question *)

(** X1.  When the asker wrote every answer of the question, so that the
    answers policy admits the updates, [acceptAnswer] ends with the target
    accepted, every other answer of the question not accepted, and every
    question row of the asker with that id resolved. *)
Theorem acceptAnswer_on_own_answers (u id answerId : uuid) (st : QuestionDetail.state)
    (db : Db) (q : question.row) (t : answer.row) :
  QuestionDetail.question st = Some q -> question.user_id q = u ->
  In t (answers db) -> answer.id t = answerId -> answer.question_id t = id ->
  (forall a, In a (answers db) -> answer.question_id a = id -> answer.user_id a = u) ->
  snd (QuestionDetail.acceptAnswer (Some u) id answerId st db) = QuestionDetail.toast_success /\
  (exists t', In t' (answers (fst (QuestionDetail.acceptAnswer (Some u) id answerId st db))) /\
              answer.id t' = answerId /\ answer.question_id t' = id /\
              answer.is_accepted t' = true) /\
  (forall a', In a' (answers (fst (QuestionDetail.acceptAnswer (Some u) id answerId st db))) ->
              answer.question_id a' = id -> answer.id a' <> answerId ->
              answer.is_accepted a' = false) /\
  (forall q', In q' (questions (fst (QuestionDetail.acceptAnswer (Some u) id answerId st db))) ->
              question.id q' = id -> question.user_id q' = u ->
              question.is_resolved q' = true).
Proof.
  intros Hq Hu Ht Hid Hqid Hown.
  destruct (acceptAnswer_own_answers u id answerId st db q t Hq Hu Ht Hid Hqid Hown)
    as [Htarget Hothers].
  split; [|split; [|split]].
  - unfold QuestionDetail.acceptAnswer. rewrite Hq, Hu, String.eqb_refl. reflexivity.
  - exists (answer.set_is_accepted true (answer.set_is_accepted false t)).
    split; [exact Htarget|]. simpl. auto.
  - exact Hothers.
  - intros q' Hin Hi Ho. exact (acceptAnswer_resolves u id answerId st db q q' Hq Hu Hin Hi Ho).
Qed.

Lemma acceptAnswer_on_own_answers_witness :
  snd (QuestionDetail.acceptAnswer (Some "u1") "q9" "s1"
         (QuestionDetail.fetched (Some "u1") "q9" Fixture.db_self) Fixture.db_self)
  = QuestionDetail.toast_success /\
  map answer.is_accepted
      (answers (fst (QuestionDetail.acceptAnswer (Some "u1") "q9" "s1"
                       (QuestionDetail.fetched (Some "u1") "q9" Fixture.db_self)
                       Fixture.db_self)))
  = [true; false].
Proof.
  split; [|reflexivity].
  apply (acceptAnswer_on_own_answers "u1" "q9" "s1"
           (QuestionDetail.fetched (Some "u1") "q9" Fixture.db_self) Fixture.db_self
           Fixture.q9 Fixture.s1); try reflexivity.
  - left. reflexivity.
  - intros a Hin _. simpl in Hin. destruct Hin as [E | [E | []]]; subst a; reflexivity.
Defined.

(** ** What an update never touches *)

Lemma acceptAnswer_keeps_foreign_questions (user : actor) (id answerId : uuid)
    (st : QuestionDetail.state) (db : Db) (q : question.row) :
  In q (questions db) -> auth_uid_eq user (question.user_id q) = false ->
  In q (questions (fst (QuestionDetail.acceptAnswer user id answerId st db))).
Proof.
  intros Hin Hden. unfold QuestionDetail.acceptAnswer.
  destruct user as [u|]; [|exact Hin].
  destruct (QuestionDetail.question st) as [q0|]; [|exact Hin].
  destruct (negb (String.eqb (question.user_id q0) u)); [exact Hin|].
  simpl. apply update_where_keeps_denied; [exact Hin | exact Hden].
Qed.

(** X2.  Whatever the page state and the ids passed, an update issued by a
    page leaves every row that the caller does not own in its table as it
    was: [acceptAnswer] on answers and questions, [upvoteAnswer] on answers,
    [incrementViewCount] on questions, [downloadResource] on resources.  For
    the anonymous caller this is every row. *)
Theorem page_updates_keep_foreign_rows (user : actor) (db : Db) :
  (forall id answerId st a,
      In a (answers db) -> user <> Some (answer.user_id a) ->
      In a (answers (fst (QuestionDetail.acceptAnswer user id answerId st db))))
  /\ (forall id answerId st q,
         In q (questions db) -> user <> Some (question.user_id q) ->
         In q (questions (fst (QuestionDetail.acceptAnswer user id answerId st db))))
  /\ (forall answerId st a,
         In a (answers db) -> user <> Some (answer.user_id a) ->
         In a (answers (QuestionDetail.upvoteAnswer user answerId st db)))
  /\ (forall id st q,
         In q (questions db) -> user <> Some (question.user_id q) ->
         In q (questions (QuestionDetail.incrementViewCount user id st db)))
  /\ (forall resourceId resources_state r,
         In r (resources db) -> user <> Some (resource.user_id r) ->
         In r (resources (Resources.downloadResource user resourceId resources_state db))).
Proof.
  assert (D : forall col, user <> Some col -> auth_uid_eq user col = false).
  { intros col Hne. apply not_true_is_false. intros E.
    apply auth_uid_eq_true in E. exact (Hne E). }
  split; [|split; [|split; [|split]]].
  - intros id answerId st a Hin Hne.
    apply acceptAnswer_keeps_foreign_answers; [exact Hin | apply D; exact Hne].
  - intros id answerId st q Hin Hne.
    apply acceptAnswer_keeps_foreign_questions; [exact Hin | apply D; exact Hne].
  - intros answerId st a Hin Hne. unfold QuestionDetail.upvoteAnswer.
    destruct user as [u|]; [|exact Hin]. unfold Supabase.update_integer.
    destruct (Supabase.int4 _); [|exact Hin]. simpl.
    apply update_where_keeps_denied; [exact Hin | apply D; exact Hne].
  - intros id st q Hin Hne.
    unfold QuestionDetail.incrementViewCount, Supabase.update_integer.
    destruct (Supabase.int4 _); [|exact Hin]. simpl.
    apply update_where_keeps_denied; [exact Hin | apply D; exact Hne].
  - intros resourceId rs r Hin Hne. unfold Resources.downloadResource.
    destruct (find _ rs); [|exact Hin]. unfold Supabase.update_integer.
    destruct (Supabase.int4 _); [|exact Hin]. simpl.
    apply update_where_keeps_denied; [exact Hin | apply D; exact Hne].
Qed.

Lemma page_updates_keep_foreign_rows_witness :
  In Scenario.a1
     (answers (fst (QuestionDetail.acceptAnswer (Some "u1") "q1" "a1"
                      Scenario.st_u1 Scenario.db_qa))).
Proof.
  apply (proj1 (page_updates_keep_foreign_rows (Some "u1") Scenario.db_qa)).
  - left. reflexivity.
  - discriminate.
Defined.

(** ** Upvoting one's own answer *)

Lemma find_unique_answer (l : list answer.row) (a : answer.row) :
  In a l -> (forall b, In b l -> answer.id b = answer.id a -> b = a) ->
  find (fun x => String.eqb (answer.id x) (answer.id a)) l = Some a.
Proof.
  intros Hin Huniq.
  destruct (find (fun x => String.eqb (answer.id x) (answer.id a)) l) as [b|] eqn:E.
  - apply find_some in E. destruct E as [Hb Hid]. apply String.eqb_eq in Hid.
    rewrite (Huniq b Hb Hid). reflexivity.
  - exfalso. assert (H := find_none _ _ E a Hin). simpl in H.
    rewrite String.eqb_refl in H. discriminate H.
Qed.

(** X3.  The author of an answer can upvote it: from a page whose answers were
    just fetched, [upvoteAnswer] by the author replaces the row by the same row
    with one more upvote (a NULL count becomes 1) and leaves every answer with
    another id as it was.  No record of who has voted is kept, so every
    further click by the author adds one more, up to the largest value of the
    INTEGER column: at 2147483647 the update is rejected and the store stays
    as it is. *)
Theorem upvoteAnswer_by_author (u : uuid) (db : Db) (a : answer.row) :
  In a (answers db) -> answer.user_id a = u ->
  (forall b, In b (answers db) -> answer.id b = answer.id a -> b = a) ->
  Supabase.int4 (answer.upvotes a) = true ->
  let st := QuestionDetail.fetched (Some u) (answer.question_id a) db in
  let db' := QuestionDetail.upvoteAnswer (Some u) (answer.id a) st db in
  (or_zero (answer.upvotes a) < 2147483647 ->
   In (answer.set_upvotes (Some (or_zero (answer.upvotes a) + 1)) a) (answers db') /\
   (forall b, In b (answers db') -> answer.id b = answer.id a ->
              b = answer.set_upvotes (Some (or_zero (answer.upvotes a) + 1)) a) /\
   (forall b, In b (answers db) -> answer.id b <> answer.id a -> In b (answers db'))) /\
  (or_zero (answer.upvotes a) = 2147483647 -> db' = db).
Proof.
  intros Hin Hu Huniq Hrange st db'.
  assert (Hpay : QuestionDetail.upvote_payload st (answer.id a)
                 = Some (or_zero (answer.upvotes a) + 1)).
  { unfold QuestionDetail.upvote_payload, st, QuestionDetail.fetched. simpl.
    unfold Supabase.select_answers.
    rewrite (find_unique_answer _ a); [reflexivity| |].
    - apply filter_In. split; [|apply String.eqb_refl].
      apply filter_In. split; [exact Hin | reflexivity].
    - intros b Hb. apply filter_In in Hb. destruct Hb as [Hb _].
      apply filter_In in Hb. destruct Hb as [Hb _]. apply Huniq. exact Hb. }
  assert (Hlow : -2147483648 <= or_zero (answer.upvotes a)).
  { unfold Supabase.int4 in Hrange. destruct (answer.upvotes a) as [n|]; simpl; [|lia].
    apply andb_true_iff in Hrange. destruct Hrange as [Hl _].
    apply Z.leb_le in Hl. exact Hl. }
  split.
  - intros Hlt.
    assert (Hfit : Supabase.int4 (Some (or_zero (answer.upvotes a) + 1)) = true).
    { unfold Supabase.int4. apply andb_true_iff. split; apply Z.leb_le; lia. }
    assert (Hdb : answers db' =
                  Supabase.update_where (Rls.answers_update (Some u))
                    (fun r => String.eqb (answer.id r) (answer.id a))
                    (answer.set_upvotes (Some (or_zero (answer.upvotes a) + 1))) (answers db)).
    { unfold db', QuestionDetail.upvoteAnswer, Supabase.update_integer.
      rewrite Hpay, Hfit. reflexivity. }
    rewrite Hdb. split; [|split].
    + unfold Supabase.update_where. apply in_map_iff. exists a. split; [|exact Hin].
      unfold Rls.answers_update. simpl. rewrite Hu, !String.eqb_refl. reflexivity.
    + intros b Hb Hid. apply update_where_inv in Hb.
      destruct Hb as [r [Hr [[_ E] | [Hc E]]]].
      * subst b. simpl in Hid. rewrite (Huniq r Hr Hid). reflexivity.
      * subst b. exfalso. unfold Rls.answers_update in Hc. simpl in Hc.
        rewrite Hid, (Huniq r Hr Hid), Hu, !String.eqb_refl in Hc. discriminate Hc.
    + intros b Hb Hne. unfold Supabase.update_where. apply in_map_iff. exists b.
      split; [|exact Hb].
      apply String.eqb_neq in Hne. rewrite Hne. reflexivity.
  - intros Hmax.
    assert (Hfit : Supabase.int4 (Some (or_zero (answer.upvotes a) + 1)) = false).
    { rewrite Hmax. reflexivity. }
    unfold db', QuestionDetail.upvoteAnswer, Supabase.update_integer.
    rewrite Hpay, Hfit. reflexivity.
Qed.

Lemma upvoteAnswer_by_author_witness :
  In (answer.set_upvotes (Some 1) Fixture.s2)
     (answers (QuestionDetail.upvoteAnswer (Some "u1") "s2"
                 (QuestionDetail.fetched (Some "u1") "q9" Fixture.db_self) Fixture.db_self))
  /\
  QuestionDetail.upvoteAnswer (Some "u1") "top"
    (QuestionDetail.fetched (Some "u1") "q9" Fixture.db_top) Fixture.db_top
  = Fixture.db_top.
Proof.
  split.
  - refine (proj1 (proj1 (upvoteAnswer_by_author "u1" Fixture.db_self Fixture.s2 _ _ _ _) _)).
    + right. left. reflexivity.
    + reflexivity.
    + intros b Hb Hid. simpl in Hb. destruct Hb as [E | [E | []]]; subst b;
        [discriminate Hid | reflexivity].
    + reflexivity.
    + simpl. lia.
  - refine (proj2 (upvoteAnswer_by_author "u1" Fixture.db_top Fixture.top _ _ _ _) _).
    + left. reflexivity.
    + reflexivity.
    + intros b Hb Hid. simpl in Hb. destruct Hb as [E | []]. symmetry. exact E.
    + reflexivity.
    + reflexivity.
Defined.

(** ** Activity counts *)

Lemma filter_andb_length {A : Type} (f g : A -> bool) (l : list A) :
  (length (filter (fun x => f x && g x) l) <= length (filter f l))%nat.
Proof.
  induction l as [|x l IH]; simpl; [lia|].
  destruct (f x); simpl; [|exact IH].
  destruct (g x); simpl; lia.
Qed.

(** X4.  In the stats [fetchUserStats] computes, a user never has more accepted
    answers than answers, and no count is negative. *)
Theorem fetchUserStats_accepted_le_given (user : uuid) (db : Db) :
  (0 <= Profile.answers_accepted (Profile.fetchUserStats user db)) /\
  (Profile.answers_accepted (Profile.fetchUserStats user db)
   <= Profile.answers_given (Profile.fetchUserStats user db)) /\
  (0 <= Profile.questions_asked (Profile.fetchUserStats user db)) /\
  (0 <= Profile.resources_shared (Profile.fetchUserStats user db)).
Proof.
  unfold Profile.fetchUserStats. cbn [Profile.answers_accepted Profile.answers_given
    Profile.questions_asked Profile.resources_shared].
  pose proof (filter_andb_length
                (fun a => String.eqb (answer.user_id a) user) answer.is_accepted
                (filter (Rls.answers_select (Some user)) (answers db))) as H.
  repeat split; try apply Nat2Z.is_nonneg.
  apply Nat2Z.inj_le. exact H.
Qed.

(** ** Badge progress *)

Lemma progress_current_nonneg (s : Profile.UserStats) (p : option profile.row) (b : badge.row) :
  0 <= Profile.questions_asked s -> 0 <= Profile.answers_given s ->
  0 <= Profile.answers_accepted s -> 0 <= Profile.resources_shared s ->
  (forall r, p = Some r -> 0 <= profile.points r) ->
  0 <= Profile.progress_current s p b.
Proof.
  intros H1 H2 H3 H4 Hp. unfold Profile.progress_current, Profile.js_or.
  assert (Hs : forall n, Profile.stat s (badge.requirement_type b) = Some n -> 0 <= n).
  { unfold Profile.stat. intros n.
    repeat match goal with |- context [if ?c then _ else _] => destruct c end;
      intros E; inversion E; subst; assumption. }
  destruct (Profile.stat s (badge.requirement_type b)) as [n|] eqn:En.
  - destruct (n =? 0) eqn:Ez.
    + destruct p as [r|]; simpl.
      * destruct (profile.points r =? 0) eqn:Er; simpl; [lia|]. apply (Hp r eq_refl).
      * lia.
    + rewrite Ez. simpl. apply Hs. reflexivity.
  - destruct p as [r|]; simpl.
    + destruct (profile.points r =? 0) eqn:Er; simpl; [lia|]. apply (Hp r eq_refl).
    + lia.
Qed.

Lemma percent_facts (c : Z) (tp : positive) :
  let q := (inject_Z c / inject_Z (Z.pos tp) * inject_Z 100)%Q in
  (0 <= c -> (0 <= q)%Q) /\
  ((q <= inject_Z 100)%Q <-> c <= Z.pos tp) /\
  ((q == inject_Z 100)%Q <-> c = Z.pos tp).
Proof.
  unfold Qle, Qeq, Qdiv, Qmult, Qinv, inject_Z. cbn [Qnum Qden].
  rewrite !Pos2Z.inj_mul. repeat split; intros; lia.
Qed.

(** X5.  For a badge with a positive requirement and a user whose counts and
    points are not negative, [getProgressToNextBadge] is a number between 0
    and 100, and it is 100 exactly when the value it read reaches the
    requirement. *)
Theorem getProgressToNextBadge_bounds (s : Profile.UserStats) (p : option profile.row)
    (b : badge.row) :
  0 < badge.requirement_value b ->
  0 <= Profile.questions_asked s -> 0 <= Profile.answers_given s ->
  0 <= Profile.answers_accepted s -> 0 <= Profile.resources_shared s ->
  (forall r, p = Some r -> 0 <= profile.points r) ->
  exists q : Q,
    Profile.getProgressToNextBadge s p b = finite q /\
    (0 <= q)%Q /\ (q <= inject_Z 100)%Q /\
    ((q == inject_Z 100)%Q <-> badge.requirement_value b <= Profile.progress_current s p b).
Proof.
  intros Ht H1 H2 H3 H4 Hp.
  pose proof (progress_current_nonneg s p b H1 H2 H3 H4 Hp) as Hc.
  unfold Profile.getProgressToNextBadge.
  destruct (badge.requirement_value b) as [|tp|tp] eqn:Et; try lia.
  destruct (percent_facts (Profile.progress_current s p b) tp) as [F0 [Fle Feq]].
  unfold js_div. cbn [Z.eqb js_times_100 Math_min_100].
  destruct (Qle_bool (inject_Z (Profile.progress_current s p b) / inject_Z (Z.pos tp)
                      * inject_Z 100) (inject_Z 100)) eqn:Eb.
  - eexists. split; [reflexivity|].
    apply Qle_bool_iff in Eb. split; [apply F0; exact Hc|]. split; [exact Eb|].
    rewrite Feq. apply Fle in Eb. lia.
  - exists (inject_Z 100). split; [reflexivity|].
    assert (Hn : ~ (Profile.progress_current s p b <= Z.pos tp)).
    { intros E. apply Fle in E. apply Qle_bool_iff in E. congruence. }
    split; [discriminate|]. split; [apply Qle_refl|].
    split; intros _; [lia | reflexivity].
Qed.

Lemma getProgressToNextBadge_bounds_witness :
  exists q : Q,
    Profile.getProgressToNextBadge (Profile.mkStats 3 0 0 0) (Some Scenario.profile50)
      (badge.mk "b7" "Question Guru" "questions_asked" 10) = finite q /\
    (0 <= q)%Q /\ (q <= inject_Z 100)%Q /\
    ((q == inject_Z 100)%Q <->
     10 <= Profile.progress_current (Profile.mkStats 3 0 0 0) (Some Scenario.profile50)
             (badge.mk "b7" "Question Guru" "questions_asked" 10)).
Proof.
  apply (getProgressToNextBadge_bounds (Profile.mkStats 3 0 0 0) (Some Scenario.profile50)
           (badge.mk "b7" "Question Guru" "questions_asked" 10)); simpl; try lia.
  intros r E. inversion E. simpl. lia.
Defined.

Lemma firstn_In_any {A : Type} (n : nat) (l : list A) (x : A) :
  In x (firstn n l) -> In x l.
Proof.
  revert l. induction n as [|n IH]; intros l; simpl; [tauto|].
  destruct l as [|y r]; simpl; [tauto|].
  intros [E | H]; [left; exact E | right; apply IH; exact H].
Qed.

(** X6.  The Badge Progress card shows at most five rows; each row is a badge
    of the catalog that the user has not earned, with the progress and the
    current value computed for that badge. *)
Theorem badge_progress_rows (allBadges : list badge.row) (earned : list uuid)
    (s : Profile.UserStats) (p : profile.row) :
  (length (Profile.badge_progress allBadges earned s p) <= 5)%nat /\
  (forall b pr c, In (b, pr, c) (Profile.badge_progress allBadges earned s p) ->
     In b allBadges /\ ~ In (badge.id b) earned /\
     pr = Profile.getProgressToNextBadge s (Some p) b /\
     c = Profile.displayed_current s p b).
Proof.
  unfold Profile.badge_progress. split.
  - rewrite length_map. apply firstn_le_length.
  - intros b pr c Hin. apply in_map_iff in Hin. destruct Hin as [b0 [E Hin]].
    inversion E; subst. apply firstn_In_any in Hin. apply filter_In in Hin.
    destruct Hin as [Hin Hne]. repeat split; auto.
    intros He. apply negb_true_iff in Hne.
    assert (Ht : existsb (String.eqb (badge.id b)) earned = true).
    { apply existsb_exists. exists (badge.id b). split; [exact He | apply String.eqb_refl]. }
    congruence.
Qed.

(** ** Joining and the membership table *)

Lemma insert_group_member_rows (a : actor) (r : group_member.row) (db : Db) :
  (fst (Supabase.insert_group_member a r db) = db /\
   snd (Supabase.insert_group_member a r db) <> None)
  \/
  (fst (Supabase.insert_group_member a r db)
   = with_group_members (group_members db ++ [r]) db /\
   snd (Supabase.insert_group_member a r db) = None /\
   a = Some (group_member.user_id r) /\
   (exists g, In g (study_groups db) /\ study_group.id g = group_member.group_id r) /\
   (forall gm, In gm (group_members db) ->
               group_member.group_id gm = group_member.group_id r ->
               group_member.user_id gm <> group_member.user_id r)).
Proof.
  unfold Supabase.insert_group_member.
  destruct (Rls.group_members_insert a r) eqn:Ep; simpl;
    [|left; split; [reflexivity | discriminate]].
  destruct (existsb (fun g => String.eqb (study_group.id g) (group_member.group_id r))
                    (study_groups db)) eqn:Eg; simpl;
    [|left; split; [reflexivity | discriminate]].
  destruct (existsb (fun gm => String.eqb (group_member.group_id gm) (group_member.group_id r)
                               && String.eqb (group_member.user_id gm) (group_member.user_id r))
                    (group_members db)) eqn:Eu; simpl;
    [left; split; [reflexivity | discriminate]|].
  right. split; [reflexivity|]. split; [reflexivity|]. split; [|split].
  - apply auth_uid_eq_true. exact Ep.
  - apply existsb_exists in Eg. destruct Eg as [g [Hg Hid]].
    exists g. split; [exact Hg | apply String.eqb_eq; exact Hid].
  - intros gm Hin Hgid Huid.
    assert (F := existsb_exists
                   (fun gm => String.eqb (group_member.group_id gm) (group_member.group_id r)
                              && String.eqb (group_member.user_id gm) (group_member.user_id r))
                   (group_members db)).
    assert (T : existsb (fun gm => String.eqb (group_member.group_id gm) (group_member.group_id r)
                                  && String.eqb (group_member.user_id gm) (group_member.user_id r))
                        (group_members db) = true).
    { apply F. exists gm. split; [exact Hin|].
      rewrite Hgid, Huid, !String.eqb_refl. reflexivity. }
    congruence.
Qed.

(** X7.  [joinGroup] only ever adds: every membership row stays, the other
    tables are untouched, and a row that is new belongs to the caller, is for
    the requested group, which exists, and has the role 'member'.  The page
    never enrols anyone as admin or moderator, nor anyone but the caller. *)
Theorem joinGroup_only_adds_own_member_row (user : actor) (groupId : uuid) (db : Db) :
  let db' := fst (StudyGroups.joinGroup user groupId db) in
  (forall gm, In gm (group_members db) -> In gm (group_members db')) /\
  (forall gm, In gm (group_members db') ->
      In gm (group_members db) \/
      (user = Some (group_member.user_id gm) /\
       group_member.group_id gm = groupId /\
       group_member.role gm = member /\
       exists g, In g (study_groups db) /\ study_group.id g = groupId)) /\
  study_groups db' = study_groups db /\
  messages db' = messages db /\
  profiles db' = profiles db.
Proof.
  unfold StudyGroups.joinGroup. destruct user as [u|]; simpl; [|tauto].
  destruct (insert_group_member_rows (Some u) (group_member.mk groupId u member) db)
    as [[E _] | [E [_ [_ [Hg _]]]]];
    destruct (Supabase.insert_group_member (Some u) (group_member.mk groupId u member) db)
      as [db1 err]; simpl in E; subst db1; destruct err; simpl.
  1,2: repeat split; auto.
  1,2: repeat split; auto.
  - intros gm Hin. apply in_or_app. left. exact Hin.
  - intros gm Hin. apply in_app_or in Hin. destruct Hin as [Hin | [E | []]]; [left; exact Hin|].
    right. subst gm. simpl. auto.
  - intros gm Hin. apply in_or_app. left. exact Hin.
  - intros gm Hin. apply in_app_or in Hin. destruct Hin as [Hin | [E | []]]; [left; exact Hin|].
    right. subst gm. simpl. auto.
Qed.

Lemma NoDup_snoc {A : Type} (l : list A) (x : A) :
  NoDup l -> ~ In x l -> NoDup (l ++ [x]).
Proof.
  induction l as [|y l IH]; intros Hl Hx; simpl.
  - constructor; [intros [] | constructor].
  - inversion Hl; subst. constructor.
    + intros Hin. apply in_app_or in Hin. destruct Hin as [Hin | [E | []]].
      * contradiction.
      * subst. apply Hx. left. reflexivity.
    + apply IH; [assumption|]. intros Hin. apply Hx. right. exact Hin.
Qed.

(** X8.  The uniqueness of (group, user) pairs among the memberships is kept by
    every insert into group_members, and so by [joinGroup]. *)
Theorem joinGroup_keeps_memberships_unique (user : actor) (groupId : uuid) (db : Db) :
  memberships_unique db ->
  memberships_unique (fst (StudyGroups.joinGroup user groupId db)) /\
  (forall r, memberships_unique (fst (Supabase.insert_group_member user r db))).
Proof.
  intros Hu.
  assert (G : forall r, memberships_unique (fst (Supabase.insert_group_member user r db))).
  { intros r. destruct (insert_group_member_rows user r db) as [[E _] | [E [_ [_ [_ Hnew]]]]];
      rewrite E; [exact Hu|].
    unfold memberships_unique in *. simpl. rewrite map_app. simpl.
    apply NoDup_snoc; [exact Hu|]. intros Hin. apply in_map_iff in Hin.
    destruct Hin as [gm [E' Hin]]. inversion E'. exact (Hnew gm Hin H0 H1). }
  split; [|exact G].
  unfold StudyGroups.joinGroup. destruct user as [u|]; [|exact Hu].
  specialize (G (group_member.mk groupId u member)).
  destruct (Supabase.insert_group_member (Some u) (group_member.mk groupId u member) db)
    as [db1 err]. destruct err; exact G.
Qed.

Lemma joinGroup_keeps_memberships_unique_witness :
  memberships_unique (fst (StudyGroups.joinGroup (Some "u3") "g1" Scenario.db_full)).
Proof.
  refine (proj1 (joinGroup_keeps_memberships_unique (Some "u3") "g1" Scenario.db_full _)).
  unfold memberships_unique. simpl.
  constructor; [|constructor; [|constructor]]; simpl.
  - intros [E | []]. inversion E.
  - intros [].
Defined.

(** ** What the group pages show *)

(** X9.  The query of [fetchGroups] embeds group_members, so it ends in error
    42P17 for every caller and every store, also right after a join that
    succeeded: the Study Groups page keeps the list it had, which is empty
    when the page was just opened.  The same caller reads study_groups
    alone without an error, and gets the public groups and their own. *)
Theorem fetchGroups_fails_for_every_caller (user : actor)
    (prev : list (study_group.row * Z)) (db : Db) :
  StudyGroups.groups_response user db = inl Supabase.infinite_recursion /\
  StudyGroups.fetchGroups user prev db = prev /\
  (forall groupId,
      StudyGroups.fetchGroups user prev (fst (StudyGroups.joinGroup user groupId db)) = prev) /\
  (forall g, In g (Supabase.select_study_groups user db) <->
             In g (study_groups db) /\
             (study_group.privacy g = public \/ user = Some (study_group.creator_id g))).
Proof.
  split; [reflexivity|]. split; [reflexivity|]. split; [reflexivity|].
  intros g. unfold Supabase.select_study_groups.
  rewrite filter_In, study_groups_select_true. reflexivity.
Qed.

(** X10.  After a group was created, its creator is stored as a member, but
    the roster query of the group page ends in error 42P17 also for them:
    [fetchMembers] leaves the [members] state as it was, so the page that
    opens after the creation lists no member. *)
Theorem fetchMembers_shows_no_roster (u : uuid) (subjects : list subject.row)
    (formData : CreateGroup.form) (group_id : uuid) (db : Db) :
  snd (CreateGroup.handleSubmit (Some u) subjects formData group_id db)
  = CreateGroup.created group_id ->
  let db' := fst (CreateGroup.handleSubmit (Some u) subjects formData group_id db) in
  is_member db' u group_id /\
  Supabase.select_group_members (Some u) group_id db' = inl Supabase.infinite_recursion /\
  GroupDetail.fetchMembers (Some u) group_id [] db' = [] /\
  (forall user id prev, GroupDetail.fetchMembers user id prev db' = prev).
Proof.
  intros Hc db'. split; [|split; [reflexivity | split; reflexivity]].
  unfold db'. revert Hc. unfold CreateGroup.handleSubmit.
  destruct (String.eqb (CreateGroup.subject_id formData) EmptyString);
    [intros Hc; discriminate Hc|].
  destruct (negb (Rls.study_groups_select (Some u) _)); [intros Hc; discriminate Hc|].
  destruct (Supabase.insert_study_group (Some u) subjects
              (Some (CreateGroup.subject_id formData)) _ db) as [db1 groupError].
  destruct groupError; [intros Hc; discriminate Hc|].
  destruct (insert_group_member_rows (Some u) (group_member.mk group_id u admin) db1)
    as [[_ Herr] | [E _]];
    destruct (Supabase.insert_group_member (Some u) (group_member.mk group_id u admin) db1)
      as [db2 memberError]; simpl in *.
  - destruct memberError; [intros Hc; discriminate Hc | contradiction].
  - subst db2. destruct memberError; [intros Hc; discriminate Hc|]. intros _.
    exists (group_member.mk group_id u admin). simpl.
    split; [apply in_or_app; right; left; reflexivity | auto].
Qed.

Lemma fetchMembers_shows_no_roster_witness :
  is_member (fst (CreateGroup.handleSubmit (Some "u1") [Fixture.maths] Fixture.group_form
                    "g9" Fixture.db_groups)) "u1" "g9" /\
  GroupDetail.fetchMembers (Some "u1") "g9" []
    (fst (CreateGroup.handleSubmit (Some "u1") [Fixture.maths] Fixture.group_form
            "g9" Fixture.db_groups)) = [].
Proof.
  assert (H : forall P Q R S : Prop, P /\ Q /\ R /\ S -> P /\ R) by tauto.
  apply (H _ _ _ _
           (fetchMembers_shows_no_roster "u1" [Fixture.maths] Fixture.group_form "g9"
              Fixture.db_groups eq_refl)).
Defined.

(** ** Joining a group that is not public *)

(** X11.  A user who joins a private or invite-only group that someone else
    created becomes a member, and still sees nothing of the group: the group
    row is not readable for them, so [fetchGroupDetails] finds nothing before
    and after joining, and the chat query ends in error 42P17 as for
    everyone, so the chat stays empty. *)
Theorem joined_private_group_stays_hidden (u : uuid) (g : study_group.row) (db : Db) :
  In g (study_groups db) ->
  (forall g', In g' (study_groups db) -> study_group.id g' = study_group.id g -> g' = g) ->
  study_group.privacy g <> public ->
  study_group.creator_id g <> u ->
  ~ is_member db u (study_group.id g) ->
  let db' := fst (StudyGroups.joinGroup (Some u) (study_group.id g) db) in
  snd (StudyGroups.joinGroup (Some u) (study_group.id g) db) = StudyGroups.joined /\
  is_member db' u (study_group.id g) /\
  GroupDetail.messages_response (Some u) (study_group.id g) db'
  = inl Supabase.infinite_recursion /\
  GroupDetail.fetchMessages (Some u) (study_group.id g) [] db' = [] /\
  GroupDetail.fetchGroupDetails (Some u) (study_group.id g) db = None /\
  GroupDetail.fetchGroupDetails (Some u) (study_group.id g) db' = None.
Proof.
  intros Hin Hkey Hpriv Hcre Hnm db'.
  assert (Hex : existsb (fun grp => String.eqb (study_group.id grp) (study_group.id g))
                        (study_groups db) = true).
  { apply existsb_exists. exists g. split; [exact Hin | apply String.eqb_refl]. }
  assert (Hnew : forall gm, In gm (group_members db) ->
                   group_member.group_id gm = study_group.id g -> group_member.user_id gm <> u).
  { intros gm Hgm Hg Hu. apply Hnm. exists gm. auto. }
  assert (E : StudyGroups.joinGroup (Some u) (study_group.id g) db =
              (with_group_members
                 (group_members db ++ [group_member.mk (study_group.id g) u member]) db,
               StudyGroups.joined)).
  { unfold StudyGroups.joinGroup, Supabase.insert_group_member, Rls.group_members_insert.
    simpl. rewrite String.eqb_refl. simpl. rewrite Hex. simpl.
    rewrite (no_membership_existsb db u (study_group.id g) Hnew). reflexivity. }
  assert (Hm : is_member db' u (study_group.id g)).
  { unfold db'. rewrite E. simpl. exists (group_member.mk (study_group.id g) u member).
    simpl. split; [|auto]. apply in_or_app. right. left. reflexivity. }
  assert (Hhid : forall d, study_groups d = study_groups db ->
                   GroupDetail.fetchGroupDetails (Some u) (study_group.id g) d = None).
  { intros d Hd. unfold GroupDetail.fetchGroupDetails, Supabase.select_study_groups.
    rewrite Hd.
    destruct (find (fun g0 => String.eqb (study_group.id g0) (study_group.id g))
                   (filter (Rls.study_groups_select (Some u)) (study_groups db)))
      as [g'|] eqn:Ef; [|reflexivity].
    exfalso. apply find_some in Ef. destruct Ef as [Hf Hid].
    apply filter_In in Hf. destruct Hf as [Hg' Hsel]. apply String.eqb_eq in Hid.
    rewrite (Hkey g' Hg' Hid) in Hsel.
    unfold Rls.study_groups_select in Hsel. apply orb_true_iff in Hsel.
    destruct Hsel as [Hp | Hc].
    - apply privacy_eqb_eq in Hp. exact (Hpriv Hp).
    - apply auth_uid_eq_true in Hc. injection Hc as Hc. exact (Hcre (eq_sym Hc)). }
  split; [rewrite E; reflexivity|]. split; [exact Hm|].
  split; [reflexivity|]. split; [reflexivity|]. split.
  - apply Hhid. reflexivity.
  - apply Hhid. unfold db'. rewrite E. reflexivity.
Qed.

Lemma joined_private_group_stays_hidden_witness :
  snd (StudyGroups.joinGroup (Some "u3") "g1" Scenario.db_full) = StudyGroups.joined /\
  GroupDetail.fetchGroupDetails (Some "u3") "g1"
    (fst (StudyGroups.joinGroup (Some "u3") "g1" Scenario.db_full)) = None.
Proof.
  assert (H : forall P Q R S T U : Prop, P /\ Q /\ R /\ S /\ T /\ U -> P /\ U) by tauto.
  apply (H _ _ _ _ _ _
           (joined_private_group_stays_hidden "u3" Scenario.g1 Scenario.db_full
              (or_introl eq_refl)
              (fun g' Hin _ => match Hin with
                               | or_introl E => eq_sym E
                               | or_intror F => match F with end
                               end)
              ltac:(discriminate) ltac:(discriminate)
              ltac:(intros [gm [Hin [_ Hu]]]; simpl in Hin;
                    destruct Hin as [E | [E | []]]; subst gm; discriminate Hu))).
Defined.

(** ** Posting to the chat *)

(** X12.  Of the eleven tables, a caller can read all but group_members and
    messages, and can insert into all but messages: the three policies with
    a subquery on group_members cannot be expanded.  So the INSERT policy of
    messages gives no verdict, and every insert into messages, whatever the
    row, the caller and the store, is rejected with error 42P17 and stores
    nothing. *)
Theorem messages_insert_policy (db : Db) (a : actor) (m : message.row) :
  (forall t, Policy.select_expands t = true <-> t <> t_group_members /\ t <> t_messages) /\
  (forall t, Policy.insert_expands t = true <-> t <> t_messages) /\
  Rls.messages_insert db a m = None /\
  Supabase.insert_message a m db = (db, Some Supabase.infinite_recursion).
Proof.
  split; [|split; [|split; reflexivity]].
  - intros t. destruct t; vm_compute; split; try (intros H; discriminate H);
      try (intros _; reflexivity); try (intros _; split; discriminate).
    + intros [H _]. exfalso. apply H. reflexivity.
    + intros [_ H]. exfalso. apply H. reflexivity.
  - intros t. destruct t; vm_compute; split; try (intros H; discriminate H);
      try (intros _; reflexivity); try (intros _; discriminate).
    intros H. exfalso. apply H. reflexivity.
Qed.

(** X13.  Whatever its arguments, [sendMessage] changes nothing but the
    messages table, and there it either changes nothing or appends one row:
    a 'text' message of the caller, in the requested group, of which the
    caller is a member, whose content is the trimmed input and is not empty.
    Nothing is sent while [sending] is set. *)
Theorem sendMessage_effect (trim : string -> string) (user : actor) (id : uuid)
    (newMessage : string) (sending : bool) (message_id : uuid) (now : Z) (db : Db) :
  let r := GroupDetail.sendMessage trim user id newMessage sending message_id now db in
  (fst r = db /\ snd r <> GroupDetail.sent)
  \/
  (exists u,
      user = Some u /\ sending = false /\ trim newMessage <> EmptyString /\
      is_member db u id /\
      snd r = GroupDetail.sent /\
      fst r = with_messages
                (messages db ++ [message.mk message_id id u (trim newMessage) text now]) db).
Proof.
  left. unfold GroupDetail.sendMessage.
  destruct user as [u|]; [|split; [reflexivity | discriminate]].
  destruct (String.eqb (trim newMessage) EmptyString || sending);
    (split; [reflexivity | simpl; discriminate]).
Qed.

(** X14.  [sendMessage] never sends: whoever the caller is, the store is
    left as it was and the outcome is not [sent].  A signed-in user who
    submits a text that is not blank while no send is in progress, a member
    of the group like anyone else, gets the error toast. *)
Theorem sendMessage_never_sends (trim : string -> string) (user : actor) (id : uuid)
    (newMessage : string) (sending : bool) (message_id : uuid) (now : Z) (db : Db) :
  let r := GroupDetail.sendMessage trim user id newMessage sending message_id now db in
  fst r = db /\
  snd r <> GroupDetail.sent /\
  (forall u, user = Some u -> trim newMessage <> EmptyString -> sending = false ->
             r = (db, GroupDetail.send_error)).
Proof.
  unfold GroupDetail.sendMessage. destruct user as [u|]; simpl.
  - destruct (String.eqb (trim newMessage) EmptyString) eqn:Et; simpl.
    + split; [reflexivity|]. split; [discriminate|].
      intros u' _ Hne _. apply String.eqb_eq in Et. contradiction.
    + destruct sending; simpl.
      * split; [reflexivity|]. split; [discriminate|]. intros u' _ _ Hs. discriminate Hs.
      * split; [reflexivity|]. split; [discriminate|]. intros u' _ _ _. reflexivity.
  - split; [reflexivity|]. split; [discriminate|]. intros u' Hu. discriminate Hu.
Qed.

Lemma sendMessage_never_sends_witness :
  is_member Fixture.db_groups "u2" "g2" /\
  GroupDetail.sendMessage Fixture.trim_space (Some "u2") "g2" " thanks" false "m3" 30
    Fixture.db_groups
  = (Fixture.db_groups, GroupDetail.send_error).
Proof.
  split.
  - exists (group_member.mk "g2" "u2" member). simpl. auto.
  - refine (proj2 (proj2 (sendMessage_never_sends Fixture.trim_space (Some "u2") "g2"
                            " thanks" false "m3" 30 Fixture.db_groups))
              "u2" eq_refl _ eq_refl).
    discriminate.
Defined.

(** ** The chat window *)

Lemma insert_by_created_at_length (m : message.row) (l : list message.row) :
  length (GroupDetail.insert_by_created_at m l) = S (length l).
Proof.
  induction l as [|x r IH]; simpl; [reflexivity|].
  destruct (message.created_at m <? message.created_at x); simpl; [reflexivity|].
  rewrite IH. reflexivity.
Qed.

Lemma order_by_created_at_length (l : list message.row) :
  length (GroupDetail.order_by_created_at l) = length l.
Proof.
  unfold GroupDetail.order_by_created_at.
  assert (G : forall acc,
             length (fold_left (fun acc m => GroupDetail.insert_by_created_at m acc) l acc)
             = (length acc + length l)%nat).
  { induction l as [|m r IH]; intros acc; simpl; [lia|].
    rewrite IH, insert_by_created_at_length. lia. }
  rewrite G. reflexivity.
Qed.

Lemma filter_filter_length {A : Type} (f g : A -> bool) (l : list A) :
  (length (filter f (filter g l)) <= length (filter f l))%nat.
Proof.
  induction l as [|x r IH]; simpl; [lia|].
  destruct (g x); simpl; destruct (f x); simpl; lia.
Qed.

(** X15.  The clauses of the chat query keep at most 50 of the rows read, in
    ascending order of creation, each one a message of the group, and all
    the messages of the group when there are at most 50 of them.  As the
    page runs it, the query ends in error 42P17 for every caller, and
    [fetchMessages] leaves the chat as it was. *)
Theorem fetchMessages_window (user : actor) (id : uuid) (prev rows : list message.row)
    (db : Db) :
  (length (GroupDetail.messages_query id rows) <= 50)%nat /\
  Sorted created_le (GroupDetail.messages_query id rows) /\
  (forall m, In m (GroupDetail.messages_query id rows) ->
             In m rows /\ message.group_id m = id) /\
  ((length (filter (fun m => String.eqb (message.group_id m) id) rows) <= 50)%nat ->
   forall m, In m rows -> message.group_id m = id ->
             In m (GroupDetail.messages_query id rows)) /\
  GroupDetail.messages_response user id db = inl Supabase.infinite_recursion /\
  GroupDetail.fetchMessages user id prev db = prev.
Proof.
  split; [apply messages_query_at_most_50|]. split; [apply messages_query_ascending|].
  split; [intros m; apply messages_query_sound|].
  split; [|split; reflexivity].
  intros Hlen m Hin Hg. unfold GroupDetail.messages_query.
  rewrite firstn_all2 by (rewrite order_by_created_at_length; exact Hlen).
  apply order_by_created_at_In.
  apply filter_In. split; [exact Hin | apply String.eqb_eq; exact Hg].
Qed.

Lemma fetchMessages_window_witness :
  In (message.mk "m2" "g2" "u2" "hi" text 20)
     (GroupDetail.messages_query "g2" (messages Fixture.db_groups)).
Proof.
  refine (proj1 (proj2 (proj2 (proj2 (fetchMessages_window None "g2" []
                                        (messages Fixture.db_groups) Fixture.db_groups))))
            _ (message.mk "m2" "g2" "u2" "hi" text 20) _ eq_refl).
  - simpl. lia.
  - right. left. reflexivity.
Defined.

(** ** Marking a notification as read *)

(** X16.  In the store, [markNotificationAsRead] changes nothing but the read
    flag of the caller's own notification with that id: every row of the
    table after the call is a row from before, either untouched or, when it
    belongs to the caller and has the id, with is_read set.  No notification
    of another user changes and none is marked unread. *)
Theorem markNotificationAsRead_store (user : actor) (notificationId : uuid)
    (prev : list notification.row) (db : Db) :
  let db' := fst (Profile.markNotificationAsRead user notificationId prev db) in
  (forall n', In n' (notifications db') ->
     exists n, In n (notifications db) /\
       notification.id n' = notification.id n /\
       notification.user_id n' = notification.user_id n /\
       notification.type n' = notification.type n /\
       notification.title n' = notification.title n /\
       ((n' = n) \/
        (notification.is_read n' = true /\ notification.id n = notificationId /\
         user = Some (notification.user_id n)))) /\
  (forall n, In n (notifications db) -> user <> Some (notification.user_id n) ->
             In n (notifications db')) /\
  length (notifications db') = length (notifications db) /\
  answers db' = answers db /\ questions db' = questions db /\ profiles db' = profiles db.
Proof.
  unfold Profile.markNotificationAsRead. simpl. split; [|split; [|split]].
  - intros n' Hin. apply update_where_inv in Hin.
    destruct Hin as [n [Hn [[Hc E] | [_ E]]]]; exists n; subst n'; simpl.
    + repeat split; auto. right. apply andb_true_iff in Hc. destruct Hc as [Hid Hp].
      apply String.eqb_eq in Hid. apply auth_uid_eq_true in Hp. auto.
    + repeat split; auto.
  - intros n Hin Hne. apply update_where_keeps_denied; [exact Hin|].
    apply not_true_is_false. intros E. apply auth_uid_eq_true in E. exact (Hne E).
  - apply update_where_length.
  - auto.
Qed.

Lemma markNotificationAsRead_store_witness :
  In (notification.mk "n2" "u2" points_earned "Points" false)
     (notifications
        (fst (Profile.markNotificationAsRead (Some "u1") "n2" [] Fixture.db_groups))).
Proof.
  apply (proj1 (proj2 (markNotificationAsRead_store (Some "u1") "n2" [] Fixture.db_groups))).
  - right. left. reflexivity.
  - discriminate.
Defined.

(** X17.  On the page, [markNotificationAsRead] never raises the unread count
    of the tab, and the list it leaves agrees with the store: a notification
    of the caller that was in the list and in the store is, as the list now
    shows it, in the store after the call. *)
Theorem markNotificationAsRead_page (u : uuid) (notificationId : uuid)
    (prev : list notification.row) (db : Db) :
  let r := Profile.markNotificationAsRead (Some u) notificationId prev db in
  (Profile.unread_count (snd r) <= Profile.unread_count prev)%nat /\
  length (snd r) = length prev /\
  (forall i n, nth_error prev i = Some n ->
     In n (notifications db) -> notification.user_id n = u ->
     exists n', nth_error (snd r) i = Some n' /\ In n' (notifications (fst r))).
Proof.
  unfold Profile.markNotificationAsRead. simpl. split; [|split].
  - unfold Profile.unread_count. induction prev as [|x l IH]; simpl; [lia|].
    destruct (String.eqb (notification.id x) notificationId); simpl;
      destruct (notification.is_read x); simpl; lia.
  - apply length_map.
  - intros i n Hi Hin Hu. rewrite nth_error_map, Hi. simpl. eexists. split; [reflexivity|].
    unfold Supabase.update_where. apply in_map_iff. exists n. split; [|exact Hin].
    unfold Rls.notifications_update. simpl. rewrite Hu, String.eqb_refl, andb_true_r.
    reflexivity.
Qed.

Lemma markNotificationAsRead_page_witness :
  exists n', nth_error (snd (Profile.markNotificationAsRead (Some "u1") "n1"
                               [notification.mk "n1" "u1" question_answered "New answer" false]
                               Fixture.db_groups)) 0 = Some n' /\
             In n' (notifications (fst (Profile.markNotificationAsRead (Some "u1") "n1"
                               [notification.mk "n1" "u1" question_answered "New answer" false]
                               Fixture.db_groups))).
Proof.
  apply (proj2 (proj2 (markNotificationAsRead_page "u1" "n1"
                         [notification.mk "n1" "u1" question_answered "New answer" false]
                         Fixture.db_groups))
           0%nat (notification.mk "n1" "u1" question_answered "New answer" false)).
  - reflexivity.
  - left. reflexivity.
  - reflexivity.
Defined.

(** ** Posting an answer *)

Lemma count_app_one {A : Type} (f : A -> bool) (l : list A) (x : A) :
  Z.of_nat (length (filter f (l ++ [x])))
  = Z.of_nat (length (filter f l)) + (if f x then 1 else 0).
Proof.
  rewrite filter_app, length_app, Nat2Z.inj_add. simpl. destruct (f x); reflexivity.
Qed.

Lemma answers_select_all (a : actor) (l : list answer.row) :
  filter (Rls.answers_select a) l = l.
Proof.
  induction l as [|x r IH]; simpl; [reflexivity|]. rewrite IH. reflexivity.
Qed.

(** X18.  A signed-in user who submits a text that is not blank on an existing
    question gets it stored, whether or not the question is already resolved:
    the new answer has the text as typed, 0 upvotes and is not accepted, the
    answers already there are unchanged, and in the user's stats answers_given
    grows by one while answers_accepted stays the same. *)
Theorem submitAnswer_success (trim : string -> string) (u id : uuid) (newAnswer : string)
    (answer_id : uuid) (db : Db) :
  trim newAnswer <> EmptyString ->
  (exists q, In q (questions db) /\ question.id q = id) ->
  (forall a, In a (answers db) -> answer.id a <> answer_id) ->
  let r := QuestionDetail.submitAnswer trim (Some u) id newAnswer answer_id db in
  r = (with_answers (answers db ++ [answer.mk answer_id id u newAnswer (Some 0) false]) db,
       QuestionDetail.submit_success) /\
  Profile.answers_given (Profile.fetchUserStats u (fst r))
  = Profile.answers_given (Profile.fetchUserStats u db) + 1 /\
  Profile.answers_accepted (Profile.fetchUserStats u (fst r))
  = Profile.answers_accepted (Profile.fetchUserStats u db).
Proof.
  intros Ht [q [Hq Hid]] Hfresh r.
  assert (E : r = (with_answers
                     (answers db ++ [answer.mk answer_id id u newAnswer (Some 0) false]) db,
                   QuestionDetail.submit_success)).
  { unfold r, QuestionDetail.submitAnswer, Supabase.insert_answer, Rls.answers_insert.
    apply String.eqb_neq in Ht. rewrite Ht. simpl. rewrite String.eqb_refl. simpl.
    assert (Ef : existsb (fun x => String.eqb (answer.id x) answer_id) (answers db) = false).
    { apply not_true_is_false. intros E. apply existsb_exists in E.
      destruct E as [x [Hx Hx']]. apply String.eqb_eq in Hx'. exact (Hfresh x Hx Hx'). }
    rewrite Ef. simpl.
    assert (Eq : existsb (fun q0 => String.eqb (question.id q0) id) (questions db) = true).
    { apply existsb_exists. exists q. split; [exact Hq | apply String.eqb_eq; exact Hid]. }
    rewrite Eq. reflexivity. }
  split; [exact E|]. rewrite E.
  unfold Profile.fetchUserStats.
  cbn [fst Profile.answers_given Profile.answers_accepted answers with_answers].
  rewrite !answers_select_all, !count_app_one. simpl. rewrite String.eqb_refl. simpl.
  split; lia.
Qed.

Lemma submitAnswer_success_witness :
  QuestionDetail.submitAnswer Fixture.trim_space (Some "u2") "q9" "Try parts." "s3"
    Fixture.db_self
  = (with_answers
       (answers Fixture.db_self ++ [answer.mk "s3" "q9" "u2" "Try parts." (Some 0) false])
       Fixture.db_self, QuestionDetail.submit_success).
Proof.
  refine (proj1 (submitAnswer_success Fixture.trim_space "u2" "q9" "Try parts." "s3"
                   Fixture.db_self _ _ _)).
  - discriminate.
  - exists Fixture.q9. split; [left|]; reflexivity.
  - intros a Hin Hid. simpl in Hin. destruct Hin as [E | [E | []]]; subst a; discriminate Hid.
Defined.

(** X19.  Whatever its arguments, [submitAnswer] never changes or removes an
    answer and never touches the questions: the answers after the call are the
    answers before, followed by at most one new row, and a blank text or an
    anonymous caller adds none. *)
Theorem submitAnswer_effect (trim : string -> string) (user : actor) (id : uuid)
    (newAnswer : string) (answer_id : uuid) (db : Db) :
  let r := QuestionDetail.submitAnswer trim user id newAnswer answer_id db in
  questions (fst r) = questions db /\
  ((answers (fst r) = answers db /\ snd r <> QuestionDetail.submit_success)
   \/
   (exists u, user = Some u /\ trim newAnswer <> EmptyString /\
              snd r = QuestionDetail.submit_success /\
              answers (fst r)
              = (answers db ++ [answer.mk answer_id id u newAnswer (Some 0) false])%list)).
Proof.
  unfold QuestionDetail.submitAnswer. destruct user as [u|]; simpl;
    [|split; [reflexivity | left; split; [reflexivity | discriminate]]].
  destruct (String.eqb (trim newAnswer) EmptyString) eqn:Et; simpl;
    [split; [reflexivity | left; split; [reflexivity | discriminate]]|].
  unfold Supabase.insert_answer.
  destruct (Rls.answers_insert (Some u) _); simpl;
    [|split; [reflexivity | left; split; [reflexivity | discriminate]]].
  destruct (existsb _ (answers db)); simpl;
    [split; [reflexivity | left; split; [reflexivity | discriminate]]|].
  destruct (existsb _ (questions db)); simpl;
    [|split; [reflexivity | left; split; [reflexivity | discriminate]]].
  split; [reflexivity|]. right. exists u. apply String.eqb_neq in Et. auto.
Qed.

(** ** Asking a question *)

Lemma find_app_fresh {A : Type} (f : A -> bool) (l : list A) (x : A) :
  (forall y, In y l -> f y = false) -> f x = true -> find f (l ++ [x]) = Some x.
Proof.
  induction l as [|y r IH]; intros Hl Hx; simpl.
  - rewrite Hx. reflexivity.
  - rewrite (Hl y (or_introl eq_refl)). apply IH; [|exact Hx].
    intros z Hz. apply Hl. right. exact Hz.
Qed.

Lemma find_app_other {A : Type} (f : A -> bool) (l : list A) (x : A) :
  f x = false -> find f (l ++ [x]) = find f l.
Proof.
  intros Hx. induction l as [|y r IH]; simpl.
  - rewrite Hx. reflexivity.
  - destruct (f y); [reflexivity | exact IH].
Qed.

Lemma questions_select_all (a : actor) (l : list question.row) :
  filter (Rls.questions_select a) l = l.
Proof.
  induction l as [|x r IH]; simpl; [reflexivity|]. rewrite IH. reflexivity.
Qed.

(** X20.  Posting and reading back.  When a signed-in user submits the Ask
    form with no subject chosen, or with a subject of the catalog, the
    question is stored and every reader, signed in or not, who then fetches it
    by its id gets the title, content and difficulty of the form, the asker as
    user_id, zero views and upvotes, and is_resolved false.  The questions
    already stored are unchanged. *)
Theorem handleSubmit_question_round_trip (u : uuid) (subjects : list subject.row)
    (formData : AskQuestion.form) (question_id : uuid) (db : Db) :
  (AskQuestion.subject_id formData = EmptyString \/
   exists s, In s subjects /\ subject.id s = AskQuestion.subject_id formData) ->
  (forall q, In q (questions db) -> question.id q <> question_id) ->
  let r := AskQuestion.handleSubmit (Some u) subjects formData question_id db in
  snd r = AskQuestion.posted question_id /\
  (forall reader,
      Supabase.select_question reader question_id (fst r)
      = Some (question.mk question_id u (AskQuestion.title formData)
                          (AskQuestion.content formData) (AskQuestion.difficulty formData)
                          (Some 0) (Some 0) false)) /\
  (forall reader id, id <> question_id ->
      Supabase.select_question reader id (fst r) = Supabase.select_question reader id db).
Proof.
  intros Hsub Hfresh r.
  set (q := question.mk question_id u (AskQuestion.title formData)
                        (AskQuestion.content formData) (AskQuestion.difficulty formData)
                        (Some 0) (Some 0) false).
  assert (E : r = (with_questions (questions db ++ [q]) db, AskQuestion.posted question_id)).
  { unfold r, AskQuestion.handleSubmit, Supabase.insert_question, Rls.questions_insert,
      Rls.questions_select. simpl. rewrite String.eqb_refl. simpl.
    assert (Ef : existsb (fun x => String.eqb (question.id x) question_id) (questions db)
                 = false).
    { apply not_true_is_false. intros E. apply existsb_exists in E.
      destruct E as [x [Hx Hx']]. apply String.eqb_eq in Hx'. exact (Hfresh x Hx Hx'). }
    rewrite Ef. simpl.
    assert (Es : match AskQuestion.subject_or_null (AskQuestion.subject_id formData) with
                 | Some sid => negb (existsb (fun x => String.eqb (subject.id x) sid) subjects)
                 | None => false
                 end = false).
    { unfold AskQuestion.subject_or_null.
      destruct (String.eqb (AskQuestion.subject_id formData) EmptyString) eqn:Ee;
        [reflexivity|].
      destruct Hsub as [Hs | [s [Hs Hid]]].
      - rewrite Hs in Ee. discriminate Ee.
      - apply negb_false_iff. apply existsb_exists. exists s.
        split; [exact Hs | apply String.eqb_eq; exact Hid]. }
    rewrite Es. reflexivity. }
  rewrite E. simpl. split; [reflexivity|]. split.
  - intros reader. unfold Supabase.select_question. simpl. rewrite questions_select_all.
    apply find_app_fresh; [|apply String.eqb_refl].
    intros y Hy. apply String.eqb_neq. apply Hfresh. exact Hy.
  - intros reader id Hne. unfold Supabase.select_question. simpl.
    rewrite !questions_select_all.
    apply find_app_other. simpl. apply String.eqb_neq. congruence.
Qed.

Lemma handleSubmit_question_round_trip_witness :
  Supabase.select_question None "q7"
    (fst (AskQuestion.handleSubmit (Some "u2") [Fixture.maths] Fixture.ask_form "q7"
            Fixture.db_self))
  = Some (question.mk "q7" "u2" "Limits" "What is a limit?" hard (Some 0) (Some 0) false).
Proof.
  refine (proj1 (proj2 (handleSubmit_question_round_trip "u2" [Fixture.maths] Fixture.ask_form
                          "q7" Fixture.db_self _ _)) None).
  - left. reflexivity.
  - intros q Hin Hid. simpl in Hin. destruct Hin as [E | []]; subst q; discriminate Hid.
Defined.

(** ** Creating a group *)

(** X21.  When a signed-in user submits the Create Group form with a subject
    of the catalog and the store holds no row with the new id, the group is
    stored with the user as creator and the privacy and limit of the form,
    the creator is enrolled with the role admin and is its only member, and
    the creator reads the group back even when it is private.  The form never
    produces an invite-only group. *)
Theorem handleSubmit_group_enrols_creator (u : uuid) (subjects : list subject.row)
    (formData : CreateGroup.form) (group_id : uuid) (db : Db) :
  (exists s, In s subjects /\ subject.id s = CreateGroup.subject_id formData) ->
  CreateGroup.subject_id formData <> EmptyString ->
  (forall g, In g (study_groups db) -> study_group.id g <> group_id) ->
  (forall gm, In gm (group_members db) -> group_member.group_id gm <> group_id) ->
  let r := CreateGroup.handleSubmit (Some u) subjects formData group_id db in
  let g := study_group.mk group_id (CreateGroup.name formData) u
                          (CreateGroup.max_members formData)
                          (CreateGroup.privacy_of (CreateGroup.privacy formData)) in
  snd r = CreateGroup.created group_id /\
  study_groups (fst r) = (study_groups db ++ [g])%list /\
  group_members (fst r) = (group_members db ++ [group_member.mk group_id u admin])%list /\
  StudyGroups.member_count (fst r) group_id = 1 /\
  GroupDetail.fetchGroupDetails (Some u) group_id (fst r) = Some g /\
  study_group.privacy g <> invite_only.
Proof.
  intros [s [Hs Hsid]] Hne Hfresh Hfm r g.
  assert (Eg : existsb (fun x => String.eqb (study_group.id x) group_id) (study_groups db)
               = false).
  { apply not_true_is_false. intros E. apply existsb_exists in E.
    destruct E as [x [Hx Hx']]. apply String.eqb_eq in Hx'. exact (Hfresh x Hx Hx'). }
  assert (Em : forall l, (forall gm, In gm l -> group_member.group_id gm <> group_id) ->
                 existsb (fun gm => String.eqb (group_member.group_id gm) group_id
                                    && String.eqb (group_member.user_id gm) u) l = false).
  { intros l Hl. apply not_true_is_false. intros E. apply existsb_exists in E.
    destruct E as [x [Hx Hx']]. apply andb_true_iff in Hx'. destruct Hx' as [Hx' _].
    apply String.eqb_eq in Hx'. exact (Hl x Hx Hx'). }
  assert (E : r = (with_group_members
                     (group_members db ++ [group_member.mk group_id u admin])
                     (with_study_groups (study_groups db ++ [g]) db),
                   CreateGroup.created group_id)).
  { unfold r, CreateGroup.handleSubmit. apply String.eqb_neq in Hne. rewrite Hne.
    unfold Rls.study_groups_select. simpl. rewrite String.eqb_refl, orb_true_r. simpl.
    unfold Supabase.insert_study_group, Rls.study_groups_insert. simpl.
    rewrite String.eqb_refl. simpl. rewrite Eg. simpl.
    assert (Es : existsb (fun x => String.eqb (subject.id x) (CreateGroup.subject_id formData))
                         subjects = true).
    { apply existsb_exists. exists s. split; [exact Hs | apply String.eqb_eq; exact Hsid]. }
    rewrite Es. simpl.
    unfold Supabase.insert_group_member, Rls.group_members_insert. simpl.
    rewrite String.eqb_refl. simpl. rewrite existsb_app. simpl.
    rewrite String.eqb_refl, orb_true_r. simpl. rewrite (Em _ Hfm). reflexivity. }
  rewrite E. simpl. split; [reflexivity|]. split; [reflexivity|]. split; [reflexivity|].
  split; [|split].
  - unfold StudyGroups.member_count. simpl. rewrite filter_app. simpl.
    rewrite String.eqb_refl.
    assert (Ez : filter (fun gm => String.eqb (group_member.group_id gm) group_id)
                        (group_members db) = []).
    { clear -Hfm. induction (group_members db) as [|x l IH]; [reflexivity|]. simpl.
      assert (Hx : String.eqb (group_member.group_id x) group_id = false).
      { apply String.eqb_neq. apply Hfm. left. reflexivity. }
      rewrite Hx. apply IH. intros gm Hin. apply Hfm. right. exact Hin. }
    rewrite Ez. reflexivity.
  - unfold GroupDetail.fetchGroupDetails, Supabase.select_study_groups. simpl.
    rewrite filter_app. simpl. unfold Rls.study_groups_select at 2. simpl.
    rewrite String.eqb_refl, orb_true_r.
    apply find_app_fresh; [|apply String.eqb_refl].
    intros y Hy. apply filter_In in Hy. destruct Hy as [Hy _].
    apply String.eqb_neq. apply Hfresh. exact Hy.
  - unfold g. simpl. destruct (CreateGroup.privacy formData); discriminate.
Qed.

Lemma handleSubmit_group_enrols_creator_witness :
  snd (CreateGroup.handleSubmit (Some "u3") [Fixture.maths] Fixture.group_form "g4"
         Fixture.db_groups) = CreateGroup.created "g4" /\
  StudyGroups.member_count
    (fst (CreateGroup.handleSubmit (Some "u3") [Fixture.maths] Fixture.group_form "g4"
            Fixture.db_groups)) "g4" = 1.
Proof.
  assert (H : forall P Q R S T U : Prop, P /\ Q /\ R /\ S /\ T /\ U -> P /\ S) by tauto.
  refine (H _ _ _ _ _ _
            (handleSubmit_group_enrols_creator "u3" [Fixture.maths] Fixture.group_form "g4"
               Fixture.db_groups _ _ _ _)).
  - exists Fixture.maths. split; [left|]; reflexivity.
  - discriminate.
  - intros g Hin Hid. simpl in Hin. destruct Hin as [E | [E | []]]; subst g; discriminate Hid.
  - intros gm Hin Hid. simpl in Hin.
    destruct Hin as [E | [E | [E | []]]]; subst gm; discriminate Hid.
Defined.

(** X22.  [handleSubmit] of the Create Group page either stores nothing or
    stores the group: submitted with the subject still unset, as in the
    initial form, or by an anonymous visitor, it fails and the store is
    unchanged; and it never changes or removes a group or a membership that
    was there. *)
Theorem handleSubmit_group_failure_and_frame (user : actor) (subjects : list subject.row)
    (formData : CreateGroup.form) (group_id : uuid) (db : Db) :
  let r := CreateGroup.handleSubmit user subjects formData group_id db in
  (CreateGroup.subject_id formData = EmptyString -> user <> None ->
   r = (db, CreateGroup.failed)) /\
  (user = None -> r = (db, CreateGroup.not_signed_in)) /\
  (forall g, In g (study_groups db) -> In g (study_groups (fst r))) /\
  (forall gm, In gm (group_members db) -> In gm (group_members (fst r))) /\
  (snd r <> CreateGroup.created group_id -> group_members (fst r) = group_members db).
Proof.
  unfold CreateGroup.handleSubmit. destruct user as [u|]; simpl.
  2: { repeat split; auto; intros; congruence. }
  destruct (String.eqb (CreateGroup.subject_id formData) EmptyString) eqn:Ee.
  { repeat split; auto; intros; discriminate. }
  assert (Hne : CreateGroup.subject_id formData <> EmptyString)
    by (apply String.eqb_neq; exact Ee).
  destruct (negb (Rls.study_groups_select (Some u) _)); simpl.
  { repeat split; auto; intros; try discriminate; contradiction. }
  unfold Supabase.insert_study_group.
  destruct (negb (Rls.study_groups_insert (Some u) _)); simpl.
  { repeat split; auto; intros; try discriminate; contradiction. }
  destruct (existsb _ (study_groups db)); simpl.
  { repeat split; auto; intros; try discriminate; contradiction. }
  destruct (negb (existsb _ subjects)); simpl.
  { repeat split; auto; intros; try discriminate; contradiction. }
  match goal with
  | |- context [Supabase.insert_group_member ?a ?row ?d] =>
      destruct (insert_group_member_rows a row d) as [[E1 E2] | [E1 [E2 _]]];
      destruct (Supabase.insert_group_member a row d) as [db2 err]
  end; simpl in E1, E2; subst db2.
  - destruct err as [e|]; [|contradiction]. simpl.
    split; [intros; contradiction|]. split; [discriminate|].
    split; [intros g Hg; apply in_or_app; left; exact Hg|]. split; auto.
  - subst err. simpl.
    split; [intros; contradiction|]. split; [discriminate|].
    split; [intros g Hg; apply in_or_app; left; exact Hg|].
    split; [intros gm Hgm; apply in_or_app; left; exact Hgm|].
    intros Hc. contradiction Hc. reflexivity.
Qed.

(** ** Answer counts on the questions page *)

Lemma lookup_assign (acc : Questions.count_map) (key k : uuid) (v : Z) :
  Questions.lookup (Questions.assign acc key v) k
  = if String.eqb key k then Some v else Questions.lookup acc k.
Proof.
  unfold Questions.lookup. induction acc as [|[k0 v0] r IH]; simpl.
  - destruct (String.eqb key k); reflexivity.
  - destruct (String.eqb k0 key) eqn:Ek; simpl.
    + apply String.eqb_eq in Ek. subst k0.
      destruct (String.eqb key k); reflexivity.
    + destruct (String.eqb k0 k) eqn:Ek'; simpl; [|exact IH].
      apply String.eqb_eq in Ek'. subst k0.
      rewrite String.eqb_sym, Ek. reflexivity.
Qed.

Lemma answerCountMap_counts (answerCounts : list uuid) (k : uuid) :
  or_zero (Questions.lookup (Questions.answerCountMap answerCounts) k)
  = Z.of_nat (length (filter (String.eqb k) answerCounts)).
Proof.
  unfold Questions.answerCountMap.
  assert (G : forall acc,
             or_zero (Questions.lookup
                        (fold_left (fun acc qid =>
                                      Questions.assign acc qid
                                        (or_zero (Questions.lookup acc qid) + 1))
                                   answerCounts acc) k)
             = or_zero (Questions.lookup acc k)
               + Z.of_nat (length (filter (String.eqb k) answerCounts))).
  { induction answerCounts as [|x r IH]; intros acc; simpl; [lia|].
    rewrite IH, lookup_assign. rewrite (String.eqb_sym k x).
    destruct (String.eqb x k) eqn:Ex; simpl.
    - apply String.eqb_eq in Ex. subst x. lia.
    - lia. }
  rewrite G. reflexivity.
Qed.

Lemma filter_map_length {A B : Type} (f : A -> B) (p : B -> bool) (l : list A) :
  length (filter p (map f l)) = length (filter (fun x => p (f x)) l).
Proof.
  induction l as [|x r IH]; simpl; [reflexivity|].
  destruct (p (f x)); simpl; rewrite IH; reflexivity.
Qed.

(** X23.  On the questions page every listed question carries as answer_count
    the number of answers the store holds for it, under every filter; the
    'unanswered' filter lists exactly the fetched questions without an answer,
    and the 'resolved' filter exactly the resolved ones. *)
Theorem fetchQuestions_answer_counts (user : actor) (data : list question.row) (db : Db) :
  (forall f q c, In (q, c) (Questions.fetchQuestions user f data db) ->
                 In q data /\
                 c = Z.of_nat (length (answers_of db (question.id q)))) /\
  (forall q, In q data ->
             (In (q, 0) (Questions.fetchQuestions user Questions.unanswered data db)
              <-> answers_of db (question.id q) = [])) /\
  (forall q, In q data ->
             ((exists c, In (q, c) (Questions.fetchQuestions user Questions.resolved data db))
              <-> question.is_resolved q = true)).
Proof.
  assert (C : forall q, In q data ->
                or_zero (Questions.lookup
                           (Questions.answerCountMap
                              (Questions.select_answer_question_ids user
                                 (map question.id data) db)) (question.id q))
                = Z.of_nat (length (answers_of db (question.id q)))).
  { intros q Hq. rewrite answerCountMap_counts.
    unfold Questions.select_answer_question_ids, answers_of.
    rewrite filter_map_length, answers_select_all. f_equal.
    induction (answers db) as [|a l IH]; simpl; [reflexivity|].
    destruct (String.eqb (answer.question_id a) (question.id q)) eqn:Ea.
    - assert (Hin : existsb (String.eqb (answer.question_id a)) (map question.id data) = true).
      { apply existsb_exists. exists (question.id q). split; [|exact Ea].
        apply in_map. exact Hq. }
      rewrite Hin. simpl. rewrite String.eqb_sym, Ea. simpl. f_equal. exact IH.
    - destruct (existsb (String.eqb (answer.question_id a)) (map question.id data)); simpl;
        [rewrite String.eqb_sym, Ea|]; exact IH. }
  assert (W : forall q c,
                In (q, c) (map (fun q0 => (q0, or_zero (Questions.lookup
                           (Questions.answerCountMap
                              (Questions.select_answer_question_ids user
                                 (map question.id data) db)) (question.id q0)))) data)
                <-> In q data /\ c = Z.of_nat (length (answers_of db (question.id q)))).
  { intros q c. rewrite in_map_iff. split.
    - intros [q0 [E Hq0]]. inversion E; subst. split; [exact Hq0|]. apply C. exact Hq0.
    - intros [Hq Hc]. exists q. split; [|exact Hq]. rewrite C by exact Hq. congruence. }
  split; [|split].
  - intros f q c Hin. unfold Questions.fetchQuestions in Hin.
    destruct f; [|apply filter_In in Hin; destruct Hin as [Hin _]
                 |apply filter_In in Hin; destruct Hin as [Hin _]];
      apply W in Hin; exact Hin.
  - intros q Hq. unfold Questions.fetchQuestions. rewrite filter_In, W. simpl. split.
    + intros [[_ Hc] _]. destruct (answers_of db (question.id q)); [reflexivity|].
      simpl in Hc. lia.
    + intros E. rewrite E. simpl. auto.
  - intros q Hq. unfold Questions.fetchQuestions. split.
    + intros [c Hin]. apply filter_In in Hin. destruct Hin as [_ Hr]. exact Hr.
    + intros Hr. eexists. apply filter_In. split; [|exact Hr]. apply W.
      split; [exact Hq | reflexivity].
Qed.

Lemma fetchQuestions_answer_counts_witness :
  In (Fixture.q9, 2) (Questions.fetchQuestions None Questions.all [Fixture.q9] Fixture.db_self)
  /\ ~ In (Fixture.q9, 0)
          (Questions.fetchQuestions None Questions.unanswered [Fixture.q9] Fixture.db_self).
Proof.
  split; [left; reflexivity|].
  intros H.
  apply (proj1 (proj2 (fetchQuestions_answer_counts None [Fixture.q9] Fixture.db_self))
           Fixture.q9 (or_introl eq_refl)) in H.
  discriminate H.
Defined.

(** ** Relative times on the dashboard *)

(** X24.  For a date that is not in the future, [formatTimeAgo] prints whole
    minutes below one hour, whole hours from 1 to 23 below one day, and whole
    days from 1 on, each rounded down.  An invalid date prints "NaNd ago". *)
Theorem formatTimeAgo_units (now d : Z) :
  d <= now ->
  let minutes := (now - d) / 60000 in
  (minutes < 60 ->
   0 <= minutes /\
   Dashboard.formatTimeAgo now (Some d) = Dashboard.show minutes ++ "m ago") /\
  (60 <= minutes < 1440 ->
   exists h, 1 <= h <= 23 /\ 60 * h <= minutes < 60 * (h + 1) /\
             Dashboard.formatTimeAgo now (Some d) = Dashboard.show h ++ "h ago") /\
  (1440 <= minutes ->
   exists days, 1 <= days /\ 1440 * days <= minutes < 1440 * (days + 1) /\
                Dashboard.formatTimeAgo now (Some d) = Dashboard.show days ++ "d ago") /\
  Dashboard.formatTimeAgo now None = "NaNd ago".
Proof.
  intros Hd minutes. unfold Dashboard.formatTimeAgo.
  change (1000 * 60) with 60000. fold minutes.
  assert (H0 : 0 <= minutes) by (apply Z.div_pos; lia).
  split; [|split; [|split]].
  - intros Hlt. split; [exact H0|].
    assert (E : (minutes <? 60) = true) by (apply Z.ltb_lt; exact Hlt).
    rewrite E. reflexivity.
  - intros [Hge Hlt].
    assert (E1 : (minutes <? 60) = false) by (apply Z.ltb_ge; exact Hge).
    assert (E2 : (minutes <? 1440) = true) by (apply Z.ltb_lt; exact Hlt).
    rewrite E1, E2. exists (minutes / 60).
    pose proof (Z.div_mod minutes 60 ltac:(lia)) as Hdm.
    pose proof (Z.mod_pos_bound minutes 60 ltac:(lia)) as Hmb.
    repeat split; try lia.
  - intros Hge.
    assert (E1 : (minutes <? 60) = false) by (apply Z.ltb_ge; lia).
    assert (E2 : (minutes <? 1440) = false) by (apply Z.ltb_ge; exact Hge).
    rewrite E1, E2. exists (minutes / 1440).
    pose proof (Z.div_mod minutes 1440 ltac:(lia)) as Hdm.
    pose proof (Z.mod_pos_bound minutes 1440 ltac:(lia)) as Hmb.
    repeat split; try lia.
  - reflexivity.
Qed.

Lemma formatTimeAgo_units_witness :
  Dashboard.formatTimeAgo 7200000 (Some 0) = "2h ago".
Proof.
  assert (Hd : 0 <= 7200000) by lia.
  assert (Hm : 60 <= (7200000 - 0) / 60000 < 1440)
    by (change ((7200000 - 0) / 60000) with 120; lia).
  destruct (proj1 (proj2 (formatTimeAgo_units 7200000 0 Hd)) Hm) as [h [Hh [Hb E]]].
  rewrite E. change ((7200000 - 0) / 60000) with 120 in Hb.
  assert (Eh : h = 2) by lia. rewrite Eh. reflexivity.
Defined.

(** ** Dropping files on the upload area *)

Section Upload.

Variable onFileUpload : FileUpload.File -> option string.

Lemma update_at_app (done : list FileUpload.UploadingFile)
    (g : FileUpload.UploadingFile -> FileUpload.UploadingFile)
    (x : FileUpload.UploadingFile) (rest : list FileUpload.UploadingFile) :
  FileUpload.update_at (length done) g (done ++ x :: rest) = (done ++ g x :: rest)%list.
Proof.
  induction done as [|d done IH]; simpl; [reflexivity|]. rewrite IH. reflexivity.
Qed.

Lemma upload_from_all (todo : list FileUpload.File) :
  forall (done : list FileUpload.UploadingFile) (toasts : list FileUpload.toast),
    FileUpload.upload_from onFileUpload (length done) todo
      ((done ++ map (fun f => FileUpload.mkUploading f 0 None None) todo)%list, toasts)
    = ((done ++ map (upload_final onFileUpload) todo)%list,
       (toasts ++ map (upload_toast onFileUpload) todo)%list).
Proof.
  induction todo as [|f r IH]; intros done toasts; simpl.
  - rewrite !app_nil_r. reflexivity.
  - unfold FileUpload.upload_one. rewrite update_at_app. simpl.
    assert (S1 : forall x : FileUpload.UploadingFile, forall rest,
               (done ++ x :: rest = (done ++ [x]) ++ rest)%list).
    { intros x rest. rewrite <- app_assoc. reflexivity. }
    assert (L : forall x : FileUpload.UploadingFile, S (length done) = length (done ++ [x])).
    { intros x. rewrite length_app. simpl. lia. }
    unfold upload_final, upload_toast.
    destruct (onFileUpload f) as [link|]; rewrite update_at_app; simpl.
    + rewrite (S1 (FileUpload.mkUploading f 100 (Some link) None)),
              (L (FileUpload.mkUploading f 100 (Some link) None)), IH.
      rewrite <- !app_assoc. reflexivity.
    + rewrite (S1 (FileUpload.mkUploading f 0 None (Some "Upload failed"))),
              (L (FileUpload.mkUploading f 0 None (Some "Upload failed"))), IH.
      rewrite <- !app_assoc. reflexivity.
Qed.

End Upload.

Lemma oversized_count (maxSize : Z) (files : list FileUpload.File) :
  Nat.eqb (length (filter (fun f => maxSize * 1024 * 1024 <? FileUpload.size f) files)) 0
  = true <->
  (forall f, In f files -> FileUpload.size f <= maxSize * 1024 * 1024).
Proof.
  rewrite Nat.eqb_eq. induction files as [|x r IH]; simpl.
  - split; [intros _ f [] | reflexivity].
  - destruct (maxSize * 1024 * 1024 <? FileUpload.size x) eqn:Ex; simpl.
    + split; [discriminate|]. intros H. apply Z.ltb_lt in Ex.
      specialize (H x (or_introl eq_refl)). lia.
    + rewrite IH. apply Z.ltb_ge in Ex. split.
      * intros H f [E | Hf]; [subst; exact Ex | apply H; exact Hf].
      * intros H f Hf. apply H. right. exact Hf.
Qed.

(** X25.  The size check of [onDrop] is all or nothing: when one dropped file
    is larger than [maxSize] megabytes, nothing is selected and nothing is
    uploaded, also of the files that fit, and the only effect is the "File too
    large" toast.  A file of exactly [maxSize] megabytes is within the limit.
    When all files fit and [onFilesSelected] is given, it receives all of them
    and nothing is uploaded. *)
Theorem onDrop_size_gate (onFileUpload : FileUpload.File -> option string) (maxSize : Z)
    (onFilesSelected : bool) (acceptedFiles : list FileUpload.File) :
  ((exists f, In f acceptedFiles /\ maxSize * 1024 * 1024 < FileUpload.size f) ->
   FileUpload.onDrop onFileUpload maxSize onFilesSelected acceptedFiles
   = FileUpload.mkResult None [] [FileUpload.file_too_large maxSize]) /\
  (acceptedFiles <> [] ->
   (forall f, In f acceptedFiles -> FileUpload.size f <= maxSize * 1024 * 1024) ->
   FileUpload.onDrop onFileUpload maxSize true acceptedFiles
   = FileUpload.mkResult (Some acceptedFiles) [] []).
Proof.
  split.
  - intros [f [Hin Hbig]]. unfold FileUpload.onDrop.
    destruct acceptedFiles as [|x r]; [destruct Hin|].
    destruct (Nat.eqb (length (filter (fun f0 => maxSize * 1024 * 1024 <? FileUpload.size f0)
                                      (x :: r))) 0) eqn:E; [|reflexivity].
    pose proof (proj1 (oversized_count maxSize (x :: r)) E f Hin) as Hle. lia.
  - intros Hne Hfit. unfold FileUpload.onDrop.
    destruct acceptedFiles as [|x r]; [contradiction|].
    rewrite (proj2 (oversized_count maxSize (x :: r)) Hfit). reflexivity.
Qed.

Lemma onDrop_size_gate_witness :
  FileUpload.onDrop Fixture.upload_ok 10 false
    [FileUpload.mkFile "a.pdf" 100; FileUpload.mkFile "b.pdf" 10485761]
  = FileUpload.mkResult None [] [FileUpload.file_too_large 10] /\
  FileUpload.onDrop Fixture.upload_ok 10 true [FileUpload.mkFile "c.pdf" 10485760]
  = FileUpload.mkResult (Some [FileUpload.mkFile "c.pdf" 10485760]) [] [].
Proof.
  split.
  - apply (proj1 (onDrop_size_gate Fixture.upload_ok 10 false
                    [FileUpload.mkFile "a.pdf" 100; FileUpload.mkFile "b.pdf" 10485761])).
    exists (FileUpload.mkFile "b.pdf" 10485761). split; [right; left; reflexivity|].
    simpl. lia.
  - apply (proj2 (onDrop_size_gate Fixture.upload_ok 10 true
                    [FileUpload.mkFile "c.pdf" 10485760])).
    + discriminate.
    + intros f [E | []]. subst f. simpl. lia.
Defined.

(** X26.  When all dropped files fit and no [onFilesSelected] is given, the
    loop of [onDrop] attempts every file in order, and a failed upload does
    not stop the later ones: the list it leaves has one entry per file, with
    progress 100 and the url when that file's upload succeeded and progress 0
    with the error "Upload failed" when it did not, and there is one toast per
    file, in the same order. *)
Theorem onDrop_uploads_every_file (onFileUpload : FileUpload.File -> option string)
    (maxSize : Z) (acceptedFiles : list FileUpload.File) :
  acceptedFiles <> [] ->
  (forall f, In f acceptedFiles -> FileUpload.size f <= maxSize * 1024 * 1024) ->
  FileUpload.onDrop onFileUpload maxSize false acceptedFiles
  = FileUpload.mkResult None (map (upload_final onFileUpload) acceptedFiles)
                        (map (upload_toast onFileUpload) acceptedFiles).
Proof.
  intros Hne Hfit. unfold FileUpload.onDrop.
  destruct acceptedFiles as [|x r]; [contradiction|].
  rewrite (proj2 (oversized_count maxSize (x :: r)) Hfit). cbn [negb].
  pose proof (upload_from_all onFileUpload (x :: r) [] []) as H.
  cbn [length app] in H. rewrite H. reflexivity.
Qed.

Lemma onDrop_uploads_every_file_witness :
  FileUpload.onDrop Fixture.upload_ok 10 false
    [FileUpload.mkFile "empty.txt" 0; FileUpload.mkFile "a.pdf" 100]
  = FileUpload.mkResult None
      [FileUpload.mkUploading (FileUpload.mkFile "empty.txt" 0) 0 None (Some "Upload failed");
       FileUpload.mkUploading (FileUpload.mkFile "a.pdf" 100) 100
         (Some "https://example.com/files/a.pdf") None]
      [FileUpload.upload_failed "empty.txt"; FileUpload.upload_success "a.pdf"].
Proof.
  apply (onDrop_uploads_every_file Fixture.upload_ok 10
           [FileUpload.mkFile "empty.txt" 0; FileUpload.mkFile "a.pdf" 100]).
  - discriminate.
  - intros f [E | [E | []]]; subst f; simpl; lia.
Defined.

(** ** More on the suggestion proxy *)

(** X27.  Every response of the handler, the preflight one and both the
    success and the failure ones, carries the header that permits any origin,
    and its status is 200 or 500; only a request other than OPTIONS can get
    500. *)
Theorem handler_cors_on_every_response
    (openai : AiSuggestions.ChatRequest -> AiSuggestions.exc AiSuggestions.json)
    (JSON_parse : string -> option AiSuggestions.json) (req : AiSuggestions.Request) :
  In ("Access-Control-Allow-Origin", "*")
     (AiSuggestions.headers (AiSuggestions.handler openai JSON_parse req)) /\
  (AiSuggestions.status (AiSuggestions.handler openai JSON_parse req) = 200 \/
   (AiSuggestions.status (AiSuggestions.handler openai JSON_parse req) = 500 /\
    AiSuggestions.method req <> "OPTIONS")).
Proof.
  unfold AiSuggestions.handler.
  destruct (String.eqb (AiSuggestions.method req) "OPTIONS") eqn:Em.
  - split; [left; reflexivity | left; reflexivity].
  - apply String.eqb_neq in Em.
    destruct (AiSuggestions.try_block openai JSON_parse req); simpl.
    + split; [left; reflexivity | right; split; [reflexivity | exact Em]].
    + split; [left; reflexivity | left; reflexivity].
Qed.

(** X28.  The upstream is consulted only for a request whose body parses and
    names one of the three suggestion types: for every other request the
    response is the same whatever the upstream and [JSON.parse] would have
    answered.  The method is read only to recognise OPTIONS: two requests
    with the same body and methods other than OPTIONS get the same
    response. *)
Theorem handler_consults_upstream_only_for_valid_requests
    (openai1 openai2 : AiSuggestions.ChatRequest -> AiSuggestions.exc AiSuggestions.json)
    (parse1 parse2 : string -> option AiSuggestions.json) (req : AiSuggestions.Request) :
  ((forall b type content subject prompt,
       AiSuggestions.req_json req = inr b ->
       AiSuggestions.destructure b = inr (type, content, subject) ->
       AiSuggestions.build_prompt type content subject = inr prompt -> False) ->
   AiSuggestions.handler openai1 parse1 req = AiSuggestions.handler openai2 parse2 req) /\
  (forall m,
      AiSuggestions.method req <> "OPTIONS" -> m <> "OPTIONS" ->
      AiSuggestions.handler openai1 parse1 (AiSuggestions.mkRequest m (AiSuggestions.req_json req))
      = AiSuggestions.handler openai1 parse1 req).
Proof.
  split.
  - intros Hinv. unfold AiSuggestions.handler.
    destruct (String.eqb (AiSuggestions.method req) "OPTIONS"); [reflexivity|].
    unfold AiSuggestions.try_block.
    destruct (AiSuggestions.req_json req) as [msg|b] eqn:Eb; simpl; [reflexivity|].
    destruct (AiSuggestions.destructure b) as [msg|[[type content] subject]] eqn:Ed; simpl;
      [reflexivity|].
    destruct (AiSuggestions.build_prompt type content subject) as [msg|prompt] eqn:Ep; simpl;
      [reflexivity|].
    exfalso. exact (Hinv b type content subject prompt eq_refl Ed Ep).
  - intros m Hreq Hm. unfold AiSuggestions.handler. simpl.
    apply String.eqb_neq in Hreq, Hm. rewrite Hreq, Hm. reflexivity.
Qed.

Lemma handler_consults_upstream_only_for_valid_requests_witness :
  AiSuggestions.handler (Scenario.openai_ok "x") Scenario.parse_braces (Scenario.post "essay")
  = AiSuggestions.handler Scenario.openai_down (fun _ => None) (Scenario.post "essay").
Proof.
  apply (proj1 (handler_consults_upstream_only_for_valid_requests
                  (Scenario.openai_ok "x") Scenario.openai_down
                  Scenario.parse_braces (fun _ => None) (Scenario.post "essay"))).
  intros b type content subject prompt Hb Hd Hp.
  injection Hb as Hb. subst b. injection Hd as H1 H2 H3. subst. discriminate Hp.
Defined.

(** ** The order of the answers *)

Lemma answer_before_accepted_first (a x : answer.row) :
  (QuestionDetail.answer_before a x = true -> accepted_first a x) /\
  (QuestionDetail.answer_before a x = false -> accepted_first x a).
Proof.
  unfold QuestionDetail.answer_before, accepted_first.
  destruct (answer.is_accepted a), (answer.is_accepted x); split; intros; congruence.
Qed.

Lemma insert_answer_sorted_In (a y : answer.row) (l : list answer.row) :
  In y (QuestionDetail.insert_answer_sorted a l) <-> y = a \/ In y l.
Proof.
  induction l as [|x r IH]; simpl.
  - intuition congruence.
  - destruct (QuestionDetail.answer_before a x); simpl.
    + intuition congruence.
    + rewrite IH. intuition congruence.
Qed.

Lemma insert_answer_sorted_sorted (a : answer.row) (l : list answer.row) :
  StronglySorted accepted_first l ->
  StronglySorted accepted_first (QuestionDetail.insert_answer_sorted a l).
Proof.
  induction l as [|x r IH]; intros Hs; simpl.
  - constructor; constructor.
  - inversion Hs as [|x' r' Hr Hall]; subst.
    destruct (QuestionDetail.answer_before a x) eqn:E.
    + constructor; [exact Hs|].
      apply (proj1 (answer_before_accepted_first a x)) in E.
      constructor; [exact E|].
      rewrite Forall_forall in *. intros y Hy Hacc. apply E. apply (Hall y Hy Hacc).
    + constructor; [apply IH; exact Hr|].
      apply (proj2 (answer_before_accepted_first a x)) in E.
      rewrite Forall_forall in *. intros y Hy.
      apply insert_answer_sorted_In in Hy. destruct Hy as [Hy | Hy];
        [subst y; exact E | exact (Hall y Hy)].
Qed.

(** X29.  [fetchAnswers] lists exactly the answers of the question, each as
    often as the table holds it, with accepted answers first: no answer that
    is not accepted comes before an accepted one, so when the question has an
    accepted answer the first entry of the list is an accepted answer. *)
Theorem fetchAnswers_accepted_first (user : actor) (id : uuid) (db : Db) :
  StronglySorted accepted_first (QuestionDetail.fetchAnswers user id db) /\
  (forall a, In a (QuestionDetail.fetchAnswers user id db)
             <-> In a (answers db) /\ answer.question_id a = id) /\
  ((exists b, In b (answers db) /\ answer.question_id b = id /\ answer.is_accepted b = true) ->
   exists a rest, QuestionDetail.fetchAnswers user id db = a :: rest /\
                  answer.is_accepted a = true).
Proof.
  unfold QuestionDetail.fetchAnswers.
  assert (G : forall l acc,
             StronglySorted accepted_first acc ->
             StronglySorted accepted_first
               (fold_left (fun acc a => QuestionDetail.insert_answer_sorted a acc) l acc) /\
             (forall a, In a (fold_left (fun acc a => QuestionDetail.insert_answer_sorted a acc)
                                        l acc) <-> In a acc \/ In a l)).
  { induction l as [|x r IH]; intros acc Hacc; simpl.
    - split; [exact Hacc | tauto].
    - destruct (IH (QuestionDetail.insert_answer_sorted x acc)
                   (insert_answer_sorted_sorted x acc Hacc)) as [Hs Hin].
      split; [exact Hs|]. intros a. rewrite Hin, insert_answer_sorted_In.
      intuition congruence. }
  destruct (G (Supabase.select_answers user id db) [] (SSorted_nil _)) as [Hs Hin].
  assert (M : forall a, In a (fold_left (fun acc a => QuestionDetail.insert_answer_sorted a acc)
                                        (Supabase.select_answers user id db) [])
                        <-> In a (answers db) /\ answer.question_id a = id).
  { intros a. rewrite Hin. unfold Supabase.select_answers.
    rewrite filter_In, answers_select_all, String.eqb_eq. simpl. tauto. }
  split; [exact Hs|]. split; [exact M|].
  intros [b [Hb [Hq Hacc]]].
  assert (Hb' := proj2 (M b) (conj Hb Hq)).
  destruct (fold_left (fun acc a => QuestionDetail.insert_answer_sorted a acc)
                      (Supabase.select_answers user id db) []) as [|a rest];
    [destruct Hb'|].
  exists a, rest. split; [reflexivity|].
  destruct Hb' as [E | Hr]; [subst; exact Hacc|].
  inversion Hs as [|a' r' _ Hall]; subst.
  rewrite Forall_forall in Hall. exact (Hall b Hr Hacc).
Qed.

Lemma fetchAnswers_accepted_first_witness :
  exists a rest,
    QuestionDetail.fetchAnswers None "q9" Fixture.db_self = a :: rest /\
    answer.is_accepted a = true.
Proof.
  apply (proj2 (proj2 (fetchAnswers_accepted_first None "q9" Fixture.db_self))).
  exists Fixture.s2. split; [right; left; reflexivity|]. split; reflexivity.
Defined.
